(** * Automatic_Converter: the parsing / detection / generation core

    A shallow embedding of [converter.py] and [new_converter.py].

    The two scripts are thin layers over four libraries ([json], [pandas],
    [xml.etree.ElementTree] / [xml.dom.minidom] and [yaml]).  The functions of
    the repository are embedded over an explicit interface of those calls
    (Section variables), so that what the repository's own code does is
    proved for every behaviour of the libraries; where a statement depends on
    what a library computes, a reference model of the call is given and named
    after it ([json_loads], [read_csv], ...). *)

From Stdlib Require Import String Ascii List ZArith NArith Bool Arith Lia.
From Stdlib Require Import DecimalString DecimalZ DecimalPos DecimalFacts.
From Stdlib Require Import Sorted Permutation.
Import ListNotations.
Open Scope string_scope.
Set Warnings "-register-all".

(** ** Python values *)

Module Py.

(** The floats that occur here are the ones [pandas] creates when it upcasts
    an integer column that has a missing entry: the missing marker [nan] and
    integer-valued floats. *)
Inductive float := Fnan | Fwhole (z : Z).

(** A [dict] keeps insertion order: an association list. *)
Inductive value :=
| VNone
| VBool (b : bool)
| VInt (z : Z)
| VFloat (f : float)
| VStr (s : string)
| VList (l : list value)
| VDict (d : list (string * value)).

(** [x is None] *)
Definition is_None (v : value) : bool :=
  match v with VNone => true | _ => false end.

(** [isinstance(x, list)] and [isinstance(x, dict)] *)
Definition is_list (v : value) : bool :=
  match v with VList _ => true | _ => false end.
Definition is_dict (v : value) : bool :=
  match v with VDict _ => true | _ => false end.

(** Exceptions, by the classes the scripts name in their [except] clauses;
    [str(e)] is the carried message. *)
Inductive exn_class := JSONDecodeError | XMLParseError | YAMLError | OtherError.

Record exn := Exn { exn_cls : exn_class; exn_msg : string }.

Definition exn_class_eqb (a b : exn_class) : bool :=
  match a, b with
  | JSONDecodeError, JSONDecodeError | XMLParseError, XMLParseError
  | YAMLError, YAMLError | OtherError, OtherError => true
  | _, _ => false
  end.

(** The outcome of a call: a value, or a raised exception. *)
Inductive outcome (A : Type) :=
| Ret (a : A)
| Raise (e : exn).
Arguments Ret {A} a.
Arguments Raise {A} e.

Definition bind {A B} (m : outcome A) (k : A -> outcome B) : outcome B :=
  match m with Ret a => k a | Raise e => Raise e end.

(** [try: body  except cls as e: handler e] *)
Definition try_except {A} (body : outcome A) (cls : exn_class)
    (handler : exn -> outcome A) : outcome A :=
  match body with
  | Ret a => Ret a
  | Raise e => if exn_class_eqb (exn_cls e) cls then handler e else Raise e
  end.

(** [try: body  except Exception as e: handler e], and the bare [except:] *)
Definition try_except_all {A} (body : outcome A) (handler : exn -> outcome A)
    : outcome A :=
  match body with Ret a => Ret a | Raise e => handler e end.

End Py.
Import Py.

Notation "x <- m ;; k" := (bind m (fun x => k))
  (at level 61, m at next level, right associativity).

(** ** Text helpers *)

Definition chr (n : nat) : ascii := ascii_of_nat n.
Definition LF : ascii := chr 10.
Definition CR : ascii := chr 13.
Definition TAB : ascii := chr 9.
Definition DQUOTE : ascii := chr 34.
Definition BACKSLASH : ascii := chr 92.
Definition nl : string := String LF "".

(** [s] between double quotes *)
Definition quoted (s : string) : string := String DQUOTE (s ++ String DQUOTE "").

(** [sep.join(parts)] *)
Fixpoint join (sep : string) (parts : list string) : string :=
  match parts with
  | [] => ""
  | [p] => p
  | p :: rest => p ++ sep ++ join sep rest
  end.

(** [s * n] *)
Fixpoint str_repeat (s : string) (n : nat) : string :=
  match n with O => "" | S k => s ++ str_repeat s k end.

(** [str.strip] strips the whitespace of [str.isspace]: here the ASCII
    ones, 9 to 13, 28 to 31 and the space. *)
Definition isspace (c : ascii) : bool :=
  let n := nat_of_ascii c in
  (Nat.leb 9 n && Nat.leb n 13) || (Nat.leb 28 n && Nat.leb n 31) || Nat.eqb n 32.

Fixpoint lstrip (s : string) : string :=
  match s with
  | String c r => if isspace c then lstrip r else s
  | "" => ""
  end.

(** [s.rstrip()]: a suffix of whitespace goes. *)
Fixpoint rstrip (s : string) : string :=
  match s with
  | String c r =>
      match rstrip r with
      | "" => if isspace c then "" else String c ""
      | r' => String c r'
      end
  | "" => ""
  end.

Definition strip (s : string) : string := rstrip (lstrip s).

Definition startswith (p s : string) : bool := String.prefix p s.

Fixpoint last_char (s : string) : option ascii :=
  match s with
  | "" => None
  | String c "" => Some c
  | String _ r => last_char r
  end.

(** [s.endswith(c)] for a one-character [c] *)
Definition endswith_char (c : ascii) (s : string) : bool :=
  match last_char s with Some c' => Ascii.eqb c' c | None => false end.

(** [p in s] *)
Fixpoint contains (p s : string) : bool :=
  String.prefix p s ||
  match s with String _ r => contains p r | "" => false end.

(** [s.count(c)] for a one-character [c] *)
Fixpoint count_char (c : ascii) (s : string) : nat :=
  match s with
  | String c' r => (if Ascii.eqb c' c then 1 else 0) + count_char c r
  | "" => 0
  end.

(** [s.split(c)] for a one-character separator: never the empty list. *)
Fixpoint split (c : ascii) (s : string) : list string :=
  match s with
  | "" => [""]
  | String c' r =>
      if Ascii.eqb c' c then "" :: split c r
      else match split c r with
           | h :: t => String c' h :: t
           | [] => [String c' ""]
           end
  end.

(** [s.replace(a, b)] for one-character [a] and [b] *)
Fixpoint replace_char (a b : ascii) (s : string) : string :=
  match s with
  | String c r => String (if Ascii.eqb c a then b else c) (replace_char a b r)
  | "" => ""
  end.

(** [str(z)] for an [int]: decimal digits, a leading minus sign. *)
Definition str_int (z : Z) : string := NilZero.string_of_int (Z.to_int z).

(** The float nearest to an integer, ties going to the even one: a float
    has 53 bits.  (An integer of more than 1024 bits has no float: outside
    the model.) *)
Definition round_double (z : Z) : Z :=
  let a := Z.abs z in
  let e := (Z.log2 a - 52)%Z in
  if Z.leb e 0 then z
  else
    let q := (a / 2 ^ e)%Z in
    let r := (a mod 2 ^ e)%Z in
    let half := (2 ^ (e - 1))%Z in
    let q' := if Z.ltb half r || (Z.eqb r half && Z.odd q) then (q + 1)%Z else q in
    (Z.sgn z * (q' * 2 ^ e))%Z.

(** the number of decimal digits of a positive integer *)
Definition decimal_digits (a : Z) : Z :=
  Z.of_nat (Decimal.nb_digits (N.to_uint (Z.to_N a))).

(** the decimal of [n] digits nearest to the whole float [a], among the one
    below and the one above, whose nearest float is [a] *)
Definition with_digits (a n : Z) : option Z :=
  let u := (10 ^ (decimal_digits a - n))%Z in
  let lo := (a / u * u)%Z in
  let hi := (lo + u)%Z in
  let ok_lo := Z.eqb (round_double lo) a in
  let ok_hi := Z.eqb (round_double hi) a in
  if ok_lo && ok_hi then Some (if Z.leb (a - lo) (hi - a) then lo else hi)
  else if ok_lo then Some lo
  else if ok_hi then Some hi
  else None.

(** the shortest decimal that reads back as [a]: 17 digits always do *)
Fixpoint shortest_decimal (a n : Z) (fuel : nat) : Z :=
  match fuel with
  | O => a
  | S f =>
      match with_digits a n with
      | Some c => c
      | None => shortest_decimal a (n + 1)%Z f
      end
  end.

Fixpoint strip_zeros (s : string) : string :=
  match s with
  | "" => ""
  | String c r =>
      match strip_zeros r with
      | "" => if Ascii.eqb c "0" then "" else String c ""
      | r' => String c r'
      end
  end.

(** [d.ddde+XX]: the digits of the decimal [c] without its last zeros, and
    its exponent, of two digits at least *)
Definition scientific (c : Z) : string :=
  let digits := str_int c in
  let exponent := Z.of_nat (String.length digits - 1) in
  match strip_zeros digits with
  | String d "" => String d ""
  | String d more => String d ("." ++ more)
  | "" => "0"
  end ++ "e+" ++ (if Z.ltb exponent 10 then "0" else "") ++ str_int exponent.

(** [repr] of a float of the model: [nan], or a whole number, which Python
    writes with all its digits and [.0] below [1e16], and from [1e16] on
    with the digits of the shortest decimal that reads back as the float,
    and an exponent. *)
Definition repr_float (f : float) : string :=
  match f with
  | Fnan => "nan"
  | Fwhole z =>
      if Z.ltb (Z.abs z) (10 ^ 16) then str_int z ++ ".0"
      else (if Z.ltb z 0 then "-" else "")
             ++ scientific (shortest_decimal (Z.abs z) 1 17)
  end.

(** ** Reference model of [json.dumps(data, indent=2, ensure_ascii=False)] *)

Module JsonEncode.

Definition hex_digit (n : nat) : ascii :=
  match n with
  | 0 => "0" | 1 => "1" | 2 => "2" | 3 => "3" | 4 => "4" | 5 => "5" | 6 => "6"
  | 7 => "7" | 8 => "8" | 9 => "9" | 10 => "a" | 11 => "b" | 12 => "c"
  | 13 => "d" | 14 => "e" | _ => "f"
  end%char.

(** [ESCAPE_DCT]: the quote, the backslash and the control characters below
    0x20; every other character is copied ([ensure_ascii=False]). *)
Definition escape_char (c : ascii) : string :=
  let n := nat_of_ascii c in
  if Nat.eqb n 34 then String BACKSLASH (String DQUOTE "")
  else if Nat.eqb n 92 then "\\"
  else if Nat.eqb n 10 then "\n"
  else if Nat.eqb n 13 then "\r"
  else if Nat.eqb n 9 then "\t"
  else if Nat.eqb n 8 then "\b"
  else if Nat.eqb n 12 then "\f"
  else if Nat.ltb n 32
       then "\u00" ++ String (hex_digit (n / 16)) (String (hex_digit (n mod 16)) "")
  else String c "".

Fixpoint escape (s : string) : string :=
  match s with
  | "" => ""
  | String c r => escape_char c ++ escape r
  end.

(** [encode_basestring] *)
Definition encode_basestring (s : string) : string :=
  String DQUOTE (escape s ++ String DQUOTE "").

(** ['\n' + indent * level] *)
Definition newline_indent (level : nat) : string := nl ++ str_repeat "  " level.

(** [float.__repr__], with [nan] written [NaN] ([allow_nan=True]). *)
Definition floatstr (f : float) : string :=
  match f with Fnan => "NaN" | _ => repr_float f end.

(** [_iterencode], [_iterencode_list], [_iterencode_dict], at the current
    indent level. *)
Fixpoint iterencode (level : nat) (v : value) : string :=
  match v with
  | VNone => "null"
  | VBool true => "true"
  | VBool false => "false"
  | VInt z => str_int z
  | VFloat f => floatstr f
  | VStr s => encode_basestring s
  | VList [] => "[]"
  | VList l =>
      "[" ++ newline_indent (S level)
          ++ join ("," ++ newline_indent (S level)) (map (iterencode (S level)) l)
          ++ newline_indent level ++ "]"
  | VDict [] => "{}"
  | VDict d =>
      "{" ++ newline_indent (S level)
          ++ join ("," ++ newline_indent (S level))
               (map (fun kv => encode_basestring (fst kv) ++ ": "
                                 ++ iterencode (S level) (snd kv)) d)
          ++ newline_indent level ++ "}"
  end.

Definition dumps (v : value) : string := iterencode 0 v.

End JsonEncode.

(** [d[k] = v] on an insertion-ordered dict: a present key keeps its place
    and takes the new value, a new key goes last. *)
Fixpoint dict_set (d : list (string * value)) (k : string) (v : value)
    : list (string * value) :=
  match d with
  | [] => [(k, v)]
  | (k', v') :: rest =>
      if String.eqb k' k then (k', v) :: rest else (k', v') :: dict_set rest k v
  end.

(** [dict(pairs)] *)
Definition dict_of_pairs (pairs : list (string * value)) : list (string * value) :=
  fold_left (fun d kv => dict_set d (fst kv) (snd kv)) pairs [].

(** ** Reference model of [json.loads]

    The pure-Python decoder of the standard library ([json.decoder],
    [json.scanner]), on the fragment: ASCII escapes, integer numerals, and
    the numerals with a fraction or an exponent whose value is a whole number
    of magnitude at most [2 ** 53], which are floats.  Another numeral with
    a fraction or an exponent, [Infinity], and the [\u] escape of a
    surrogate that stays alone are outside the fragment and are reported
    with [OtherError] (the library decodes them); a message is the library's
    without its position suffix. *)

Module JsonDecode.

Definition decode_error {A} (msg : string) : outcome A :=
  Raise (Exn JSONDecodeError msg).

Definition outside {A} (what : string) : outcome A :=
  Raise (Exn OtherError what).

(** [WHITESPACE = re.compile(r'[ \t\n\r]*')] *)
Definition is_ws (c : ascii) : bool :=
  Ascii.eqb c " " || Ascii.eqb c TAB || Ascii.eqb c LF || Ascii.eqb c CR.

Fixpoint skip_ws (s : string) : string :=
  match s with
  | String c r => if is_ws c then skip_ws r else s
  | "" => ""
  end.

(** [s[0] == c], and the text after it *)
Definition starts (c : ascii) (s : string) : option string :=
  match s with
  | String c' r => if Ascii.eqb c' c then Some r else None
  | "" => None
  end.

(** [s.startswith(p)], and the text after the prefix *)
Fixpoint strip_prefix (p s : string) : option string :=
  match p with
  | "" => Some s
  | String a p' =>
      match s with
      | String b s' => if Ascii.eqb a b then strip_prefix p' s' else None
      | "" => None
      end
  end.

Definition hex_val (c : ascii) : option nat :=
  let n := nat_of_ascii c in
  if Nat.leb 48 n && Nat.leb n 57 then Some (n - 48)
  else if Nat.leb 97 n && Nat.leb n 102 then Some (n - 87)
  else if Nat.leb 65 n && Nat.leb n 70 then Some (n - 55)
  else None.

(** [BACKSLASH]: the one-letter escapes *)
Definition backslash (c : ascii) : option ascii :=
  if Ascii.eqb c DQUOTE then Some DQUOTE
  else if Ascii.eqb c BACKSLASH then Some BACKSLASH
  else if Ascii.eqb c "/" then Some "/"%char
  else if Ascii.eqb c "b" then Some (chr 8)
  else if Ascii.eqb c "f" then Some (chr 12)
  else if Ascii.eqb c "n" then Some LF
  else if Ascii.eqb c "r" then Some CR
  else if Ascii.eqb c "t" then Some TAB
  else None.

Definition cons_char (c : ascii) (m : outcome (string * string))
    : outcome (string * string) :=
  p <- m ;; Ret (String c (fst p), snd p).

Definition cons_text (t : string) (m : outcome (string * string))
    : outcome (string * string) :=
  p <- m ;; Ret (t ++ fst p, snd p).

(** [chr(code)], as the bytes of its UTF-8 encoding, for a code from 0x80 on *)
Definition utf8_of_code (code : N) : string :=
  let b (n : N) := String (ascii_of_N n) "" in
  if N.ltb code 2048 then b (192 + code / 64)%N ++ b (128 + code mod 64)%N
  else if N.ltb code 65536
  then b (224 + code / 4096)%N ++ b (128 + (code / 64) mod 64)%N
         ++ b (128 + code mod 64)%N
  else b (240 + code / 262144)%N ++ b (128 + (code / 4096) mod 64)%N
         ++ b (128 + (code / 64) mod 64)%N ++ b (128 + code mod 64)%N.

(** the four hexadecimal digits of a [\uXXXX] escape *)
Definition hex4 (h1 h2 h3 h4 : ascii) : option N :=
  match hex_val h1, hex_val h2, hex_val h3, hex_val h4 with
  | Some a, Some b, Some c, Some d =>
      if Ascii.eqb h2 "x" || Ascii.eqb h2 "X" then None
      else Some (((N.of_nat a * 16 + N.of_nat b) * 16 + N.of_nat c) * 16
                 + N.of_nat d)%N
  | _, _, _, _ => None
  end.

Definition is_high_surrogate (code : N) : bool :=
  N.leb 55296 code && N.leb code 56319.
Definition is_low_surrogate (code : N) : bool :=
  N.leb 56320 code && N.leb code 57343.

(** [py_scanstring(s, end, strict=True)], from just after the opening quote:
    the decoded string and the text after the closing quote.  A [\uXXXX]
    escape gives the character of that code; a high surrogate followed by
    the escape of a low surrogate gives the character of the pair.  A
    surrogate that stays alone has no UTF-8 encoding: outside the model. *)
Fixpoint scanstring (s : string) : outcome (string * string) :=
  match s with
  | "" => decode_error "Unterminated string starting at"
  | String c r =>
      if Ascii.eqb c DQUOTE then Ret ("", r)
      else if Ascii.eqb c BACKSLASH then
        match r with
        | "" => decode_error "Unterminated string starting at"
        | String e r' =>
            if Ascii.eqb e "u" then
              match r' with
              | String h1 (String h2 (String h3 (String h4 r''))) =>
                  match hex4 h1 h2 h3 h4 with
                  | Some code =>
                      if N.ltb code 128
                      then cons_char (ascii_of_N code) (scanstring r'')
                      else if is_high_surrogate code then
                        match r'' with
                        | String b (String u (String g1 (String g2 (String g3
                            (String g4 r3))))) =>
                            if Ascii.eqb b BACKSLASH && Ascii.eqb u "u" then
                              match hex4 g1 g2 g3 g4 with
                              | Some low =>
                                  if is_low_surrogate low
                                  then cons_text
                                         (utf8_of_code
                                            (65536 + (code - 55296) * 1024
                                             + (low - 56320))%N)
                                         (scanstring r3)
                                  else outside "a lone surrogate"
                              | None => decode_error "Invalid \uXXXX escape"
                              end
                            else outside "a lone surrogate"
                        | _ => outside "a lone surrogate"
                        end
                      else if is_low_surrogate code then outside "a lone surrogate"
                      else cons_text (utf8_of_code code) (scanstring r'')
                  | None => decode_error "Invalid \uXXXX escape"
                  end
              | _ => decode_error "Invalid \uXXXX escape"
              end
            else
              match backslash e with
              | Some ch => cons_char ch (scanstring r')
              | None => decode_error "Invalid \escape"
              end
        end
      else if Nat.ltb (nat_of_ascii c) 32 then decode_error "Invalid control character at"
      else cons_char c (scanstring r)
  end.

(** [NUMBER_RE]: an optional minus sign, then a single 0 or a non-zero digit
    followed by digits; then an optional fraction (a dot and digits) and an
    optional exponent (e or E, an optional sign, digits). *)
Definition digit_of (c : ascii) : option (Decimal.uint -> Decimal.uint) :=
  match c with
  | "0" => Some Decimal.D0 | "1" => Some Decimal.D1 | "2" => Some Decimal.D2
  | "3" => Some Decimal.D3 | "4" => Some Decimal.D4 | "5" => Some Decimal.D5
  | "6" => Some Decimal.D6 | "7" => Some Decimal.D7 | "8" => Some Decimal.D8
  | "9" => Some Decimal.D9 | _ => None
  end%char.

Definition is_digit (c : ascii) : bool :=
  match digit_of c with Some _ => true | None => false end.

Fixpoint scan_digits (s : string) : Decimal.uint * string :=
  match s with
  | String c r =>
      match digit_of c with
      | Some d => let p := scan_digits r in (d (fst p), snd p)
      | None => (Decimal.Nil, s)
      end
  | "" => (Decimal.Nil, "")
  end.

(** [0|[1-9][0-9]*] *)
Definition match_uint (s : string) : option (Decimal.uint * string) :=
  match s with
  | String c r =>
      match digit_of c with
      | Some d =>
          if Ascii.eqb c "0" then Some (Decimal.D0 Decimal.Nil, r)
          else let p := scan_digits r in Some (d (fst p), snd p)
      | None => None
      end
  | "" => None
  end.

Definition match_integer (s : string) : option (Decimal.int * string) :=
  match starts "-" s with
  | Some r => option_map (fun p => (Decimal.Neg (fst p), snd p)) (match_uint r)
  | None => option_map (fun p => (Decimal.Pos (fst p), snd p)) (match_uint s)
  end.

Definition first_is (f : ascii -> bool) (s : string) : bool :=
  match s with String c _ => f c | "" => false end.

(** [(\.\d+)?]: the digits of a fraction, when a dot and a digit follow *)
Definition match_frac (s : string) : option (Decimal.uint * string) :=
  match s with
  | String c r =>
      if Ascii.eqb c "." && first_is is_digit r then Some (scan_digits r) else None
  | "" => None
  end.

(** [([eE][-+]?\d+)?]: an exponent, when a digit follows the letter and the
    optional sign *)
Definition match_exp (s : string) : option (Decimal.int * string) :=
  match s with
  | String c r =>
      if Ascii.eqb c "e" || Ascii.eqb c "E" then
        match starts "-" r, starts "+" r with
        | Some r', _ =>
            if first_is is_digit r'
            then Some (Decimal.Neg (fst (scan_digits r')), snd (scan_digits r'))
            else None
        | None, Some r' =>
            if first_is is_digit r'
            then Some (Decimal.Pos (fst (scan_digits r')), snd (scan_digits r'))
            else None
        | None, None =>
            if first_is is_digit r
            then Some (Decimal.Pos (fst (scan_digits r)), snd (scan_digits r))
            else None
        end
      else None
  | "" => None
  end.

Definition is_negative (i : Decimal.int) : bool :=
  match i with Decimal.Neg _ => true | Decimal.Pos _ => false end.

(** [float(integer + frac + exp)], where the model has the float: the value
    of the numeral is computed exactly, as [m * 10 ** x]; a whole number of
    magnitude at most [2 ** 53] is a float as it is.  A numeral with another
    value (a fraction, a larger number, which is rounded, or an overflow) and
    the negative zero are outside the model. *)
Definition parse_float (i : Decimal.int) (frac : option Decimal.uint)
    (exp : option Decimal.int) : outcome float :=
  let digits := match frac with Some d => d | None => Decimal.Nil end in
  let nf := Z.of_nat (Decimal.nb_digits digits) in
  let m := (Z.abs (Z.of_int i) * 10 ^ nf + Z.of_uint digits)%Z in
  let x := (match exp with Some e => Z.of_int e | None => 0 end - nf)%Z in
  let whole :=
    if Z.eqb m 0 then Some 0%Z
    else if Z.leb 0 x then
      if Z.leb x 16 then Some (m * 10 ^ x)%Z else None
    else if Z.ltb (Z.of_nat (Decimal.nb_digits (N.to_uint (Z.to_N m)))) (- x) then None
    else if Z.eqb (m mod 10 ^ (- x)) 0 then Some (m / 10 ^ (- x))%Z
    else None in
  match whole with
  | Some z =>
      if Z.eqb z 0 && is_negative i then outside "float numeral: negative zero"
      else if Z.leb z (2 ^ 53)
      then Ret (Fwhole (if is_negative i then - z else z))
      else outside "float numeral: above 2**53"
  | None => outside "float numeral: not a whole number, or above 2**53"
  end.

(** a number: an integer when it has neither fraction nor exponent *)
Definition parse_number (i : Decimal.int) (rest : string) : outcome (value * string) :=
  let frac := match_frac rest in
  let r2 := match frac with Some p => snd p | None => rest end in
  let exp := match_exp r2 in
  let r3 := match exp with Some p => snd p | None => r2 end in
  match frac, exp with
  | None, None => Ret (VInt (Z.of_int i), rest)
  | _, _ =>
      f <- parse_float i (option_map fst frac) (option_map fst exp) ;;
      Ret (VFloat f, r3)
  end.

(** [scan_once], [JSONObject] and [JSONArray].  [fuel] bounds the number of
    nested calls; [loads] gives twice the length of the text. *)
Fixpoint scan_once (fuel : nat) (s : string) {struct fuel}
    : outcome (value * string) :=
  match fuel with
  | O => outside "RecursionError"
  | S f =>
    match s with
    | "" => decode_error "Expecting value"
    | String c r =>
      if Ascii.eqb c DQUOTE then
        p <- scanstring r ;; Ret (VStr (fst p), snd p)
      else if Ascii.eqb c "{" then
        match skip_ws r with
        | String c1 r1 =>
            if Ascii.eqb c1 "}" then Ret (VDict [], r1)
            else if Ascii.eqb c1 DQUOTE then
              p <- object_members f r1 ;; Ret (VDict (dict_of_pairs (fst p)), snd p)
            else decode_error "Expecting property name enclosed in double quotes"
        | "" => decode_error "Expecting property name enclosed in double quotes"
        end
      else if Ascii.eqb c "[" then
        match starts "]" (skip_ws r) with
        | Some r1 => Ret (VList [], r1)
        | None => p <- array_items f (skip_ws r) ;; Ret (VList (fst p), snd p)
        end
      else
        match strip_prefix "null" s, strip_prefix "true" s, strip_prefix "false" s with
        | Some r1, _, _ => Ret (VNone, r1)
        | _, Some r1, _ => Ret (VBool true, r1)
        | _, _, Some r1 => Ret (VBool false, r1)
        | None, None, None =>
            match match_integer s with
            | Some (i, r1) => parse_number i r1
            | None =>
                match strip_prefix "NaN" s with
                | Some r1 => Ret (VFloat Fnan, r1)
                | None =>
                    match strip_prefix "Infinity" s, strip_prefix "-Infinity" s with
                    | None, None => decode_error "Expecting value"
                    | _, _ => outside "float numeral"
                    end
                end
            end
        end
    end
  end

(** the members of an object, from just after the opening quote of a key *)
with object_members (fuel : nat) (s : string) {struct fuel}
    : outcome (list (string * value) * string) :=
  match fuel with
  | O => outside "RecursionError"
  | S f =>
    k <- scanstring s ;;
    match starts ":" (skip_ws (snd k)) with
    | None => decode_error "Expecting ':' delimiter"
    | Some r1 =>
        v <- scan_once f (skip_ws r1) ;;
        match skip_ws (snd v) with
        | String c r2 =>
            if Ascii.eqb c "}" then Ret ([(fst k, fst v)], r2)
            else if Ascii.eqb c "," then
              match starts DQUOTE (skip_ws r2) with
              | Some r3 =>
                  p <- object_members f r3 ;; Ret ((fst k, fst v) :: fst p, snd p)
              | None =>
                  decode_error "Expecting property name enclosed in double quotes"
              end
            else decode_error "Expecting ',' delimiter"
        | "" => decode_error "Expecting ',' delimiter"
        end
    end
  end

(** the items of a non-empty array, from the first item *)
with array_items (fuel : nat) (s : string) {struct fuel}
    : outcome (list value * string) :=
  match fuel with
  | O => outside "RecursionError"
  | S f =>
    v <- scan_once f s ;;
    match skip_ws (snd v) with
    | String c r1 =>
        if Ascii.eqb c "]" then Ret ([fst v], r1)
        else if Ascii.eqb c "," then
          p <- array_items f (skip_ws r1) ;; Ret (fst v :: fst p, snd p)
        else decode_error "Expecting ',' delimiter"
    | "" => decode_error "Expecting ',' delimiter"
    end
  end.

(** [JSONDecoder.decode]: leading whitespace, one value, trailing whitespace,
    nothing else. *)
Definition decode (fuel : nat) (s : string) : outcome value :=
  p <- scan_once fuel (skip_ws s) ;;
  match skip_ws (snd p) with
  | "" => Ret (fst p)
  | _ => decode_error "Extra data"
  end.

Definition loads (s : string) : outcome value :=
  decode (2 * String.length s + 2) s.

End JsonDecode.


(** ** [str] and [repr] *)

Definition hex2 (n : nat) : string :=
  String (JsonEncode.hex_digit (n / 16)) (String (JsonEncode.hex_digit (n mod 16)) "").

Definition SQUOTE : ascii := chr 39.

Definition repr_char (q c : ascii) : string :=
  let n := nat_of_ascii c in
  if Ascii.eqb c BACKSLASH then "\\"
  else if Ascii.eqb c q then String BACKSLASH (String q "")
  else if Ascii.eqb c TAB then "\t"
  else if Ascii.eqb c LF then "\n"
  else if Ascii.eqb c CR then "\r"
  else if Nat.ltb n 32 || Nat.eqb n 127 then "\x" ++ hex2 n
  else String c "".

Fixpoint repr_chars (q : ascii) (s : string) : string :=
  match s with
  | String c r => repr_char q c ++ repr_chars q r
  | "" => ""
  end.

(** [repr(s)]: single quotes, unless the text has one and no double quote. *)
Definition repr_str (s : string) : string :=
  let q := if contains (String SQUOTE "") s && negb (contains (String DQUOTE "") s)
           then DQUOTE else SQUOTE in
  String q (repr_chars q s ++ String q "").

Fixpoint repr (v : value) : string :=
  match v with
  | VNone => "None"
  | VBool true => "True"
  | VBool false => "False"
  | VInt z => str_int z
  | VFloat f => repr_float f
  | VStr s => repr_str s
  | VList l => "[" ++ join ", " (map repr l) ++ "]"
  | VDict d =>
      "{" ++ join ", " (map (fun kv => repr_str (fst kv) ++ ": " ++ repr (snd kv)) d) ++ "}"
  end.

(** [str(v)], also what an f-string writes for [{v}] *)
Definition str (v : value) : string :=
  match v with
  | VStr s => s
  | _ => repr v
  end.

(** ** Library data: data frames and element trees *)

(** A [pandas.DataFrame] without its index: the column labels and the rows
    of cells. *)
Record dataframe := DataFrame { df_columns : list string; df_rows : list (list value) }.

(** [df.to_dict('records')]: one dict per row, [dict(zip(columns, row))]. *)
Definition to_dict_records (df : dataframe) : value :=
  VList (map (fun row => VDict (dict_of_pairs (combine (df_columns df) row)))
             (df_rows df)).

(** An [xml.etree.ElementTree.Element]: tag, text, children. *)
Inductive element := Element (tag : string) (text : option string) (children : list element).

Definition el_tag (e : element) : string := let 'Element t _ _ := e in t.
Definition el_text (e : element) : option string := let 'Element _ t _ := e in t.
Definition el_children (e : element) : list element := let 'Element _ _ c := e in c.

(** [e.text or ""] *)
Definition text_or_empty (e : element) : value :=
  match el_text e with Some t => VStr t | None => VStr "" end.

(** ** Reference model of [pandas.read_csv]

    [pd.read_csv(io.StringIO(content), delimiter=d)] with the C engine and its
    defaults: the first line is the header, blank lines are skipped, a field
    may be quoted (doubled quote inside), the type of a column is inferred
    from its cells. *)

Module PandasCsv.

(** [pandas.errors.ParserError], [pandas.errors.EmptyDataError]: both caught
    by the parsers' [except Exception]. *)
Definition parser_error {A} (msg : string) : outcome A :=
  Raise (Exn OtherError ("Error tokenizing data. C error: " ++ msg)).
Definition empty_data_error {A} : outcome A :=
  Raise (Exn OtherError "No columns to parse from file").

(** *** The tokenizer ([tokenize_bytes] of tokenizer.c) *)

Inductive state :=
| START_RECORD | WHITESPACE_LINE | START_FIELD | IN_FIELD
| IN_QUOTED_FIELD | QUOTE_IN_QUOTED_FIELD | EAT_CRNL | EAT_CRNL_NOP.

(** The lines ended so far, each with its line number in the file, the fields
    of the line being read, the field being read, the file lines passed. *)
Record tokens := Tokens {
  tk_lines : list (nat * list string);
  tk_fields : list string;
  tk_word : string;
  tk_file_lines : nat
}.

Definition push_char (c : ascii) (t : tokens) : tokens :=
  Tokens (tk_lines t) (tk_fields t) (tk_word t ++ String c "") (tk_file_lines t).

Definition end_field (t : tokens) : tokens :=
  Tokens (tk_lines t) (tk_fields t ++ [tk_word t]) "" (tk_file_lines t).

(** the line is stored; its field count is checked in [end_line] below *)
Definition store_line (t : tokens) : tokens :=
  Tokens (tk_lines t ++ [(S (tk_file_lines t), tk_fields t)]) [] ""
         (S (tk_file_lines t)).

Definition skip_line (t : tokens) : tokens :=
  Tokens (tk_lines t) [] "" (S (tk_file_lines t)).

(** [IS_WHITESPACE] *)
Definition is_blank (c : ascii) : bool := Ascii.eqb c " " || Ascii.eqb c TAB.

(** A line ends at a line feed, at a carriage return followed by a line
    feed, and at a carriage return alone: after a carriage return the
    tokenizer is in [EAT_CRNL] (the line is stored at the next character) or,
    on an empty line, in [EAT_CRNL_NOP]. *)
Definition in_field (d c : ascii) (t : tokens) : state * tokens :=
  if Ascii.eqb c LF then (START_RECORD, store_line (end_field t))
  else if Ascii.eqb c CR then (EAT_CRNL, end_field t)
  else if Ascii.eqb c d then (START_FIELD, end_field t)
  else (IN_FIELD, push_char c t).

Definition start_field (d c : ascii) (t : tokens) : state * tokens :=
  if Ascii.eqb c LF then (START_RECORD, store_line (end_field t))
  else if Ascii.eqb c CR then (EAT_CRNL, end_field t)
  else if Ascii.eqb c DQUOTE then (IN_QUOTED_FIELD, t)
  else if Ascii.eqb c d then (START_FIELD, end_field t)
  else (IN_FIELD, push_char c t).

Definition start_record (d c : ascii) (t : tokens) : state * tokens :=
  if Ascii.eqb c LF then (START_RECORD, skip_line t)
  else if Ascii.eqb c CR then (EAT_CRNL_NOP, skip_line t)
  else if is_blank c && negb (Ascii.eqb c d) then (WHITESPACE_LINE, push_char c t)
  else start_field d c t.

(** One character.  In [WHITESPACE_LINE] the blanks read since the start of
    the line are kept in the word: a line break drops them with the line, any
    other character makes them the start of an unquoted field, which is what
    the C code gets by going back to the start of the line.  In [EAT_CRNL]
    and [EAT_CRNL_NOP] a character that is neither a line feed nor the
    delimiter is read again as the first of a record. *)
Definition step (d : ascii) (st : state) (t : tokens) (c : ascii) : state * tokens :=
  match st with
  | START_RECORD => start_record d c t
  | WHITESPACE_LINE =>
      if Ascii.eqb c LF then (START_RECORD, skip_line t)
      else if Ascii.eqb c CR then (EAT_CRNL_NOP, skip_line t)
      else if is_blank c && negb (Ascii.eqb c d) then (WHITESPACE_LINE, push_char c t)
      else in_field d c t
  | START_FIELD => start_field d c t
  | IN_FIELD => in_field d c t
  | IN_QUOTED_FIELD =>
      if Ascii.eqb c DQUOTE then (QUOTE_IN_QUOTED_FIELD, t)
      else (IN_QUOTED_FIELD, push_char c t)
  | QUOTE_IN_QUOTED_FIELD =>
      if Ascii.eqb c DQUOTE then (IN_QUOTED_FIELD, push_char c t)
      else if Ascii.eqb c d then (START_FIELD, end_field t)
      else if Ascii.eqb c LF then (START_RECORD, store_line (end_field t))
      else if Ascii.eqb c CR then (EAT_CRNL, end_field t)
      else (IN_FIELD, push_char c t)
  | EAT_CRNL =>
      if Ascii.eqb c LF then (START_RECORD, store_line t)
      else if Ascii.eqb c d then (START_FIELD, end_field (store_line t))
      else start_record d c (store_line t)
  | EAT_CRNL_NOP =>
      if Ascii.eqb c LF || Ascii.eqb c d then (START_RECORD, t)
      else start_record d c t
  end.

Fixpoint tokenize_bytes (d : ascii) (st : state) (t : tokens) (s : string)
    : state * tokens :=
  match s with
  | "" => (st, t)
  | String c r => let p := step d st t c in tokenize_bytes d (fst p) (snd p) r
  end.

(** [parser_handle_eof]: the lines, and whether the text ended inside a
    quoted field (with the row the message names). *)
Definition tokenize (d : ascii) (s : string) : list (nat * list string) * option nat :=
  let p := tokenize_bytes d START_RECORD (Tokens [] [] "" 0) s in
  match fst p with
  | START_RECORD | WHITESPACE_LINE | EAT_CRNL_NOP => (tk_lines (snd p), None)
  | IN_QUOTED_FIELD => (tk_lines (snd p), Some (tk_file_lines (snd p)))
  | START_FIELD | IN_FIELD | QUOTE_IN_QUOTED_FIELD =>
      (tk_lines (store_line (end_field (snd p))), None)
  | EAT_CRNL => (tk_lines (store_line (snd p)), None)
  end.

(** *** [end_line]: the field counts

    The header (line 0) and the first data line are taken as they are; from
    then on a line with more fields than the line before it is an error.  A
    data line with fewer fields than the line before it is filled with empty
    fields. *)
Definition pad (n : nat) (fields : list string) : list string :=
  (fields ++ repeat "" (n - length fields))%list.

Fixpoint end_lines (lines : list (nat * list string)) (idx ex_fields : nat)
    : outcome (list (list string)) :=
  match lines with
  | [] => Ret []
  | (file_line, fields) :: rest =>
      let n := length fields in
      if Nat.ltb 1 idx && Nat.ltb ex_fields n then
        parser_error ("Expected " ++ str_int (Z.of_nat ex_fields)
                        ++ " fields in line " ++ str_int (Z.of_nat file_line)
                        ++ ", saw " ++ str_int (Z.of_nat n) ++ nl)
      else
        let fields' := if Nat.leb 1 idx then pad ex_fields fields else fields in
        more <- end_lines rest (S idx) (length fields') ;;
        Ret (fields' :: more)
  end.

(** *** The header ([TextReader._get_header]) *)

Definition count_of (counts : list (string * nat)) (k : string) : nat :=
  match find (fun kv => String.eqb (fst kv) k) counts with
  | Some kv => snd kv
  | None => 0
  end.

Definition set_count (counts : list (string * nat)) (k : string) (n : nat)
    : list (string * nat) :=
  (k, n) :: filter (fun kv => negb (String.eqb (fst kv) k)) counts.

Definition str_nat (n : nat) : string := str_int (Z.of_nat n).

(** an empty name becomes [Unnamed: i] *)
Fixpoint name_unnamed (i : nat) (names : list string) : list string :=
  match names with
  | [] => []
  | n :: rest =>
      (if String.eqb n "" then "Unnamed: " ++ str_nat i else n)
        :: name_unnamed (S i) rest
  end.

Definition in_names (k : string) (names : list string) : bool :=
  existsb (String.eqb k) names.

(** the [while cur_count > 0] loop that looks for a free name [old.k] *)
Fixpoint free_name (fuel : nat) (this_header : list string) (old_col : string)
    (col : string) (cur_count : nat) (counts : list (string * nat))
    : string * nat * list (string * nat) :=
  match fuel with
  | O => (col, cur_count, counts)
  | S f =>
      if Nat.ltb 0 cur_count then
        let counts := set_count counts old_col (S cur_count) in
        let col := old_col ++ "." ++ str_nat cur_count in
        if in_names col this_header
        then free_name f this_header old_col col (S cur_count) counts
        else free_name f this_header old_col col (count_of counts col) counts
      else (col, cur_count, counts)
  end.

Fixpoint set_nth (i : nat) (x : string) (l : list string) : list string :=
  match l, i with
  | [], _ => []
  | _ :: t, O => x :: t
  | h :: t, S j => h :: set_nth j x t
  end.

(** the loop over [col_loop_order] *)
Fixpoint mangle (order : list nat) (this_header : list string)
    (counts : list (string * nat)) : list string :=
  match order with
  | [] => this_header
  | i :: rest =>
      let col := nth i this_header "" in
      let r := free_name (S (length this_header * length this_header))
                 this_header col col (count_of counts col) counts in
      let '(col', cur_count, counts') := r in
      mangle rest (set_nth i col' this_header) (set_count counts' col' (S cur_count))
  end.

Definition header_names (fields : list string) : list string :=
  let this_header := name_unnamed 0 fields in
  let idxs := seq 0 (length fields) in
  let unnamed i := String.eqb (nth i fields "") "" in
  let order := (filter (fun i => negb (unnamed i)) idxs ++ filter unnamed idxs)%list in
  mangle order this_header [].

(** *** The frame *)

Fixpoint transpose (width : nat) (rows : list (list string)) : list (list string) :=
  match width with
  | O => []
  | S w => map (fun r => hd "" r) rows :: transpose w (map (fun r => tl r) rows)
  end.

(** the rows of columns that all have length [n] *)
Fixpoint rows_of {A} (n : nat) (cols : list (list A)) (dflt : A) : list (list A) :=
  match n with
  | O => []
  | S k => map (fun c => hd dflt c) cols :: rows_of k (map (fun c => tl c) cols) dflt
  end.

Section ReadCsv.

(** the conversion of the cells of one column (type inference) *)
Variable convert : list string -> list value.

(** When the first data line has more fields than the header, the leading
    fields in excess are the index of the frame, not columns. *)
Definition read_csv (content : string) (d : ascii) : outcome dataframe :=
  let tk := tokenize d content in
  lines <- end_lines (fst tk) 0 0 ;;
  match snd tk with
  | Some row =>
      parser_error ("EOF inside string starting at row " ++ str_nat row)
  | None =>
      match lines with
      | [] => empty_data_error
      | header :: data =>
          let width := match data with [] => length header | r :: _ => length r end in
          let leading_cols := width - length header in
          let cols := map convert (skipn leading_cols (transpose width data)) in
          Ret (DataFrame (header_names header)
                         (rows_of (length data) cols VNone))
      end
  end.

End ReadCsv.

(** *** Type inference on the fragment: missing markers, integer numerals,
    the booleans, text *)

Definition na_values : list string :=
  [""; "#N/A"; "#N/A N/A"; "#NA"; "-1.#IND"; "-1.#QNAN"; "-NaN"; "-nan";
   "1.#IND"; "1.#QNAN"; "<NA>"; "N/A"; "NA"; "NULL"; "NaN"; "None"; "n/a";
   "nan"; "null"].

Definition is_na (cell : string) : bool := in_names cell na_values.

(** an optional sign and digits *)
Definition int_of_cell (cell : string) : option Z :=
  let body := match JsonDecode.starts "+" cell with Some r => r | None => cell end in
  match body with
  | "" => None
  | String c r =>
      if (Ascii.eqb c "-" && negb (String.eqb r "")) || JsonDecode.is_digit c
      then option_map Z.of_int (NilEmpty.int_of_string body)
      else None
  end.

Definition bool_of_cell (cell : string) : option bool :=
  if in_names cell ["True"; "TRUE"; "true"] then Some true
  else if in_names cell ["False"; "FALSE"; "false"] then Some false
  else None.

Definition is_some {A} (o : option A) : bool :=
  match o with Some _ => true | None => false end.

Definition infer_column (cells : list string) : list value :=
  let present := filter (fun c => negb (is_na c)) cells in
  if forallb (fun c => is_some (int_of_cell c)) present then
    if forallb (fun c => negb (is_na c)) cells
    then map (fun c => match int_of_cell c with Some z => VInt z | None => VNone end) cells
    else map (fun c => match int_of_cell c with
                       | Some z => VFloat (Fwhole (round_double z))
                       | None => VFloat Fnan
                       end) cells
  else if forallb (fun c => is_some (bool_of_cell c)) cells then
    map (fun c => match bool_of_cell c with Some b => VBool b | None => VNone end) cells
  else
    map (fun c => if is_na c then VFloat Fnan else VStr c) cells.

End PandasCsv.

(** ** Reference model of [pandas.DataFrame(records)] and [DataFrame.to_csv]

    The frame built from a list of dicts: the columns are the keys in the
    order they are first seen; a record without a key has the missing marker
    [nan] in that column.  A column of integers with a missing entry is a
    float column: its integers become floats. *)

Module PandasFrame.

(** [d.get(k)] *)
Definition dict_get (d : list (string * value)) (k : string) : option value :=
  option_map snd (find (fun kv => String.eqb (fst kv) k) d).

Fixpoint add_new (seen : list string) (keys : list string) : list string :=
  match keys with
  | [] => seen
  | k :: rest =>
      if PandasCsv.in_names k seen then add_new seen rest
      else add_new (seen ++ [k]) rest
  end.

(** the union of the keys, in first-seen order *)
Definition columns_of (records : list (list (string * value))) : list string :=
  fold_left (fun seen r => add_new seen (map fst r)) records [].

Definition is_int (v : value) : bool := match v with VInt _ => true | _ => false end.
Definition is_bool (v : value) : bool := match v with VBool _ => true | _ => false end.
Definition is_missing (o : option value) : bool :=
  match o with None | Some VNone | Some (VFloat Fnan) => true | _ => false end.
Definition is_number (v : value) : bool :=
  match v with VInt _ | VFloat _ => true | _ => false end.

Definition to_float (o : option value) : value :=
  match o with
  | Some (VInt z) => VFloat (Fwhole (round_double z))
  | Some (VFloat f) => VFloat f
  | _ => VFloat Fnan
  end.

(** The cells of one column, an absent key being [None] here.  A numeric
    column with a float or a missing entry is a float column; in any other
    column an absent key is [nan] and the values are kept. *)
Definition column_values (cells : list (option value)) : list value :=
  let present := filter (fun o => negb (is_missing o)) cells in
  let all_numbers :=
    forallb (fun o => match o with Some v => is_number v | None => false end) present in
  let all_ints :=
    forallb (fun o => match o with Some v => is_int v | None => false end) cells in
  if all_ints then map (fun o => match o with Some v => v | None => VNone end) cells
  else if all_numbers && negb (Nat.eqb (length present) 0) then map to_float cells
  else map (fun o => match o with Some v => v | None => VFloat Fnan end) cells.

(** [pd.DataFrame(data)] for a list of dicts *)
Definition from_records (records : list (list (string * value))) : dataframe :=
  let cols := columns_of records in
  let columns := map (fun k => column_values (map (fun r => dict_get r k) records)) cols in
  DataFrame cols (PandasCsv.rows_of (length records) columns VNone).

(** [pd.DataFrame(data)] is called on data whose first element is a dict;
    an element that is not a dict is outside the fragment. *)
Fixpoint dicts_of (l : list value) : option (list (list (string * value))) :=
  match l with
  | [] => Some []
  | VDict d :: rest => option_map (cons d) (dicts_of rest)
  | _ :: _ => None
  end.

Definition DataFrame_of (data : value) : outcome dataframe :=
  match data with
  | VList l =>
      match dicts_of l with
      | Some records => Ret (from_records records)
      | None => Raise (Exn OtherError "a record that is not a dict: outside the model")
      end
  | _ => Raise (Exn OtherError "not a list of dicts: outside the model")
  end.

(** *** [df.to_csv(output, index=False, sep=sep)] *)

(** the text of a cell: the missing markers are written empty *)
Definition cell_text (v : value) : string :=
  match v with
  | VNone | VFloat Fnan => ""
  | _ => str v
  end.

Fixpoint double_quotes (s : string) : string :=
  match s with
  | "" => ""
  | String c r =>
      if Ascii.eqb c DQUOTE then String DQUOTE (String DQUOTE (double_quotes r))
      else String c (double_quotes r)
  end.

(** [csv.QUOTE_MINIMAL]: a field with the separator, a quote or a line break
    is quoted, its quotes doubled. *)
Definition needs_quotes (sep : ascii) (s : string) : bool :=
  Nat.ltb 0 (count_char sep s + count_char DQUOTE s + count_char LF s + count_char CR s).

Definition csv_field (sep : ascii) (s : string) : string :=
  if needs_quotes sep s
  then String DQUOTE (double_quotes s ++ String DQUOTE "")
  else s.

(** one row; a row that is a single empty field is written as two quotes *)
Definition csv_row (sep : ascii) (fields : list string) : string :=
  match fields with
  | [""] => String DQUOTE (String DQUOTE nl)
  | _ => join (String sep "") (map (csv_field sep) fields) ++ nl
  end.

Definition to_csv (df : dataframe) (sep : ascii) : string :=
  csv_row sep (df_columns df)
    ++ String.concat "" (map (fun row => csv_row sep (map cell_text row)) (df_rows df)).

End PandasFrame.

(** ** Reference model of [ET.tostring], [minidom.parseString] and
    [toprettyxml] *)

Module Xml.

(** [_escape_cdata] *)
Definition escape_cdata_char (c : ascii) : string :=
  if Ascii.eqb c "&" then "&amp;"
  else if Ascii.eqb c "<" then "&lt;"
  else if Ascii.eqb c ">" then "&gt;"
  else String c "".

Fixpoint escape_cdata (s : string) : string :=
  match s with
  | "" => ""
  | String c r => escape_cdata_char c ++ escape_cdata r
  end.

(** [xml.parsers.expat.ExpatError] and the [ValueError] of the serializer,
    both caught by a bare [except] only *)
Definition expat_error {A} (msg : string) : outcome A := Raise (Exn OtherError msg).
Definition value_error {A} (msg : string) : outcome A := Raise (Exn OtherError msg).
Definition outside {A} (what : string) : outcome A :=
  Raise (Exn OtherError (what ++ ": outside the model")).

(** the tags of a tree, in document order ([elem.iter()]) *)
Fixpoint tags_of (e : element) : list string :=
  match e with
  | Element tag _ children => tag :: flat_map tags_of children
  end.

(** [add_qname]: a tag that starts with an opening brace is a qualified name
    [{uri}local].  [qname[1:].rsplit("}", 1)] is unpacked into two names,
    which raises [ValueError] when the tag has no closing brace. *)
Definition unclosed_qname (tag : string) : bool :=
  match tag with
  | String c r => Ascii.eqb c "{" && negb (contains "}" r)
  | "" => false
  end.

Definition qualified (tag : string) : bool := startswith "{" tag.

Fixpoint serialize_xml (e : element) : string :=
  match e with
  | Element tag text children =>
      let t := match text with Some t => t | None => "" end in
      match t, children with
      | "", [] => "<" ++ tag ++ " />"
      | _, _ =>
          "<" ++ tag ++ ">" ++ escape_cdata t
              ++ String.concat "" (map serialize_xml children)
              ++ "</" ++ tag ++ ">"
      end
  end.

(** [ET.tostring(root, encoding='unicode')]: the names are looked at first
    ([_namespaces]), then the tree is written, with no declaration; an
    element without text and children is written short.  A tree with a
    well-formed qualified name, which is written with a prefix and a
    namespace declaration, is outside the model. *)
Definition tostring (e : element) : outcome string :=
  if existsb unclosed_qname (tags_of e)
  then value_error "not enough values to unpack (expected 2, got 1)"
  else if existsb qualified (tags_of e) then outside "a qualified name"
  else Ret (serialize_xml e).

(** A DOM node: an element with its child nodes, or a text node. *)
Inductive node :=
| Elem (tagName : string) (childNodes : list node)
| Text (data : string).

(** The characters of a name.  A byte above 0x7f is part of a character
    that is not ASCII: it is taken into the name, and a name that has one is
    then left outside the model (whether such a character may stand in a
    name is a matter of the tables of the parser). *)
Definition is_name_start (c : ascii) : bool :=
  let n := nat_of_ascii c in
  (Nat.leb 65 n && Nat.leb n 90) || (Nat.leb 97 n && Nat.leb n 122)
  || Nat.eqb n 95 || Nat.eqb n 58 || Nat.leb 128 n.

Fixpoint is_ascii_text (s : string) : bool :=
  match s with
  | "" => true
  | String c r => Nat.ltb (nat_of_ascii c) 128 && is_ascii_text r
  end.

Definition is_name_char (c : ascii) : bool :=
  let n := nat_of_ascii c in
  is_name_start c || (Nat.leb 48 n && Nat.leb n 57) || Nat.eqb n 45 || Nat.eqb n 46.

Fixpoint scan_name_chars (s : string) : string * string :=
  match s with
  | String c r =>
      if is_name_char c then let p := scan_name_chars r in (String c (fst p), snd p)
      else ("", s)
  | "" => ("", "")
  end.

(** a name, and the text after it *)
Definition scan_name (s : string) : option (string * string) :=
  match s with
  | String c r =>
      if is_name_start c
      then let p := scan_name_chars r in Some (String c (fst p), snd p)
      else None
  | "" => None
  end.

Definition is_xml_space (c : ascii) : bool :=
  Ascii.eqb c " " || Ascii.eqb c TAB || Ascii.eqb c LF || Ascii.eqb c CR.

Fixpoint skip_space (s : string) : string :=
  match s with
  | String c r => if is_xml_space c then skip_space r else s
  | "" => ""
  end.

(** the run of character data up to the next tag *)
Fixpoint raw_run (s : string) : string * string :=
  match s with
  | "" => ("", "")
  | String c r =>
      if Ascii.eqb c "<" then ("", s)
      else let p := raw_run r in (String c (fst p), snd p)
  end.

Definition entity (name : string) : option ascii :=
  if String.eqb name "amp" then Some "&"%char
  else if String.eqb name "lt" then Some "<"%char
  else if String.eqb name "gt" then Some ">"%char
  else if String.eqb name "quot" then Some DQUOTE
  else if String.eqb name "apos" then Some SQUOTE
  else None.

Definition cons_text (c : ascii) (m : outcome string) : outcome string :=
  t <- m ;; Ret (String c t).

(** The text of a run: the named references are decoded ([ref] holds the
    name being read), a line end is read as a line feed, a control character
    is an error. *)
Fixpoint decode_text (ref : option string) (s : string) : outcome string :=
  match s with
  | "" =>
      match ref with
      | None => Ret ""
      | Some _ => expat_error "not well-formed (invalid token)"
      end
  | String c r =>
      match ref with
      | Some name =>
          if Ascii.eqb c ";" then
            match entity name with
            | Some ch => cons_text ch (decode_text None r)
            | None => outside "a reference"
            end
          else decode_text (Some (name ++ String c "")) r
      | None =>
          if Ascii.eqb c "&" then decode_text (Some "") r
          else if Nat.ltb (nat_of_ascii c) 32 && negb (is_xml_space c)
          then expat_error "not well-formed (invalid token)"
          else if Ascii.eqb c CR then
            match r with
            | String c2 r2 =>
                if Ascii.eqb c2 LF then cons_text LF (decode_text None r2)
                else cons_text LF (decode_text None r)
            | "" => Ret (String LF "")
            end
          else cons_text c (decode_text None r)
      end
  end.

(** An element, from just after its opening angle bracket, and the content
    of an element up to its end tag (the text after the slash is returned). *)
Fixpoint parse_element (fuel : nat) (s : string) {struct fuel}
    : outcome (node * string) :=
  match fuel with
  | O => outside "RecursionError"
  | S f =>
    match scan_name s with
    | None => expat_error "not well-formed (invalid token)"
    | Some (name, rest) =>
        if negb (is_ascii_text name) then outside "a name that is not ASCII"
        else if contains ":" name then
          if String.prefix "xml:" name then outside "the xml prefix"
          else expat_error "unbound prefix"
        else
        match skip_space rest with
        | "" => expat_error "unclosed token"
        | String c r =>
            if Ascii.eqb c "/" then
              match r with
              | String c2 r2 =>
                  if Ascii.eqb c2 ">" then Ret (Elem name [], r2)
                  else expat_error "not well-formed (invalid token)"
              | "" => expat_error "unclosed token"
              end
            else if Ascii.eqb c ">" then
              p <- parse_content f r ;;
              match scan_name (snd p) with
              | Some (name2, r2) =>
                  if String.eqb name2 name then
                    match skip_space r2 with
                    | String c3 r3 =>
                        if Ascii.eqb c3 ">" then Ret (Elem name (fst p), r3)
                        else expat_error "not well-formed (invalid token)"
                    | "" => expat_error "unclosed token"
                    end
                  else expat_error "mismatched tag"
              | None => expat_error "not well-formed (invalid token)"
              end
            else if is_name_start c then outside "an attribute"
            else expat_error "not well-formed (invalid token)"
        end
    end
  end

with parse_content (fuel : nat) (s : string) {struct fuel}
    : outcome (list node * string) :=
  match fuel with
  | O => outside "RecursionError"
  | S f =>
    match s with
    | "" => expat_error "no element found"
    | String c r =>
        if Ascii.eqb c "<" then
          match r with
          | "" => expat_error "unclosed token"
          | String c2 r2 =>
              if Ascii.eqb c2 "/" then Ret ([], r2)
              else if Ascii.eqb c2 "!" || Ascii.eqb c2 "?"
              then outside "a comment, a section or an instruction"
              else
                e <- parse_element f r ;;
                more <- parse_content f (snd e) ;;
                Ret (fst e :: fst more, snd more)
          end
        else
          let run := raw_run s in
          if contains "]]>" (fst run)
          then expat_error "not well-formed (invalid token)"
          else
            t <- decode_text None (fst run) ;;
            more <- parse_content f (snd run) ;;
            Ret (Text t :: fst more, snd more)
    end
  end.

(** [xml.dom.minidom.parseString]: the document element *)
Definition parseString (s : string) : outcome node :=
  match skip_space s with
  | "" => expat_error "no element found"
  | String c r =>
      if Ascii.eqb c "<" then
        if String.prefix "?" r || String.prefix "!" r
        then outside "a declaration"
        else
          e <- parse_element (2 * String.length s + 2) r ;;
          match skip_space (snd e) with
          | "" => Ret (fst e)
          | String c2 r2 =>
              if Ascii.eqb c2 "<" && (String.prefix "?" r2 || String.prefix "!" r2)
              then outside "a comment or an instruction"
              else expat_error "junk after document element"
          end
      else expat_error "syntax error"
  end.

(** [_write_data] *)
Definition write_data_char (c : ascii) : string :=
  if Ascii.eqb c "&" then "&amp;"
  else if Ascii.eqb c "<" then "&lt;"
  else if Ascii.eqb c DQUOTE then "&quot;"
  else if Ascii.eqb c ">" then "&gt;"
  else String c "".

Fixpoint write_data (s : string) : string :=
  match s with
  | "" => ""
  | String c r => write_data_char c ++ write_data r
  end.

(** [Node.writexml(writer, indent, addindent, newl)] with a line feed for
    [newl]: an element whose only child is a text node stays on one line. *)
Fixpoint writexml (addindent indent : string) (n : node) : string :=
  match n with
  | Text data => indent ++ write_data data ++ nl
  | Elem tag [] => indent ++ "<" ++ tag ++ "/>" ++ nl
  | Elem tag [Text data] =>
      indent ++ "<" ++ tag ++ ">" ++ write_data data ++ "</" ++ tag ++ ">" ++ nl
  | Elem tag children =>
      indent ++ "<" ++ tag ++ ">" ++ nl
        ++ String.concat "" (map (writexml addindent (indent ++ addindent)) children)
        ++ indent ++ "</" ++ tag ++ ">" ++ nl
  end.

Definition xml_declaration : string :=
  "<?xml version=" ++ String DQUOTE ("1.0" ++ String DQUOTE " ?>").

(** [dom.toprettyxml(indent=addindent)] *)
Definition toprettyxml (dom : node) (addindent : string) : string :=
  xml_declaration ++ nl ++ writexml addindent "" dom.

End Xml.

(** ** Reference model of [yaml.dump(data, default_flow_style=False,
    allow_unicode=True)]

    The block layout of sequences and mappings, the order of the keys
    ([yaml.dump] sorts the keys of a mapping: [sort_keys=True] is its
    default), and the text of a scalar: the analysis of the emitter
    ([analyze_scalar]), the implicit resolvers, the choice of the style
    ([choose_scalar_style]) and the three writers, with the folding of a line
    that passes the width of 80. *)

Module YamlDump.

(** insertion into a list sorted by key *)
Fixpoint insert_sorted {A} (k : string) (a : A) (l : list (string * A))
    : list (string * A) :=
  match l with
  | [] => [(k, a)]
  | (k', a') :: rest =>
      if String.leb k k' then (k, a) :: l else (k', a') :: insert_sorted k a rest
  end.

(** [sorted(mapping.items())] for distinct string keys *)
Definition sort_items {A} (l : list (string * A)) : list (string * A) :=
  fold_right (fun kv acc => insert_sorted (fst kv) (snd kv) acc) [] l.

Definition indent_lines (ls : list string) : list string := map (append "  ") ls.


(** *** Characters

    A Python [str] is held as its UTF-8 bytes.  The emitter looks at
    characters: [chars_of] cuts the bytes into characters, each with its code
    point.  A byte that is not part of a well-formed sequence is taken as a
    character of its own; a Python [str] has none. *)

Record uchar := UChar { code : N; utf8 : string }.

Definition byte (c : ascii) : N := N_of_ascii c.

Definition is_cont (c : ascii) : bool := N.leb 128 (byte c) && N.leb (byte c) 191.

Definition lone (c : ascii) : uchar := UChar (byte c) (String c "").

(** the six bits of a continuation byte that stands alone *)
Definition cont_of (u : uchar) : option N :=
  match utf8 u with
  | String c "" => if is_cont c then Some (byte c - 128)%N else None
  | _ => None
  end.

(** [k] continuation bytes at the head of [l]: the code, the bytes, the rest *)
Fixpoint take_cont (k : nat) (acc : N) (l : list uchar)
    : option (N * string * list uchar) :=
  match k with
  | O => Some (acc, "", l)
  | S k' =>
      match l with
      | u :: r =>
          match cont_of u with
          | Some n =>
              match take_cont k' (acc * 64 + n)%N r with
              | Some (cp, bytes, rest) => Some (cp, utf8 u ++ bytes, rest)
              | None => None
              end
          | None => None
          end
      | [] => None
      end
  end.

(** a leading byte: the number of continuation bytes, its bits, the least
    code of a sequence of that length *)
Definition lead (c : ascii) : option (nat * N * N) :=
  let b := byte c in
  if N.ltb b 192 then None
  else if N.ltb b 224 then Some (1, (b - 192)%N, 128%N)
  else if N.ltb b 240 then Some (2, (b - 224)%N, 2048%N)
  else if N.ltb b 248 then Some (3, (b - 240)%N, 65536%N)
  else None.

Definition is_surrogate (cp : N) : bool := N.leb 55296 cp && N.leb cp 57343.

Definition absorb (c : ascii) (rest : list uchar) : list uchar :=
  match lead c with
  | None => lone c :: rest
  | Some (k, bits, least) =>
      match take_cont k bits rest with
      | Some (cp, bytes, rest') =>
          if N.leb least cp && N.leb cp 1114111 && negb (is_surrogate cp)
          then UChar cp (String c bytes) :: rest'
          else lone c :: rest
      | None => lone c :: rest
      end
  end.

Fixpoint chars_of (s : string) : list uchar :=
  match s with
  | "" => []
  | String c r => absorb c (chars_of r)
  end.

(** [len(s)] *)
Definition char_length (s : string) : nat := length (chars_of s).

(** [ch in chars], for ASCII [chars] *)
Definition one_of (chars : string) (u : uchar) : bool :=
  existsb (fun c => N.eqb (code u) (byte c)) (list_ascii_of_string chars).

Definition is_code (n : N) (u : uchar) : bool := N.eqb (code u) n.

Definition is_space (u : uchar) : bool := is_code 32 u.

(** the line breaks: line feed, U+0085, U+2028, U+2029 *)
Definition is_break (u : uchar) : bool :=
  is_code 10 u || is_code 133 u || is_code 8232 u || is_code 8233 u.

(** [ch in '\0 \t\r\n\x85  '] *)
Definition is_white (u : uchar) : bool :=
  is_code 0 u || is_code 32 u || is_code 9 u || is_code 13 u || is_break u.

(** the characters that are written as they are under [allow_unicode=True];
    any other makes the scalar double-quoted *)
Definition printable (u : uchar) : bool :=
  let c := code u in
  N.eqb c 10 || (N.leb 32 c && N.leb c 126)
  || ((N.eqb c 133 || (N.leb 160 c && N.leb c 55295)
       || (N.leb 57344 c && N.leb c 65533)
       || (N.leb 65536 c && N.ltb c 1114111))
      && negb (N.eqb c 65279)).

(** *** [analyze_scalar] *)

Definition followed_by_whitespace (rest : list uchar) : bool :=
  match rest with
  | [] => true
  | u :: _ => is_white u
  end.

(** from the second character on: a colon before whitespace, a hash after
    whitespace *)
Fixpoint inner_block_indicators (prev : uchar) (t : list uchar) : bool :=
  match t with
  | [] => false
  | u :: rest =>
      (is_code 58 u && followed_by_whitespace rest)
      || (is_code 35 u && is_white prev)
      || inner_block_indicators u rest
  end.

Definition block_indicators (s : string) (t : list uchar) : bool :=
  String.prefix "---" s || String.prefix "..." s
  || match t with
     | [] => false
     | u :: rest =>
         one_of ("#,[]{}&*!|>'" ++ String DQUOTE "%@`") u
         || (one_of "?:" u && followed_by_whitespace rest)
         || (is_code 45 u && followed_by_whitespace rest)
         || inner_block_indicators u rest
     end.

(** a character of [p] just before a character of [q] *)
Fixpoint adjacent (p q : uchar -> bool) (t : list uchar) : bool :=
  match t with
  | u :: (v :: _) as rest => (p u && q v) || adjacent p q rest
  | _ => false
  end.

Definition head_is (p : uchar -> bool) (t : list uchar) : bool :=
  match t with u :: _ => p u | [] => false end.

Definition end_is (p : uchar -> bool) (t : list uchar) : bool :=
  head_is p (rev t).

Definition line_breaks (t : list uchar) : bool := existsb is_break t.
Definition special_characters (t : list uchar) : bool :=
  existsb (fun u => negb (printable u)) t.
Definition break_space (t : list uchar) : bool := adjacent is_break is_space t.
Definition space_break (t : list uchar) : bool := adjacent is_space is_break t.

Definition edge_whitespace (t : list uchar) : bool :=
  head_is is_space t || head_is is_break t
  || end_is is_space t || end_is is_break t.

Definition allow_block_plain (s : string) (t : list uchar) : bool :=
  match t with
  | [] => true
  | _ =>
      negb (edge_whitespace t) && negb (break_space t)
      && negb (space_break t || special_characters t)
      && negb (line_breaks t) && negb (block_indicators s t)
  end.

Definition allow_single_quoted (t : list uchar) : bool :=
  negb (break_space t) && negb (space_break t || special_characters t).

(** *** The implicit resolvers

    A plain scalar is read back by the first of these expressions that
    matches it; a string that one of them matches is not written plain. *)

Inductive re :=
| Fail
| Eps
| In_ (ranges : list (N * N))
| Alt (a b : re)
| Cat (a b : re)
| Star (a : re).

Fixpoint nullable (r : re) : bool :=
  match r with
  | Fail | In_ _ => false
  | Eps | Star _ => true
  | Alt a b => nullable a || nullable b
  | Cat a b => nullable a && nullable b
  end.

Definition alt (a b : re) : re :=
  match a, b with
  | Fail, _ => b
  | _, Fail => a
  | _, _ => Alt a b
  end.

Definition cat (a b : re) : re :=
  match a, b with
  | Fail, _ | _, Fail => Fail
  | Eps, _ => b
  | _, _ => Cat a b
  end.

(** the expression for what may follow the character [c] *)
Fixpoint deriv (c : ascii) (r : re) : re :=
  match r with
  | Fail | Eps => Fail
  | In_ ranges =>
      if existsb (fun p => N.leb (fst p) (byte c) && N.leb (byte c) (snd p)) ranges
      then Eps else Fail
  | Alt a b => alt (deriv c a) (deriv c b)
  | Cat a b =>
      if nullable a then alt (cat (deriv c a) b) (deriv c b)
      else cat (deriv c a) b
  | Star a => cat (deriv c a) (Star a)
  end.

Fixpoint full_match (r : re) (s : string) : bool :=
  match s with
  | "" => nullable r
  | String c t => full_match (deriv c r) t
  end.

Fixpoint without_last (s : string) : string :=
  match s with
  | "" | String _ "" => ""
  | String c r => String c (without_last r)
  end.

(** [regexp.match(value)] for an expression between [^] and [$]: the whole
    text, or the text before a last line feed *)
Definition re_match (r : re) (s : string) : bool :=
  full_match r s
  || (match last_char s with Some c => Ascii.eqb c LF | None => false end
      && full_match r (without_last s)).

Fixpoint lit (s : string) : re :=
  match s with
  | "" => Eps
  | String c r => Cat (In_ [(byte c, byte c)]) (lit r)
  end.

Fixpoint any_of (l : list re) : re :=
  match l with
  | [] => Fail
  | [r] => r
  | r :: rest => Alt r (any_of rest)
  end.

Fixpoint seq_of (l : list re) : re :=
  match l with
  | [] => Eps
  | [r] => r
  | r :: rest => Cat r (seq_of rest)
  end.

Definition opt (r : re) : re := Alt Eps r.
Definition plus (r : re) : re := Cat r (Star r).
Definition words (l : list string) : re := any_of (map lit l).

Definition digit : re := In_ [(48, 57)]%N.
Definition digit_ : re := In_ [(48, 57); (95, 95)]%N.
Definition sign : re := In_ [(43, 43); (45, 45)]%N.
Definition dot : re := lit ".".
Definition exponent : re := seq_of [In_ [(69, 69); (101, 101)]%N; sign; plus digit].
Definition sexagesimal : re := plus (seq_of [lit ":"; opt (In_ [(48, 53)]%N); digit]).
Definition blank : re := In_ [(32, 32); (9, 9)]%N.

Definition bool_re : re :=
  words ["yes"; "Yes"; "YES"; "no"; "No"; "NO"; "true"; "True"; "TRUE";
         "false"; "False"; "FALSE"; "on"; "On"; "ON"; "off"; "Off"; "OFF"].

Definition float_re : re :=
  any_of
    [seq_of [opt sign; digit; Star digit_; dot; Star digit_; opt exponent];
     seq_of [dot; digit; Star digit_; opt exponent];
     seq_of [opt sign; digit; Star digit_; sexagesimal; dot; Star digit_];
     seq_of [opt sign; dot; words ["inf"; "Inf"; "INF"]];
     seq_of [dot; words ["nan"; "NaN"; "NAN"]]].

Definition int_re : re :=
  any_of
    [seq_of [opt sign; lit "0b"; plus (In_ [(48, 49); (95, 95)]%N)];
     seq_of [opt sign; lit "0"; plus (In_ [(48, 55); (95, 95)]%N)];
     seq_of [opt sign; Alt (lit "0") (Cat (In_ [(49, 57)]%N) (Star digit_))];
     seq_of [opt sign; lit "0x";
             plus (In_ [(48, 57); (97, 102); (65, 70); (95, 95)]%N)];
     seq_of [opt sign; In_ [(49, 57)]%N; Star digit_; sexagesimal]].

Definition merge_re : re := lit "<<".

Definition null_re : re := any_of [lit "~"; words ["null"; "Null"; "NULL"]; Eps].

Definition timestamp_re : re :=
  any_of
    [seq_of [digit; digit; digit; digit; lit "-"; digit; digit; lit "-"; digit; digit];
     seq_of [digit; digit; digit; digit; lit "-"; digit; opt digit;
             lit "-"; digit; opt digit;
             Alt (In_ [(84, 84); (116, 116)]%N) (plus blank);
             digit; opt digit; lit ":"; digit; digit; lit ":"; digit; digit;
             opt (Cat dot (Star digit));
             opt (Cat (Star blank)
                      (Alt (lit "Z")
                           (seq_of [sign; digit; opt digit;
                                    opt (seq_of [lit ":"; digit; digit])])))]].

Definition value_re : re := lit "=".
Definition yaml_re : re := words ["!"; "&"; "*"].

Definition implicit_resolvers : list re :=
  [bool_re; float_re; int_re; merge_re; null_re; timestamp_re; value_re; yaml_re].

(** does a plain scalar with this text resolve to a string? *)
Definition resolves_to_str (s : string) : bool :=
  negb (existsb (fun r => re_match r s) implicit_resolvers).

(** *** [choose_scalar_style], in a block context, for a string *)

Inductive style := Plain | Single | Double.

Definition choose_scalar_style (simple_key_context : bool) (s : string) : style :=
  let t := chars_of s in
  let empty := match t with [] => true | _ => false end in
  let multiline := line_breaks t in
  if resolves_to_str s
     && negb (simple_key_context && (empty || multiline))
     && allow_block_plain s t
  then Plain
  else if allow_single_quoted t && negb (simple_key_context && multiline)
  then Single
  else Double.

(** *** The writers *)

Definition spaces (n : nat) : string := str_repeat " " n.

Definition best_width : nat := 80.

(** the state of the emitter that the writers use: the column, and the two
    flags [indention] and [whitespace] *)
Definition emitter : Type := nat * bool * bool.

(** [write_indent]: a line break unless the line is fresh, then spaces up to
    the indentation *)
Definition write_indent (indent : nat) (st : emitter) : string * emitter :=
  let '(column, indention, whitespace) := st in
  let break := negb indention || Nat.ltb indent column
               || (Nat.eqb column indent && negb whitespace) in
  let column' := if break then 0 else column in
  ((if break then nl else "") ++ spaces (indent - column'),
   (Nat.max indent column', indention || break,
    whitespace || break || Nat.ltb column' indent)).

(** [write_plain]: a single space after the width is passed becomes a line
    break.  [run] counts the spaces read since the last character.  A plain
    scalar has no line break. *)
Fixpoint plain_loop (indent : nat) (split : bool) (t : list uchar) (run column : nat)
    : string :=
  let fold := Nat.eqb run 1 && Nat.ltb best_width column && split in
  let gap := if fold then fst (write_indent indent (column, false, false))
             else spaces run in
  let column' := if fold then indent else column + run in
  match t with
  | [] => gap
  | u :: rest =>
      if is_space u then plain_loop indent split rest (S run) column
      else gap ++ utf8 u ++ plain_loop indent split rest 0 (S column')
  end.

Definition write_plain (indent column : nat) (split : bool) (t : list uchar) : string :=
  plain_loop indent split t 0 column.

(** what has been read since the last character that was written: nothing,
    spaces (and whether they follow a character), or line breaks *)
Inductive pending :=
| NoRun
| SpaceRun (n : nat) (inner : bool)
| BreakRun (breaks : list uchar).

(** [write_single_quoted], the pending run is written: a single space after
    the width is passed, inside the text, becomes a line break; a run of line
    breaks is written with one more line feed when it starts with a line
    feed, and is followed by the indentation *)
Definition single_flush (indent : nat) (split last : bool) (p : pending)
    (st : emitter) : string * emitter :=
  let '(column, indention, whitespace) := st in
  match p with
  | NoRun => ("", st)
  | SpaceRun n inner =>
      if Nat.eqb n 1 && Nat.ltb best_width column && split && inner && negb last
      then write_indent indent st
      else (spaces n, (column + n, indention, whitespace))
  | BreakRun breaks =>
      let w := write_indent indent (0, true, true) in
      ((if head_is (is_code 10) breaks then nl else "")
         ++ String.concat ""
              (map (fun br => if is_code 10 br then nl else utf8 br) breaks)
         ++ fst w,
       snd w)
  end.

Fixpoint single_loop (indent : nat) (split first : bool) (t : list uchar)
    (p : pending) (st : emitter) : string :=
  match t with
  | [] => fst (single_flush indent split true p st)
  | u :: rest =>
      let f := single_flush indent split false p st in
      if is_space u then
        match p with
        | SpaceRun n inner => single_loop indent split false rest (SpaceRun (S n) inner) st
        | _ => fst f ++ single_loop indent split false rest (SpaceRun 1 (negb first)) (snd f)
        end
      else if is_break u then
        match p with
        | BreakRun breaks =>
            single_loop indent split false rest (BreakRun (breaks ++ [u])) st
        | _ => fst f ++ single_loop indent split false rest (BreakRun [u]) (snd f)
        end
      else
        let '(column, indention, whitespace) := snd f in
        if is_code 39 u then
          fst f ++ "''"
            ++ single_loop indent split false rest NoRun (column + 2, indention, whitespace)
        else
          fst f ++ utf8 u
            ++ single_loop indent split false rest NoRun (S column, indention, whitespace)
  end.

Definition write_single_quoted (indent column : nat) (split : bool) (t : list uchar)
    : string :=
  "'" ++ single_loop indent split true t NoRun (S column, false, false) ++ "'".

(** the characters that [write_double_quoted] writes as they are *)
Definition double_plain (u : uchar) : bool :=
  let c := code u in
  ((N.leb 32 c && N.leb c 126) || (N.leb 160 c && N.leb c 55295)
   || (N.leb 57344 c && N.leb c 65533))
  && negb (N.eqb c 34 || N.eqb c 92 || N.eqb c 133 || N.eqb c 8232
           || N.eqb c 8233 || N.eqb c 65279).

Definition hex_char (n : N) : ascii :=
  if N.ltb n 10 then ascii_of_N (48 + n) else ascii_of_N (55 + n).

(** [n] in [digits] hexadecimal digits *)
Fixpoint hex (digits : nat) (n : N) : string :=
  match digits with
  | O => ""
  | S d => hex d (n / 16) ++ String (hex_char (n mod 16)) ""
  end.

(** [ESCAPE_REPLACEMENTS], and the numeric escapes *)
Definition escaped (u : uchar) : string :=
  let c := code u in
  let named (x : string) := String BACKSLASH x in
  if N.eqb c 0 then named "0" else if N.eqb c 7 then named "a"
  else if N.eqb c 8 then named "b" else if N.eqb c 9 then named "t"
  else if N.eqb c 10 then named "n" else if N.eqb c 11 then named "v"
  else if N.eqb c 12 then named "f" else if N.eqb c 13 then named "r"
  else if N.eqb c 27 then named "e" else if N.eqb c 34 then named (String DQUOTE "")
  else if N.eqb c 92 then named (String BACKSLASH "")
  else if N.eqb c 133 then named "N" else if N.eqb c 160 then named "_"
  else if N.eqb c 8232 then named "L" else if N.eqb c 8233 then named "P"
  else if N.leb c 255 then named ("x" ++ hex 2 c)
  else if N.leb c 65535 then named ("u" ++ hex 4 c)
  else named ("U" ++ hex 8 c).

(** [write_double_quoted], after the opening quote.  [chunk] holds the
    characters read and not yet written, [n] their number.  After the width
    is passed the line is broken, with a backslash, at a space or after an
    escaped; a space that starts the new line is escaped. *)
Fixpoint double_loop (indent : nat) (split first : bool) (t : list uchar)
    (chunk : string) (n column : nat) : string :=
  match t with
  | [] => chunk
  | u :: rest =>
      let esc := negb (double_plain u) in
      let written := if esc then chunk ++ escaped u else "" in
      let chunk1 := if esc then "" else chunk in
      let n1 := if esc then 0 else n in
      let column1 := if esc then column + n + String.length (escaped u) else column in
      let more := match rest with [] => false | _ => true end in
      if negb first && more && (is_space u || Nat.eqb n1 0)
         && Nat.ltb best_width (column1 + n1) && split
      then
        let space_next := if esc then head_is is_space rest else is_space u in
        let w := write_indent indent (column1 + n1 + 1, false, false) in
        let mark := if space_next then String BACKSLASH "" else "" in
        written ++ chunk1 ++ String BACKSLASH "" ++ fst w ++ mark
          ++ double_loop indent split false rest
               (if esc then "" else utf8 u) (if esc then 0 else 1)
               (indent + String.length mark)
      else
        written
          ++ double_loop indent split false rest
               (if esc then "" else chunk ++ utf8 u) (if esc then 0 else S n) column1
  end.

Definition write_double_quoted (indent column : nat) (split : bool) (t : list uchar)
    : string :=
  String DQUOTE
    (double_loop indent split true t "" 0 (S column) ++ String DQUOTE "").

(** [process_scalar] for a string: [indent] is the indentation of the lines
    that continue the scalar, [column] the column where its text starts;
    a simple key is not folded *)
Definition write_str (indent column : nat) (simple_key_context : bool) (s : string)
    : string :=
  let t := chars_of s in
  let split := negb simple_key_context in
  match choose_scalar_style simple_key_context s with
  | Plain => write_plain indent column split t
  | Single => write_single_quoted indent column split t
  | Double => write_double_quoted indent column split t
  end.

(** [represent_float]: [repr], in lower case, with [.0] before an exponent
    that follows an integer *)
Fixpoint dot_zero_before_e (s : string) : string :=
  match s with
  | "" => ""
  | String c r => if Ascii.eqb c "e" then ".0e" ++ r else String c (dot_zero_before_e r)
  end.

Definition represent_float (f : float) : string :=
  match f with
  | Fnan => ".nan"
  | _ =>
      let value := repr_float f in
      if negb (contains "." value) && contains "e" value
      then dot_zero_before_e value
      else value
  end.

(** The text of a scalar.  The scalars that are not strings are written
    plain: their text has no space and resolves to their own type. *)
Definition write_scalar (indent column : nat) (simple_key_context : bool) (v : value)
    : string :=
  match v with
  | VNone => "null"
  | VBool true => "true"
  | VBool false => "false"
  | VInt z => str_int z
  | VFloat f => represent_float f
  | VStr s => write_str indent column simple_key_context s
  | _ => ""
  end.

(** *** The layout *)


(** the lines of a value after an indicator that is followed by a space: the
    dash of a sequence, the colon of a key that is not simple *)
Definition after_indicator (mark : string) (ls : list string) : list string :=
  match ls with
  | [] => []
  | h :: t => (mark ++ " " ++ h) :: indent_lines t
  end.





End YamlDump.

(** ** The scripts *)

(** A parser of the scripts returns the pair [(data, error)]. *)
Definition parse_result : Type := value * value.

(** What the scripts show: [st.info], [st.warning], [st.success], [st.error]
    and the [st.markdown] boxes, in order. *)
Inductive ui_event :=
| st_info (msg : string)
| st_warning (msg : string)
| st_success (msg : string)
| st_error (msg : string)
| st_markdown (html : string).

Section Scripts.

(** The library calls of the parsers and of the detector. *)
Variable json_loads : string -> outcome value.
(** [pd.read_csv(io.StringIO(content), delimiter=d)] *)
Variable read_csv : string -> ascii -> outcome dataframe.
(** [ET.fromstring] *)
Variable ET_fromstring : string -> outcome element.
Variable yaml_safe_load : string -> outcome value.

(** *** Parsers *)

(** new_converter.py, [parse_json_data]:
<<
  try:
      return json.loads(content), None
  except json.JSONDecodeError as e:
      return None, f"Invalid JSON format: {e}"
>> *)
Definition parse_json_data (content : string) : outcome parse_result :=
  try_except
    (v <- json_loads content ;; Ret (v, VNone))
    JSONDecodeError
    (fun e => Ret (VNone, VStr ("Invalid JSON format: " ++ exn_msg e))).

(** converter.py, [parse_json_file]: the same body. *)
Definition parse_json_file (file_content : string) : outcome parse_result :=
  try_except
    (v <- json_loads file_content ;; Ret (v, VNone))
    JSONDecodeError
    (fun e => Ret (VNone, VStr ("Invalid JSON format: " ++ exn_msg e))).

(** [parse_csv_data] and [parse_csv_file]:
<<
  try:
      df = pd.read_csv(io.StringIO(content), delimiter=delimiter)
      return df.to_dict('records'), None
  except Exception as e:
      return None, f"Error parsing CSV: {e}"
>> *)
Definition parse_csv_data (content : string) (delimiter : ascii)
    : outcome parse_result :=
  try_except_all
    (df <- read_csv content delimiter ;; Ret (to_dict_records df, VNone))
    (fun e => Ret (VNone, VStr ("Error parsing CSV: " ++ exn_msg e))).

Definition parse_csv_file (file_content : string) (delimiter : ascii)
    : outcome parse_result :=
  try_except_all
    (df <- read_csv file_content delimiter ;; Ret (to_dict_records df, VNone))
    (fun e => Ret (VNone, VStr ("Error parsing CSV: " ++ exn_msg e))).

Definition parse_tsv_data (content : string) : outcome parse_result :=
  parse_csv_data content TAB.

Definition parse_tsv_file (file_content : string) : outcome parse_result :=
  parse_csv_file file_content TAB.

(** The body shared by [parse_xml_data] and [parse_xml_file]: one record per
    child of the root, from its children if it has any and from itself
    otherwise; a root without children gives one empty record. *)
Definition record_of_children (children : list element) : list (string * value) :=
  fold_left (fun record sub => dict_set record (el_tag sub) (text_or_empty sub))
            children [].

Definition xml_records (root : element) : value :=
  match el_children root with
  | [] => VList [VDict (record_of_children (el_children root))]
  | children =>
      VList (map (fun child =>
                    match el_children child with
                    | [] => VDict (dict_set [] (el_tag child) (text_or_empty child))
                    | subs => VDict (record_of_children subs)
                    end) children)
  end.

(** new_converter.py, [parse_xml_data]: only [ET.ParseError] is caught. *)
Definition parse_xml_data (content : string) : outcome parse_result :=
  try_except
    (root <- ET_fromstring content ;; Ret (xml_records root, VNone))
    XMLParseError
    (fun e => Ret (VNone, VStr ("Invalid XML format: " ++ exn_msg e))).

(** converter.py, [parse_xml_file]: a second clause catches the rest. *)
Definition parse_xml_file (file_content : string) : outcome parse_result :=
  try_except_all
    (try_except
       (root <- ET_fromstring file_content ;; Ret (xml_records root, VNone))
       XMLParseError
       (fun e => Ret (VNone, VStr ("Invalid XML format: " ++ exn_msg e))))
    (fun e => Ret (VNone, VStr ("Error parsing XML: " ++ exn_msg e))).

(** [parse_yaml_data] and [parse_yaml_file] *)
Definition parse_yaml_data (content : string) : outcome parse_result :=
  try_except
    (data <- yaml_safe_load content ;;
     if is_list data then Ret (data, VNone)
     else if is_dict data then Ret (VList [data], VNone)
     else Ret (VNone, VStr "YAML must contain a list of objects or a single object"))
    YAMLError
    (fun e => Ret (VNone, VStr ("Invalid YAML format: " ++ exn_msg e))).

Definition parse_yaml_file (file_content : string) : outcome parse_result :=
  parse_yaml_data file_content.

(** *** converter.py, [detect_format_from_content] *)

(** [try: call; return tag  except: pass], then the rest of the function *)
Definition try_return {A} (call : outcome A) (tag : string)
    (rest : outcome string) : outcome string :=
  hit <- try_except_all (_ <- call ;; Ret true) (fun _ => Ret false) ;;
  if hit then Ret tag else rest.

Definition detect_format_from_content (content : string) : outcome string :=
  let content := strip content in
  let csv_tsv :=
    let lines := split LF content in
    if Nat.ltb 1 (length lines) then
      let first_line := hd "" lines in
      let comma_count := count_char "," first_line in
      let tab_count := count_char TAB first_line in
      if Nat.ltb comma_count tab_count && Nat.ltb 0 tab_count then Ret "TSV"
      else if Nat.ltb 0 comma_count then Ret "CSV"
      else Ret "Unknown"
    else Ret "Unknown" in
  let yaml :=
    if (contains "- " content && contains ":" content)
       || (Nat.ltb (count_char "," content) (count_char ":" content)
           && contains nl content)
    then try_return (yaml_safe_load content) "YAML" csv_tsv
    else csv_tsv in
  let xml :=
    if startswith "<" content && endswith_char ">" content
    then try_return (ET_fromstring content) "XML" yaml
    else yaml in
  if (startswith "[" content && endswith_char "]" content)
     || (startswith "{" content && endswith_char "}" content)
  then try_return (json_loads content) "JSON" xml
  else xml.

(** *** converter.py, [main]: pasted data *)

(** The fallback loop, lines 441-445:
<<
  for format_name, parser in parsers:
      data, error = parser(data_text)
      if data is not None:
          st.info(f"✅ Successfully parsed as **{format_name}**")
          break
>>
    [data] and [error] are the variables of [main] that the loop assigns. *)
Fixpoint try_parsers (parsers : list (string * (string -> outcome parse_result)))
    (data_text : string) (data error : value) (log : list ui_event)
    : outcome (value * value * list ui_event) :=
  match parsers with
  | [] => Ret (data, error, log)
  | (format_name, parser) :: rest =>
      r <- parser data_text ;;
      if negb (is_None (fst r))
      then Ret (fst r, snd r,
                (log ++ [st_info ("✅ Successfully parsed as **" ++ format_name ++ "**")])%list)
      else try_parsers rest data_text (fst r) (snd r) log
  end.

(** lines 433-439 *)
Definition parsers : list (string * (string -> outcome parse_result)) :=
  [ ("JSON", parse_json_file);
    ("CSV", fun t => parse_csv_file t ",");
    ("TSV", parse_tsv_file);
    ("XML", parse_xml_file);
    ("YAML", parse_yaml_file) ].

(** lines 407-450, for a [data_text] with [data_text.strip()] non-empty:
    the [data], the [error] and what was shown. *)
Definition parse_pasted (data_text : string)
    : outcome (value * value * list ui_event) :=
  detected_format <- detect_format_from_content data_text ;;
  let log :=
    if negb (String.eqb detected_format "Unknown")
    then [st_info ("🔍 Detected format: **" ++ detected_format ++ "**")]
    else [st_warning
            "⚠️ Unable to detect format automatically. Trying multiple parsers..."] in
  r <- (if String.eqb detected_format "JSON" then
          p <- parse_json_file data_text ;; Ret (p, log)
        else if String.eqb detected_format "CSV" then
          p <- parse_csv_file data_text "," ;; Ret (p, log)
        else if String.eqb detected_format "TSV" then
          p <- parse_tsv_file data_text ;; Ret (p, log)
        else if String.eqb detected_format "XML" then
          p <- parse_xml_file data_text ;; Ret (p, log)
        else if String.eqb detected_format "YAML" then
          p <- parse_yaml_file data_text ;; Ret (p, log)
        else try_parsers parsers data_text VNone VNone log) ;;
  let '(data, error, log) := r in
  if negb (is_None data)
  then Ret (data, error, (log ++ [st_success "✅ Data parsed successfully!"])%list)
  else Ret (data, error, (log ++ [st_error ("❌ " ++ str error)])%list).

(** *** new_converter.py, [process_data_with_format] and [main] *)

Definition process_data_with_format (content input_format : string)
    : outcome parse_result :=
  if String.eqb input_format "JSON" then parse_json_data content
  else if String.eqb input_format "CSV" then parse_csv_data content ","
  else if String.eqb input_format "TSV" then parse_tsv_data content
  else if String.eqb input_format "XML" then parse_xml_data content
  else if String.eqb input_format "YAML" then parse_yaml_data content
  else Ret (VNone, VStr ("Unsupported input format: " ++ input_format)).

(** lines 415-421, for a [data_text] with [data_text.strip()] non-empty *)
Definition parse_pasted_as (data_text input_format : string)
    : outcome (value * value * list ui_event) :=
  r <- process_data_with_format data_text input_format ;;
  if negb (is_None (fst r))
  then Ret (fst r, snd r,
            [st_success ("✅ " ++ input_format ++ " data parsed successfully!")])
  else Ret (fst r, snd r, [st_error ("❌ " ++ str (snd r))]).

End Scripts.

(** converter.py, [validate_data]: the check applied to parsed data. *)
Definition validate_data (data : value) : bool * string :=
  match data with
  | VList l =>
      match l with
      | [] => (false, "Data array is empty")
      | VDict _ :: _ => (true, "Data is valid")
      | _ :: _ => (false, "Data must contain objects/dictionaries")
      end
  | _ => (false, "Data must be an array/list of objects")
  end.

(** new_converter.py, [main], line 425: the same test, inline:
    [isinstance(data, list) and len(data) > 0 and isinstance(data[0], dict)]. *)
Definition is_record_list (data : value) : bool :=
  match data with
  | VList (VDict _ :: _) => true
  | _ => false
  end.

(** *** new_converter.py: the generators *)

(** What a generator returns: the text, the mime type, the extension. *)
Definition generated : Type := string * string * string.

(** [for i, x in enumerate(l)], from index [i] *)
Fixpoint enumerate_from {A} (i : nat) (l : list A) : list (nat * A) :=
  match l with
  | [] => []
  | x :: rest => (i, x) :: enumerate_from (S i) rest
  end.

(** all of [ms], in order, up to the first that raises *)
Fixpoint sequence {A} (ms : list (outcome A)) : outcome (list A) :=
  match ms with
  | [] => Ret []
  | m :: rest => x <- m ;; xs <- sequence rest ;; Ret (x :: xs)
  end.

Section Generators.

(** The library calls of the generators and of [main]. *)
(** [json.dumps(data, indent=2, ensure_ascii=False)] *)
Variable json_dumps : value -> outcome string.
(** [pd.DataFrame(data)] *)
Variable pd_DataFrame : value -> outcome dataframe.
(** [df.to_csv(output, index=False, sep=sep)], then [output.getvalue()] *)
Variable to_csv : dataframe -> ascii -> outcome string.
(** [ET.tostring(root, encoding='unicode')] *)
Variable ET_tostring : element -> outcome string.
(** [xml.dom.minidom.parseString] and [dom.toprettyxml(indent=...)] *)
Variable minidom_parseString : string -> outcome Xml.node.
Variable toprettyxml : Xml.node -> string -> outcome string.
(** [yaml.dump(data, default_flow_style=False, allow_unicode=True)] *)
Variable yaml_dump : value -> outcome string.

Definition generate_json_output (data : value) : outcome generated :=
  text <- json_dumps data ;; Ret (text, "application/json", ".json").

Definition generate_csv_output (df : dataframe) : outcome generated :=
  text <- to_csv df "," ;; Ret (text, "text/csv", ".csv").

Definition generate_tsv_output (df : dataframe) : outcome generated :=
  text <- to_csv df TAB ;; Ret (text, "text/tab-separated-values", ".tsv").

(** [record.items()]: a record that is not a dict has no [items]. *)
Definition items (record : value) : outcome (list (string * value)) :=
  match record with
  | VDict d => Ret d
  | _ => Raise (Exn OtherError "object has no attribute 'items'")
  end.

(** the element of one field, lines 171-172 *)
Definition field_elem (kv : string * value) : element :=
  Element (replace_char " " "_" (fst kv))
          (Some (if is_None (snd kv) then "" else str (snd kv))) [].

(** the element of the record at index [i], lines 169-172 *)
Definition record_elem (ir : nat * value) : outcome element :=
  fields <- items (snd ir) ;;
  Ret (Element ("record_" ++ str_int (Z.of_nat (fst ir + 1))) None
               (map field_elem fields)).

(** the tree that lines 166-172 build *)
Definition build_tree (data : value) : outcome element :=
  match data with
  | VList l =>
      records <- sequence (map record_elem (enumerate_from 0 l)) ;;
      Ret (Element "data" None records)
  | _ => Raise (Exn OtherError "data is not a list: outside the model")
  end.

(** [generate_xml_output]: the tree is serialized, then
<<
    try:
        dom = xml.dom.minidom.parseString(rough_string)
        return dom.toprettyxml(indent="  "), "application/xml", ".xml"
    except:
        return rough_string, "application/xml", ".xml"
>> *)
Definition generate_xml_output (data : value) : outcome generated :=
  root <- build_tree data ;;
  rough_string <- ET_tostring root ;;
  try_except_all
    (dom <- minidom_parseString rough_string ;;
     pretty <- toprettyxml dom "  " ;;
     Ret (pretty, "application/xml", ".xml"))
    (fun _ => Ret (rough_string, "application/xml", ".xml")).


(** [main], lines 424-430, for a [data] that is not [None]: the record set
    and its frame are kept when the data is a list whose first element is a
    dict. *)
Definition process_data (data : value)
    : outcome (option (value * dataframe) * list ui_event) :=
  if is_record_list data then
    df <- pd_DataFrame data ;;
    Ret (Some (data, df),
         [st_markdown ("<div class=" ++ quoted "success-box"
                        ++ ">✅ Data processed and ready for conversion!</div>")])
  else
    Ret (None,
         [st_markdown ("<div class=" ++ quoted "error-box"
                        ++ ">❌ Data must be a list of objects/dictionaries</div>")]).

End Generators.

(** *** converter.py: uploaded files *)

(** [s.lower()] on the ASCII letters *)
Definition lower_char (c : ascii) : ascii :=
  let n := nat_of_ascii c in
  if Nat.leb 65 n && Nat.leb n 90 then ascii_of_nat (n + 32) else c.

Fixpoint lower (s : string) : string :=
  match s with
  | "" => ""
  | String c r => String (lower_char c) (lower r)
  end.

(** [x in l] for a list of strings *)
Definition str_in (x : string) (l : list string) : bool := existsb (String.eqb x) l.

(** What [uploaded_file.read().decode('utf-8')] gives: the text, or a
    [UnicodeDecodeError]. *)
Inductive decoded :=
| Utf8 (text : string)
| NotUtf8.

(** An uploaded file: its name and its content. *)
Record uploaded_file := Upload { up_name : string; up_read : decoded }.

(** [uploaded_file.name.split('.')[-1].lower()] *)
Definition file_extension_of (name : string) : string :=
  lower (last (split "." name) "").

Section Uploads.

Variable json_loads : string -> outcome value.
Variable read_csv : string -> ascii -> outcome dataframe.
Variable ET_fromstring : string -> outcome element.
Variable yaml_safe_load : string -> outcome value.

(** the last statement of [parse_text_file] *)
Definition unable_to_detect_format : outcome parse_result :=
  Ret (VNone, VStr "Unable to detect format. Please specify the file type.").

(** [parse_text_file]: JSON when the stripped text starts with a bracket or a
    brace and parses to data; otherwise, for a text of several lines, TSV
    when the first line has a tab, CSV when it has a comma. *)
Definition parse_text_file (file_content : string) : outcome parse_result :=
  let file_content := strip file_content in
  let by_delimiter :=
    let lines := split LF file_content in
    if Nat.ltb 1 (length lines) then
      let first_line := hd "" lines in
      if contains (String TAB "") first_line
      then parse_tsv_file read_csv file_content
      else if contains "," first_line
      then parse_csv_file read_csv file_content ","
      else unable_to_detect_format
    else unable_to_detect_format in
  if startswith "[" file_content || startswith "{" file_content then
    r <- parse_json_file json_loads file_content ;;
    if negb (is_None (fst r)) then Ret (fst r, VNone) else by_delimiter
  else by_delimiter.

(** [process_uploaded_file]: the parser is chosen by the extension; what the
    body raises is caught. *)
Definition process_uploaded_file (f : uploaded_file) : outcome parse_result :=
  let file_extension := file_extension_of (up_name f) in
  if str_in file_extension ["json"; "csv"; "tsv"; "txt"; "xml"; "yaml"; "yml"] then
    match up_read f with
    | NotUtf8 =>
        Ret (VNone,
             VStr "Unable to decode file. Please ensure it's a text file with UTF-8 encoding.")
    | Utf8 file_content =>
        try_except_all
          (if String.eqb file_extension "json" then parse_json_file json_loads file_content
           else if String.eqb file_extension "csv"
           then parse_csv_file read_csv file_content ","
           else if String.eqb file_extension "tsv"
           then parse_tsv_file read_csv file_content
           else if String.eqb file_extension "xml"
           then parse_xml_file ET_fromstring file_content
           else if str_in file_extension ["yaml"; "yml"]
           then parse_yaml_file yaml_safe_load file_content
           else if String.eqb file_extension "txt" then parse_text_file file_content
           else Ret (VNone, VStr ("Unsupported file extension: " ++ file_extension)))
          (fun e => Ret (VNone, VStr ("Error processing file: " ++ exn_msg e)))
    end
  else Ret (VNone, VStr ("Unsupported file type: " ++ file_extension)).

End Uploads.

(** ** The reference models as library calls *)

Module Ref.

Definition json_loads : string -> outcome value := JsonDecode.loads.
Definition json_dumps (v : value) : outcome string := Ret (JsonEncode.dumps v).
Definition read_csv : string -> ascii -> outcome dataframe :=
  PandasCsv.read_csv PandasCsv.infer_column.
Definition pd_DataFrame : value -> outcome dataframe := PandasFrame.DataFrame_of.
Definition to_csv (df : dataframe) (sep : ascii) : outcome string :=
  Ret (PandasFrame.to_csv df sep).
Definition ET_tostring : element -> outcome string := Xml.tostring.
Definition minidom_parseString : string -> outcome Xml.node := Xml.parseString.
Definition toprettyxml (dom : Xml.node) (indent : string) : outcome string :=
  Ret (Xml.toprettyxml dom indent).

End Ref.

(** ** The vocabulary of the properties *)

Import PandasCsv YamlDump JsonEncode JsonDecode.

(** data is not None: what the callers test *)
Definition succeeded (r : outcome parse_result) : bool :=
  match r with
  | Ret (data, _) => negb (is_None data)
  | Raise _ => false
  end.

(** [failed_with r msg]: no data and the error message [msg] *)
Definition failed_with (r : outcome parse_result) (msg : string) : Prop :=
  r = Ret (VNone, VStr msg).

(** The shapes the specification accepts: an array of objects, a bare object. *)
Definition is_array_of_objects (v : value) : bool :=
  match v with
  | VList l => forallb is_dict l
  | _ => false
  end.

Definition spec_json_shape (v : value) : bool := is_array_of_objects v || is_dict v.

Definition format_tags : list string := ["JSON"; "XML"; "YAML"; "CSV"; "TSV"; "Unknown"].

Definition returns_tag (r : outcome string) : Prop :=
  exists tag, r = Ret tag /\ In tag format_tags.

(** the parser returned no data *)
Definition no_data (text : string) (p : string * (string -> outcome parse_result))
    : Prop :=
  exists e, snd p text = Ret (VNone, e).

Definition parsed_as (format_name : string) : ui_event :=
  st_info ("✅ Successfully parsed as **" ++ format_name ++ "**").

Definition unable_to_detect : ui_event :=
  st_warning "⚠️ Unable to detect format automatically. Trying multiple parsers...".

(** A text that no parser takes: three lines, the third with a comma and a
    tab.  [Sample.ET_fromstring] and [Sample.yaml_safe_load] are the answers
    of the two libraries on this text (the messages shortened: the YAML
    scanner cannot start a token at the tab). *)
Module Sample.

Definition text : string := "a" ++ nl ++ "1" ++ nl ++ "2,3" ++ String TAB "4".

Definition ET_fromstring (s : string) : outcome element :=
  if String.eqb s text
  then Raise (Exn XMLParseError "syntax error: line 1, column 0")
  else Raise (Exn OtherError "not the sample text").

Definition yaml_safe_load (s : string) : outcome value :=
  if String.eqb s text
  then Raise (Exn YAMLError "while scanning for the next token")
  else Raise (Exn OtherError "not the sample text").

Definition read_csv := PandasCsv.read_csv PandasCsv.infer_column.

Definition shown_error : string := "❌ Invalid YAML format: while scanning for the next token".

End Sample.

(** the record set of the scenario: the second record has no field b *)
Definition two_records : value :=
  VList [VDict [("a", VInt 1); ("b", VInt 2)]; VDict [("a", VInt 3)]].

Definition two_records_frame : dataframe :=
  DataFrame ["a"; "b"]
            [[VInt 1; VFloat (Fwhole 2)]; [VInt 3; VFloat Fnan]].

(** the element of the record at index [i] *)
Definition record_element (ir : nat * list (string * value)) : element :=
  Element ("record_" ++ str_int (Z.of_nat (fst ir + 1))) None
          (map field_elem (snd ir)).






(** the line of one field of a record of a sequence at the root: the mapping
    is indented by two, the scalars continue at four *)
Definition entry (kv : string * value) : string :=
  let key := write_str 4 2 true (fst kv) in
  key ++ ": " ++ write_scalar 4 (2 + char_length key + 2) false (snd kv).

(** the lines of one record: its fields in the order of [sort_items] *)
Definition record_lines (r : list (string * value)) : list string :=
  match r with
  | [] => ["- {}"]
  | _ => after_indicator "-" (map entry (sort_items r))
  end.

Definition yaml_text (records : list (list (string * value))) : string :=
  match records with
  | [] => "[]" ++ nl
  | _ => String.concat "" (map (fun l => l ++ nl) (flat_map record_lines records))
  end.










Definition not_digit_start (s : string) : Prop := first_is is_digit s = false.

(** the scalars of JSON that the model decodes: null, booleans, integers,
    strings, and the floats of the model, nan and the whole numbers of
    magnitude at most [2 ** 53] *)
Definition json_scalar (v : value) : bool :=
  match v with
  | VNone | VBool _ | VInt _ | VStr _ => true
  | VFloat Fnan => true
  | VFloat (Fwhole z) => Z.leb (Z.abs z) (2 ^ 53)
  | _ => false
  end.

(** what follows a value in the encoder's output: a comma or a line feed *)
Definition delim_start (rest : string) : Prop :=
  exists r, rest = String "," r \/ rest = String LF r.

Definition number_start (s : string) : Prop :=
  exists c r, s = String c r /\ (c = "-"%char \/ is_digit c = true).

Definition starts_nonws (s : string) : Prop :=
  match s with
  | "" => True
  | String c _ => is_ws c = false
  end.

Definition enc_field (level : nat) (kv : string * value) : string :=
  encode_basestring (fst kv) ++ ": " ++ iterencode (S level) (snd kv).

(** the members of an object as the encoder writes them, from just after the
    opening quote of the first key, followed by [tail] *)
Fixpoint members_text (level : nat) (fields : list (string * value)) (tail : string)
    : string :=
  match fields with
  | [] => tail
  | kv :: more =>
      escape (fst kv)
        ++ String DQUOTE
             (": " ++ iterencode (S level) (snd kv)
                ++ match more with
                   | [] => tail
                   | _ => "," ++ newline_indent (S level)
                              ++ String DQUOTE (members_text level more tail)
                   end)
  end.

Definition scalar_fields (r : list (string * value)) : Prop :=
  Forall (fun kv => json_scalar (snd kv) = true) r.

(** a record of the round trip: scalar fields, distinct keys *)
Definition json_flat_record (r : list (string * value)) : Prop :=
  scalar_fields r /\ NoDup (map fst r).

Definition enc_record (level : nat) (r : list (string * value)) : string :=
  iterencode (S level) (VDict r).

Definition items_text (level : nat) (records : list (list (string * value))) : string :=
  join ("," ++ newline_indent (S level)) (map (enc_record level) records).

(** enough fuel for the records: their number and the number of their fields *)
Definition weight (records : list (list (string * value))) : nat :=
  list_sum (map (fun r => S (length r)) records) + 2.







(** the records that a CSV text with a missing cell gives: the column b is
    a column of floats, 2.0 and nan *)
Definition float_records : list (list (string * value)) :=
  [[("a", VInt 1); ("b", VFloat (Fwhole 2))]; [("a", VInt 3); ("b", VFloat Fnan)]].

(** two records: a number and a text with a quote and a line feed, a null *)
Definition sample_records : list (list (string * value)) :=
  [[("a", VInt 1); ("b", VStr (String DQUOTE "x" ++ nl))]; [("a", VNone)]].

(** a parser result that has exactly one of data and error: a list and no
    error, or no data and a message *)
Definition one_of_data_error (r : parse_result) : Prop :=
  (is_list (fst r) = true /\ snd r = VNone)
  \/ (fst r = VNone /\ exists msg, snd r = VStr msg).

(** the text of the last child with the tag [t] *)
Definition last_text_of (children : list element) (t : string) : option value :=
  option_map text_or_empty (find (fun c => String.eqb (el_tag c) t) (rev children)).

(** the three tests of the detector, on the stripped text *)
Definition json_brackets (c : string) : bool :=
  (startswith "[" c && endswith_char "]" c) || (startswith "{" c && endswith_char "}" c).

Definition xml_brackets (c : string) : bool :=
  startswith "<" c && endswith_char ">" c.

Definition yaml_hint (c : string) : bool :=
  (contains "- " c && contains ":" c)
  || (Nat.ltb (count_char "," c) (count_char ":" c) && contains nl c).

(** the first line of a text *)
Definition first_line_of (c : string) : string := hd "" (split LF c).

Definition detected (format_name : string) : ui_event :=
  st_info ("🔍 Detected format: **" ++ format_name ++ "**").

(** a ragged text: CSV by its first line, with a third line that is too long *)
Definition ragged_text : string := "a,b" ++ nl ++ "1,2" ++ nl ++ "3,4,5".

(** what reading the tree back gives for one field and for one record *)
Definition read_back_field (kv : string * value) : string * value :=
  (replace_char " " "_" (fst kv),
   VStr (if is_None (snd kv) then "" else str (snd kv))).

Definition read_back_record (ir : nat * list (string * value)) : value :=
  match snd ir with
  | [] => VDict [("record_" ++ str_int (Z.of_nat (fst ir + 1)), VStr "")]
  | fields => VDict (dict_of_pairs (map read_back_field fields))
  end.

(** a text that is empty or starts with a character that is not a space *)
Definition no_leading_space (s : string) : Prop :=
  match s with
  | "" => True
  | String c _ => isspace c = false
  end.

(** a name with a numbered suffix, or the name itself *)
Definition numbered (old new : string) : Prop :=
  new = old \/ exists k, 1 <= k /\ new = old ++ "." ++ str_nat k.

(** What the loop of [mangle] keeps, [P] being the positions done: they have
    distinct names, which are the names that have a count; the other
    positions still have the names of the header [h0]. *)
Definition mangled (P : list nat) (h : list string) (counts : list (string * nat))
    (h0 : list string) : Prop :=
  (forall p, In p P -> 0 < count_of counts (nth p h ""))
  /\ (forall x, 0 < count_of counts x ->
                exists p, In p P /\ p < length h /\ nth p h "" = x)
  /\ (forall p q, In p P -> In q P -> nth p h "" = nth q h "" -> p = q)
  /\ (forall j, ~ In j P -> nth j h "" = nth j h0 "")
  /\ (forall p, In p P -> numbered (nth p h0 "") (nth p h "")).

(** What [yaml.safe_load] answers on four texts: a sequence of two mappings,
    a mapping, a plain scalar, and a text that is not YAML (the message
    shortened). *)
Definition yaml_answers (s : string) : outcome value :=
  if String.eqb s ("- a: 1" ++ nl ++ "- a: 2")
  then Ret (VList [VDict [("a", VInt 1)]; VDict [("a", VInt 2)]])
  else if String.eqb s "a: 1" then Ret (VDict [("a", VInt 1)])
  else if String.eqb s "hello" then Ret (VStr "hello")
  else if String.eqb s "a: b: c"
  then Raise (Exn YAMLError "mapping values are not allowed here")
  else Raise (Exn OtherError "not one of the four texts").

(** * Properties *)

(** ** Text *)

Lemma str_app_assoc (a b c : string) : (a ++ b) ++ c = a ++ (b ++ c).
Proof. induction a as [| x a IH]; simpl; [reflexivity | rewrite IH; reflexivity]. Qed.

Lemma str_length_app (a b : string) :
  String.length (a ++ b) = String.length a + String.length b.
Proof. induction a as [| x a IH]; simpl; [reflexivity | rewrite IH; reflexivity]. Qed.

Lemma str_app_nil_r (s : string) : s ++ "" = s.
Proof. induction s as [| c s IH]; simpl; [reflexivity | rewrite IH; reflexivity]. Qed.

(** ** The JSON parser *)

Lemma parse_json_data_ret json_loads content v :
  json_loads content = Ret v ->
  parse_json_data json_loads content = Ret (v, VNone).
Proof. intros H. unfold parse_json_data. rewrite H. reflexivity. Qed.

Lemma parse_json_data_decode_error json_loads content msg :
  json_loads content = Raise (Exn JSONDecodeError msg) ->
  parse_json_data json_loads content
  = Ret (VNone, VStr ("Invalid JSON format: " ++ msg)).
Proof. intros H. unfold parse_json_data. rewrite H. reflexivity. Qed.

Lemma append_inv_head (p a b : string) : p ++ a = p ++ b -> a = b.
Proof. induction p as [| c p IH]; simpl; intros H; [exact H | injection H; auto]. Qed.

Lemma is_None_false_iff v : is_None v = false <-> v <> VNone.
Proof. destruct v; simpl; split; congruence. Qed.

(** C10. A text that is valid JSON and decodes to null gives [(None, None)]:
    no data and no error message; the caller's [data is not None] test then
    takes the failure branch and has only [None] to show. *)
Theorem C10_json_null_gives_no_data_no_error :
  forall json_loads read_csv ET_fromstring yaml_safe_load content,
    json_loads content = Ret VNone ->
    parse_json_data json_loads content = Ret (VNone, VNone)
    /\ succeeded (parse_json_data json_loads content) = false
    /\ parse_pasted_as json_loads read_csv ET_fromstring yaml_safe_load content "JSON"
       = Ret (VNone, VNone, [st_error "❌ None"]).
Proof.
  intros jl rc et yl content H.
  pose proof (parse_json_data_ret jl content VNone H) as Hp.
  repeat split.
  - exact Hp.
  - rewrite Hp. reflexivity.
  - unfold parse_pasted_as, process_data_with_format. simpl.
    rewrite Hp. reflexivity.
Qed.

Lemma C10_witness :
  JsonDecode.loads "null" = Ret VNone
  /\ parse_json_data JsonDecode.loads "null" = Ret (VNone, VNone)
  /\ succeeded (parse_json_data JsonDecode.loads "null") = false
  /\ parse_pasted_as JsonDecode.loads
       (fun _ _ => Raise (Exn OtherError "not called"))
       (fun _ => Raise (Exn OtherError "not called"))
       (fun _ => Raise (Exn OtherError "not called")) "null" "JSON"
     = Ret (VNone, VNone, [st_error "❌ None"]).
Proof.
  split; [reflexivity |].
  apply (C10_json_null_gives_no_data_no_error JsonDecode.loads
           (fun _ _ => Raise (Exn OtherError "not called"))
           (fun _ => Raise (Exn OtherError "not called"))
           (fun _ => Raise (Exn OtherError "not called")) "null").
  reflexivity.
Defined.

(** C3, as the code has it. The parser checks no shape and wraps nothing: it
    returns whatever [json.loads] returned, so it succeeds exactly when the
    text decodes to a value other than null, and it reports
    [Invalid JSON format] exactly for a decode error. The shape is tested
    afterwards, by [validate_data], which accepts a list whose first element
    is an object. *)
Theorem C3_json_parser_returns_decoded_value_unchanged :
  forall json_loads content,
    (forall v, json_loads content = Ret v ->
               parse_json_data json_loads content = Ret (v, VNone))
    /\ (succeeded (parse_json_data json_loads content) = true
        <-> exists v, json_loads content = Ret v /\ v <> VNone)
    /\ (forall msg,
           failed_with (parse_json_data json_loads content)
                       ("Invalid JSON format: " ++ msg)
           <-> json_loads content = Raise (Exn JSONDecodeError msg))
    /\ (forall v, fst (validate_data v) = is_record_list v).
Proof.
  intros jl content. split; [| split; [| split]].
  - apply parse_json_data_ret.
  - unfold parse_json_data. destruct (jl content) as [v | [cls msg]] eqn:E; simpl.
    + rewrite negb_true_iff, is_None_false_iff. split.
      * intros Hv. exists v. split; [reflexivity | exact Hv].
      * intros [v' [Hv' Hn]]. congruence.
    + split.
      * destruct cls; simpl; discriminate.
      * intros [v [Hv _]]. discriminate.
  - intros msg. unfold failed_with, parse_json_data.
    destruct (jl content) as [v | [cls m]] eqn:E; simpl.
    + split; discriminate.
    + destruct cls; simpl; split; intros H; try discriminate;
        try (injection H as H;
             apply (append_inv_head "Invalid JSON format: ") in H; subst; reflexivity);
        try (injection H as ->; reflexivity).
  - intros v. destruct v as [| | | | | [| [] ?] |]; reflexivity.
Qed.

(** C3 as the specification words it fails on the text 5, which decodes to a
    scalar and is returned as a success, and on a bare object, which is
    returned as it is, not as a one-element list. *)
Lemma C3_counterexample :
  JsonDecode.loads "5" = Ret (VInt 5)
  /\ spec_json_shape (VInt 5) = false
  /\ succeeded (parse_json_data JsonDecode.loads "5") = true
  /\ JsonDecode.loads "{}" = Ret (VDict [])
  /\ parse_json_data JsonDecode.loads "{}" = Ret (VDict [], VNone)
  /\ is_list (VDict []) = false.
Proof. repeat split; reflexivity. Qed.

(** ** The format detector *)

Lemma try_return_tag {A} (call : outcome A) (tag : string) (rest : outcome string) :
  In tag format_tags -> returns_tag rest -> returns_tag (try_return call tag rest).
Proof.
  intros Ht Hr. unfold try_return.
  destruct call as [a | e]; simpl.
  - exists tag. split; [reflexivity | exact Ht].
  - exact Hr.
Qed.

Lemma returns_tag_Ret tag : In tag format_tags -> returns_tag (Ret tag).
Proof. intros H. exists tag. split; [reflexivity | exact H]. Qed.

Create HintDb detect.
#[local] Hint Resolve returns_tag_Ret try_return_tag : detect.
#[local] Hint Extern 1 (In _ format_tags) => (simpl; tauto) : detect.

(** C9. Whatever the three library calls do, raise included, the detector
    returns, and what it returns is one of the six tags. *)
Theorem C9_detector_is_total :
  forall json_loads ET_fromstring yaml_safe_load content,
    exists tag,
      detect_format_from_content json_loads ET_fromstring yaml_safe_load content
      = Ret tag
      /\ In tag format_tags.
Proof.
  intros jl et yl content.
  change (returns_tag (detect_format_from_content jl et yl content)).
  unfold detect_format_from_content.
  set (c := strip content).
  assert (Hcsv : returns_tag
            (if Nat.ltb 1 (length (split LF c))
             then if Nat.ltb (count_char "," (hd "" (split LF c)))
                             (count_char TAB (hd "" (split LF c)))
                     && Nat.ltb 0 (count_char TAB (hd "" (split LF c)))
                  then Ret "TSV"
                  else if Nat.ltb 0 (count_char "," (hd "" (split LF c)))
                       then Ret "CSV" else Ret "Unknown"
             else Ret "Unknown")).
  { repeat match goal with |- context [if ?b then _ else _] => destruct b end;
      auto with detect. }
  repeat match goal with
         | |- returns_tag (if ?b then _ else _) => destruct b
         | |- returns_tag (try_return _ _ _) => apply try_return_tag
         end; auto with detect.
Qed.
(** ** The CSV parser *)

Lemma length_pad n (l : list string) : length (pad n l) = Nat.max n (length l).
Proof. unfold pad. rewrite length_app, repeat_length. lia. Qed.











(** the same lines, ended by carriage returns and line feeds or by carriage
    returns alone *)
Example read_csv_carriage_returns :
  parse_csv_data (read_csv infer_column)
    ("a,b" ++ String CR nl ++ "1,2" ++ String CR nl) ","
  = Ret (VList [VDict [("a", VInt 1); ("b", VInt 2)]], VNone)
  /\ parse_csv_data (read_csv infer_column)
       ("a,b" ++ String CR "1,2" ++ String CR "3,4") ","
     = Ret (VList [VDict [("a", VInt 1); ("b", VInt 2)];
                   VDict [("a", VInt 3); ("b", VInt 4)]], VNone).
Proof. vm_compute. split; reflexivity. Qed.

Lemma length_set_nth i x l : length (set_nth i x l) = length l.
Proof. revert i. induction l as [| h t IH]; intros [| i]; simpl; auto. Qed.

Lemma length_name_unnamed names : forall i, length (name_unnamed i names) = length names.
Proof. induction names as [| n t IH]; intros i; simpl; auto. Qed.

Lemma length_mangle order : forall this_header counts,
  length (mangle order this_header counts) = length this_header.
Proof.
  induction order as [| i rest IH]; intros h counts; [reflexivity |].
  cbn [mangle]. cbv zeta.
  match goal with |- context [free_name ?f ?a ?b ?c ?n ?k] =>
    destruct (free_name f a b c n k) as [[col cur] counts'] end.
  rewrite IH. apply length_set_nth.
Qed.

Lemma length_header_names fields : length (header_names fields) = length fields.
Proof. unfold header_names. rewrite length_mangle. apply length_name_unnamed. Qed.

Lemma succeeded_records df e :
  succeeded (Ret (to_dict_records df, e)) = true.
Proof. reflexivity. Qed.

(** *** The names of the columns *)

Lemma str_int_inj a b : str_int a = str_int b -> a = b.
Proof.
  unfold str_int. intros H.
  assert (Hn : forall z, NilZero.int_of_string (NilZero.string_of_int (Z.to_int z))
                         = Some (Z.to_int z)).
  { intros z. apply NilZero.isi; destruct z; simpl; try discriminate;
      intros E; injection E as E; exact (Unsigned.to_uint_nonnil _ E). }
  assert (E : Some (Z.to_int a) = Some (Z.to_int b)).
  { rewrite <- (Hn a), <- (Hn b), H. reflexivity. }
  injection E as E.
  rewrite <- (DecimalZ.of_to a), <- (DecimalZ.of_to b), E. reflexivity.
Qed.

Lemma str_nat_inj a b : str_nat a = str_nat b -> a = b.
Proof. unfold str_nat. intros H. apply str_int_inj in H. lia. Qed.

Lemma suffixed_neq old s : old ++ "." ++ s <> old.
Proof.
  intros H. apply (f_equal String.length) in H.
  rewrite str_length_app in H. simpl in H. lia.
Qed.

Lemma suffixed_inj old s t : old ++ "." ++ s = old ++ "." ++ t -> s = t.
Proof. intros H. apply append_inv_head in H. injection H. auto. Qed.

Lemma in_names_In k names : in_names k names = true <-> In k names.
Proof.
  unfold in_names. rewrite existsb_exists. split.
  - intros [x [Hin Hx]]. apply String.eqb_eq in Hx. subst. exact Hin.
  - intros H. exists k. split; [exact H | apply String.eqb_refl].
Qed.

Lemma count_of_set_count_same c k n : count_of (set_count c k n) k = n.
Proof. unfold count_of, set_count. simpl. rewrite String.eqb_refl. reflexivity. Qed.

Lemma count_of_set_count_other c k n x :
  x <> k -> count_of (set_count c k n) x = count_of c x.
Proof.
  intros Hx. unfold count_of, set_count. simpl.
  destruct (String.eqb k x) eqn:E; [apply String.eqb_eq in E; congruence |].
  induction c as [| [k' n'] c IH]; simpl; [reflexivity |].
  destruct (String.eqb k' k) eqn:E1; simpl.
  - destruct (String.eqb k' x) eqn:E2; [| exact IH].
    apply String.eqb_eq in E1, E2. congruence.
  - destruct (String.eqb k' x); [reflexivity | exact IH].
Qed.

Lemma nth_set_nth_same (l : list string) : forall i x,
  i < length l -> nth i (set_nth i x l) "" = x.
Proof.
  induction l as [| a l IH]; intros [| i] x H; simpl in *; try lia; [reflexivity |].
  apply IH. lia.
Qed.

Lemma nth_set_nth_other (l : list string) : forall i j x,
  i <> j -> nth j (set_nth i x l) "" = nth j l "".
Proof.
  induction l as [| a l IH]; intros [| i] [| j] x H; simpl; try reflexivity; try lia.
  apply IH. lia.
Qed.

(** among more candidates than the header has names, one is free *)
Lemma free_index h old c :
  exists n, n <= length h /\ in_names (old ++ "." ++ str_nat (c + n)) h = false.
Proof.
  destruct (existsb (fun n => negb (in_names (old ++ "." ++ str_nat (c + n)) h))
                    (seq 0 (S (length h)))) eqn:E.
  - apply existsb_exists in E. destruct E as [n [Hin Hn]]. apply in_seq in Hin.
    exists n. split; [lia |]. apply negb_true_iff in Hn. exact Hn.
  - exfalso.
    assert (Hall : forall n, n <= length h -> In (old ++ "." ++ str_nat (c + n)) h).
    { intros n Hn. apply in_names_In.
      destruct (in_names (old ++ "." ++ str_nat (c + n)) h) eqn:E2; [reflexivity |].
      assert (Hex : existsb (fun n => negb (in_names (old ++ "." ++ str_nat (c + n)) h))
                      (seq 0 (S (length h))) = true).
      { apply existsb_exists. exists n. split; [apply in_seq; lia |].
        rewrite E2. reflexivity. }
      congruence. }
    assert (Hnd : NoDup (map (fun n => old ++ "." ++ str_nat (c + n))
                             (seq 0 (S (length h))))).
    { apply Finite.Injective_map_NoDup; [| apply seq_NoDup].
      intros a b Hab. apply suffixed_inj, str_nat_inj in Hab. lia. }
    apply NoDup_incl_length with (l' := h) in Hnd.
    + rewrite length_map, length_seq in Hnd. lia.
    + intros x Hx. apply in_map_iff in Hx. destruct Hx as [n [<- Hn]].
      apply in_seq in Hn. apply Hall. lia.
Qed.

(** The loop that looks for a free name stops at the first candidate that
    is not in the header, when no name outside the header has a count. *)
Lemma free_name_spec h old : forall fuel col cur counts,
  0 < cur ->
  (forall x, x <> old -> 0 < count_of counts x -> in_names x h = true) ->
  (exists n, n < fuel /\ in_names (old ++ "." ++ str_nat (cur + n)) h = false) ->
  exists k counts',
    cur <= k
    /\ free_name fuel h old col cur counts = (old ++ "." ++ str_nat k, 0, counts')
    /\ in_names (old ++ "." ++ str_nat k) h = false
    /\ (forall x, x <> old -> count_of counts' x = count_of counts x)
    /\ 0 < count_of counts' old.
Proof.
  induction fuel as [| f IH]; intros col cur counts Hcur Hc [n [Hn Hfree]]; [lia |].
  cbn [free_name]. destruct (Nat.ltb 0 cur) eqn:E; [| apply Nat.ltb_ge in E; lia].
  cbv zeta.
  destruct (in_names (old ++ "." ++ str_nat cur) h) eqn:Et.
  - destruct n as [| n]; [rewrite Nat.add_0_r in Hfree; congruence |].
    destruct (IH (old ++ "." ++ str_nat cur) (S cur) (set_count counts old (S cur)))
      as [k [counts' [Hk [Heq [Hf [Hother Hold]]]]]].
    + lia.
    + intros x Hx Hpos. rewrite count_of_set_count_other in Hpos by exact Hx.
      apply Hc; assumption.
    + exists n. split; [lia |].
      replace (S cur + n) with (cur + S n) by lia. exact Hfree.
    + exists k, counts'. split; [lia |]. split; [exact Heq |].
      split; [exact Hf |]. split; [| exact Hold].
      intros x Hx. rewrite (Hother x Hx). apply count_of_set_count_other. exact Hx.
  - assert (Hz : count_of (set_count counts old (S cur)) (old ++ "." ++ str_nat cur) = 0).
    { rewrite count_of_set_count_other by apply suffixed_neq.
      destruct (count_of counts (old ++ "." ++ str_nat cur)) eqn:Ec; [reflexivity |].
      rewrite (Hc (old ++ "." ++ str_nat cur)) in Et;
        [discriminate | apply suffixed_neq | lia]. }
    rewrite Hz. exists cur, (set_count counts old (S cur)).
    split; [lia |]. split; [destruct f; reflexivity |].
    split; [exact Et |]. split.
    + intros x Hx. apply count_of_set_count_other. exact Hx.
    + rewrite count_of_set_count_same. lia.
Qed.

(** one turn of the loop over the positions *)
Lemma mangle_step i P h counts h0 :
  i < length h -> ~ In i P -> mangled P h counts h0 ->
  let r := free_name (S (length h * length h)) h (nth i h "") (nth i h "")
             (count_of counts (nth i h "")) counts in
  mangled (i :: P) (set_nth i (fst (fst r)) h)
          (set_count (snd r) (fst (fst r)) (S (snd (fst r)))) h0.
Proof.
  intros Hi HiP [I1 [I2 [I3 [I4 I5]]]]. set (old := nth i h "").
  assert (Hold0 : old = nth i h0 "") by (apply I4; exact HiP).
  assert (Hres : exists col' cur' counts',
            free_name (S (length h * length h)) h old old (count_of counts old) counts
            = (col', cur', counts')
            /\ numbered old col'
            /\ (forall p, In p P -> nth p h "" <> col')
            /\ (forall x, x <> col' -> 0 < count_of counts' x ->
                          exists p, In p P /\ p < length h /\ nth p h "" = x)
            /\ (forall p, In p P -> nth p h "" <> col' ->
                          0 < count_of counts' (nth p h ""))).
  { destruct (count_of counts old) as [| c] eqn:Ec.
    - exists old, 0, counts. split; [reflexivity |]. split; [left; reflexivity |].
      split; [| split].
      + intros p Hp Heq. specialize (I1 p Hp). rewrite Heq, Ec in I1. lia.
      + intros x _ Hx. apply I2. exact Hx.
      + intros p Hp _. apply I1. exact Hp.
    - assert (Hc : forall x, x <> old -> 0 < count_of counts x -> in_names x h = true).
      { intros x _ Hx. destruct (I2 x Hx) as [p [_ [Hlt <-]]].
        apply in_names_In, nth_In. exact Hlt. }
      destruct (free_index h old (S c)) as [n [Hn Hfree]].
      destruct (free_name_spec h old (S (length h * length h)) old (S c) counts
                  ltac:(lia) Hc) as [k [counts' [Hk [Heq [Hf [Hother Hpos]]]]]].
      { exists n. split; [nia | exact Hfree]. }
      exists (old ++ "." ++ str_nat k), 0, counts'. split; [exact Heq |].
      split; [right; exists k; split; [lia | reflexivity] |].
      assert (Hnot : forall p, In p P -> nth p h "" <> old ++ "." ++ str_nat k).
      { intros p Hp Heq'.
        destruct (I2 (nth p h "")) as [q [_ [Hlt Hq]]]; [apply I1; exact Hp |].
        assert (Hin : in_names (old ++ "." ++ str_nat k) h = true).
        { apply in_names_In. rewrite <- Heq', <- Hq. apply nth_In. exact Hlt. }
        congruence. }
      split; [exact Hnot |]. split.
      + intros x Hne Hx. destruct (String.eqb x old) eqn:Exo.
        * apply String.eqb_eq in Exo. subst x. apply I2. rewrite Ec. lia.
        * apply String.eqb_neq in Exo. rewrite (Hother x Exo) in Hx.
          apply I2. exact Hx.
      + intros p Hp _. destruct (String.eqb (nth p h "") old) eqn:Exo.
        * apply String.eqb_eq in Exo. rewrite Exo. exact Hpos.
        * apply String.eqb_neq in Exo. rewrite (Hother _ Exo). apply I1. exact Hp. }
  destruct Hres as [col' [cur' [counts' [Heq [Hnum [Hnot [Hkeys Hcnt]]]]]]].
  fold old. rewrite Heq. cbn [fst snd].
  assert (Hother : forall p, In p P -> nth p (set_nth i col' h) "" = nth p h "").
  { intros p Hp. apply nth_set_nth_other. intros ->. exact (HiP Hp). }
  assert (Hsame : nth i (set_nth i col' h) "" = col')
    by (apply nth_set_nth_same; exact Hi).
  repeat split.
  - intros p [<- | Hp].
    + rewrite Hsame, count_of_set_count_same. lia.
    + rewrite (Hother p Hp).
      rewrite count_of_set_count_other by (apply Hnot; exact Hp).
      apply Hcnt; [exact Hp | apply Hnot; exact Hp].
  - intros x Hx. destruct (String.eqb x col') eqn:Exc.
    + apply String.eqb_eq in Exc. subst x. exists i.
      split; [left; reflexivity |]. split; [rewrite length_set_nth; exact Hi | exact Hsame].
    + apply String.eqb_neq in Exc. rewrite count_of_set_count_other in Hx by exact Exc.
      destruct (Hkeys x Exc Hx) as [p [Hp [Hlt Hnth]]].
      exists p. split; [right; exact Hp |].
      split; [rewrite length_set_nth; exact Hlt |]. rewrite (Hother p Hp). exact Hnth.
  - intros p q [<- | Hp] [<- | Hq]; [reflexivity | | |].
    + rewrite Hsame, (Hother q Hq). intros E. symmetry in E.
      exfalso. exact (Hnot q Hq E).
    + rewrite Hsame, (Hother p Hp). intros E. exfalso. exact (Hnot p Hp E).
    + rewrite (Hother p Hp), (Hother q Hq). apply I3; assumption.
  - intros j Hj. rewrite nth_set_nth_other.
    + apply I4. intros Hin. apply Hj. right. exact Hin.
    + intros ->. apply Hj. left. reflexivity.
  - intros p [<- | Hp].
    + rewrite Hsame, <- Hold0. exact Hnum.
    + rewrite (Hother p Hp). apply I5. exact Hp.
Qed.

Lemma mangle_mangled : forall order h counts P h0,
  NoDup order ->
  (forall i, In i order -> i < length h /\ ~ In i P) ->
  mangled P h counts h0 ->
  length (mangle order h counts) = length h
  /\ exists counts', mangled (rev order ++ P) (mangle order h counts) counts' h0.
Proof.
  induction order as [| i rest IH]; intros h counts P h0 Hnd Hin Hinv.
  - split; [reflexivity |]. exists counts. exact Hinv.
  - inversion Hnd as [| ? ? Hirest Hnd']; subst.
    destruct (Hin i (or_introl eq_refl)) as [Hi HiP].
    assert (Hstep := mangle_step i P h counts h0 Hi HiP Hinv).
    cbn [mangle]. cbv zeta in Hstep |- *.
    destruct (free_name (S (length h * length h)) h (nth i h "") (nth i h "")
                (count_of counts (nth i h "")) counts) as [[col' cur'] counts'].
    cbn [fst snd] in Hstep.
    destruct (IH (set_nth i col' h) (set_count counts' col' (S cur')) (i :: P) h0
                Hnd') as [Hlen [counts'' Hfinal]].
    + intros j Hj. rewrite length_set_nth. split; [apply Hin; right; exact Hj |].
      intros [<- | HjP]; [exact (Hirest Hj) |].
      exact (proj2 (Hin j (or_intror Hj)) HjP).
    + exact Hstep.
    + split; [rewrite Hlen; apply length_set_nth |].
      exists counts''. cbn [rev]. rewrite <- app_assoc. exact Hfinal.
Qed.

(** The names that [header_names] gives are distinct, and each is the name
    of its field or that name with a numbered suffix. *)
Lemma header_names_distinct fields :
  NoDup (header_names fields)
  /\ forall i, i < length fields ->
       numbered (nth i (name_unnamed 0 fields) "") (nth i (header_names fields) "").
Proof.
  unfold header_names. cbv zeta.
  set (h0 := name_unnamed 0 fields).
  set (unnamed := fun i => String.eqb (nth i fields "") "").
  set (order := (filter (fun i => negb (unnamed i)) (seq 0 (length fields))
                   ++ filter unnamed (seq 0 (length fields)))%list).
  change (NoDup (mangle order h0 [])
          /\ forall i, i < length fields ->
               numbered (nth i h0 "") (nth i (mangle order h0 []) "")).
  assert (Hlen0 : length h0 = length fields) by apply length_name_unnamed.
  assert (Horder : forall i, In i order <-> i < length fields).
  { intros i. unfold order. rewrite in_app_iff, !filter_In, in_seq.
    destruct (unnamed i); simpl; intuition lia. }
  assert (Hnd : NoDup order).
  { unfold order. apply NoDup_app.
    - apply NoDup_filter, seq_NoDup.
    - apply NoDup_filter, seq_NoDup.
    - intros i H1 H2. apply filter_In in H1, H2.
      destruct H1 as [_ H1], H2 as [_ H2]. rewrite H2 in H1. discriminate. }
  destruct (mangle_mangled order h0 [] [] h0 Hnd) as [Hlen [counts [_ [_ [I3 [_ I5]]]]]].
  - intros i Hi. split; [rewrite Hlen0; apply Horder; exact Hi | intros []].
  - split; [intros p [] |].
    split; [intros x Hx; unfold count_of in Hx; simpl in Hx; lia |].
    split; [intros p q [] |]. split; [reflexivity | intros p []].
  - assert (Hall : forall i, i < length fields -> In i (rev order ++ [])).
    { intros i Hi. rewrite List.app_nil_r, <- in_rev. apply Horder. exact Hi. }
    split.
    + apply (NoDup_nth _ ""). rewrite Hlen, Hlen0. intros i j Hi Hj E.
      apply I3; [apply Hall; exact Hi | apply Hall; exact Hj | exact E].
    + intros i Hi. apply I5, Hall. exact Hi.
Qed.

Lemma dict_set_fresh d k v :
  ~ In k (map fst d) -> dict_set d k v = (d ++ [(k, v)])%list.
Proof.
  induction d as [| [k' v'] d IH]; intros H; simpl; [reflexivity |].
  destruct (String.eqb k' k) eqn:E.
  - apply String.eqb_eq in E. subst. exfalso. apply H. left. reflexivity.
  - rewrite IH; [reflexivity |]. intros Hin. apply H. right. exact Hin.
Qed.

Lemma fold_dict_set pairs : forall acc,
  NoDup (map fst (acc ++ pairs)) ->
  fold_left (fun d kv => dict_set d (fst kv) (snd kv)) pairs acc = (acc ++ pairs)%list.
Proof.
  induction pairs as [| [k v] pairs IH]; intros acc H; simpl.
  - rewrite List.app_nil_r. reflexivity.
  - rewrite dict_set_fresh.
    + rewrite IH; rewrite <- app_assoc; [reflexivity | exact H].
    + rewrite map_app in H. simpl in H. apply NoDup_remove_2 in H.
      intros Hin. apply H. apply in_or_app. left. exact Hin.
Qed.

(** with distinct keys, [dict(pairs)] keeps every pair *)
Lemma dict_of_pairs_nodup pairs :
  NoDup (map fst pairs) -> dict_of_pairs pairs = pairs.
Proof. intros H. unfold dict_of_pairs. apply (fold_dict_set pairs [] H). Qed.

Lemma NoDup_firstn {A} (l : list A) : forall n, NoDup l -> NoDup (firstn n l).
Proof.
  induction l as [| a l IH]; intros [| n] H; simpl; try constructor.
  - inversion H as [| ? ? Ha Hl]; subst. intros Hin. apply Ha.
    rewrite <- (firstn_skipn n l). apply in_or_app. left. exact Hin.
  - inversion H; subst. apply IH. assumption.
Qed.

Lemma map_fst_combine {A B} (l : list A) : forall (l' : list B),
  map fst (combine l l') = firstn (length l') l.
Proof.
  induction l as [| a l IH]; intros [| b l']; simpl; try reflexivity.
  rewrite IH. reflexivity.
Qed.

Lemma to_dict_records_distinct df :
  NoDup (df_columns df) ->
  to_dict_records df
  = VList (map (fun row => VDict (combine (df_columns df) row)) (df_rows df)).
Proof.
  intros H. unfold to_dict_records. f_equal. apply map_ext. intros row.
  rewrite dict_of_pairs_nodup; [reflexivity |].
  rewrite map_fst_combine. apply NoDup_firstn. exact H.
Qed.

Lemma length_transpose w : forall rows, length (transpose w rows) = w.
Proof. induction w as [| w IH]; intros rows; simpl; [| rewrite IH]; reflexivity. Qed.

Lemma rows_of_row_length {A} n : forall (cols : list (list A)) dflt,
  Forall (fun row => length row = length cols) (rows_of n cols dflt).
Proof.
  induction n as [| n IH]; intros cols dflt; simpl; constructor.
  - apply length_map.
  - specialize (IH (map (fun c => tl c) cols) dflt).
    rewrite length_map in IH. exact IH.
Qed.

(** the first data line is at least as long as the header *)
Lemma end_lines_first_data_line lines header r data :
  end_lines lines 0 0 = Ret (header :: r :: data) -> length header <= length r.
Proof.
  destruct lines as [| [f0 h] [| [f1 r1] rest]]; simpl; try discriminate.
  change (Nat.ltb 1 1) with false. cbn [andb]. change (Nat.leb 1 1) with true.
  cbv iota.
  destruct (end_lines rest 2 (length (pad (length h) r1))) as [more | e];
    simpl; [| discriminate].
  intros H. injection H as <- <- _. rewrite length_pad. lia.
Qed.

(** C6, as the code has it. The names of the header play no part in whether
    the parser fails: when the lines tokenize and pass the field counts, the
    parser succeeds whatever the header is, repeated names included. A
    repeated name is not rejected and not merged: the frame has one column
    per header field, the names of the columns are distinct, each is the
    name of its field (Unnamed: i for an empty one) or that name with a
    numbered suffix, and every record has one field per column. *)
Theorem C6_header_names_never_cause_failure :
  forall convert content d lines header data,
    tokenize d content = (lines, None) ->
    end_lines lines 0 0 = Ret (header :: data) ->
    exists df,
      read_csv convert content d = Ret df
      /\ df_columns df = header_names header
      /\ length (df_columns df) = length header
      /\ NoDup (df_columns df)
      /\ (forall i, i < length header ->
            numbered (nth i (name_unnamed 0 header) "") (nth i (df_columns df) ""))
      /\ Forall (fun row => length row = length header) (df_rows df)
      /\ parse_csv_data (read_csv convert) content d
         = Ret (VList (map (fun row => VDict (combine (df_columns df) row))
                           (df_rows df)),
                VNone)
      /\ succeeded (parse_csv_data (read_csv convert) content d) = true.
Proof.
  intros convert content d lines header data Htok Hend.
  destruct (header_names_distinct header) as [Hnd Hnum].
  unfold parse_csv_data, read_csv. rewrite Htok. cbn [fst snd]. rewrite Hend.
  cbn [bind try_except_all].
  eexists. split; [reflexivity |]. cbn [df_columns df_rows].
  split; [reflexivity |]. split; [apply length_header_names |].
  split; [exact Hnd |]. split; [exact Hnum |]. split.
  - eapply Forall_impl; [| apply rows_of_row_length].
    intros row Hrow. cbv beta in Hrow. rewrite Hrow, length_map, length_skipn.
    rewrite length_transpose.
    destruct data as [| r data']; [lia |].
    pose proof (end_lines_first_data_line lines header r data' Hend). lia.
  - split; [| reflexivity].
    rewrite to_dict_records_distinct; [reflexivity | exact Hnd].
Qed.

Lemma C6_witness :
  exists df,
    read_csv infer_column ("a,a" ++ nl ++ "1,2") "," = Ret df
    /\ df_columns df = header_names ["a"; "a"]
    /\ length (df_columns df) = length ["a"; "a"]
    /\ NoDup (df_columns df)
    /\ (forall i, i < length ["a"; "a"] ->
          numbered (nth i (name_unnamed 0 ["a"; "a"]) "") (nth i (df_columns df) ""))
    /\ Forall (fun row => length row = length ["a"; "a"]) (df_rows df)
    /\ parse_csv_data (read_csv infer_column) ("a,a" ++ nl ++ "1,2") ","
       = Ret (VList (map (fun row => VDict (combine (df_columns df) row))
                         (df_rows df)),
              VNone)
    /\ succeeded (parse_csv_data (read_csv infer_column) ("a,a" ++ nl ++ "1,2") ",")
       = true.
Proof.
  apply (C6_header_names_never_cause_failure infer_column ("a,a" ++ nl ++ "1,2") ","
           [(1, ["a"; "a"]); (2, ["1"; "2"])] ["a"; "a"] [["1"; "2"]]);
    reflexivity.
Defined.

(** a header that already has the first candidate: the second a becomes a.2 *)
Example header_names_skips_taken_name :
  header_names ["a"; "a"; "a.1"] = ["a"; "a.2"; "a.1"]
  /\ header_names ["x"; ""; "x"; ""] = ["x"; "Unnamed: 1"; "x.1"; "Unnamed: 3"].
Proof. vm_compute. split; reflexivity. Qed.

(** C6 as the specification words it fails on the header a,a: the text is
    parsed, and the second column is named a.1. *)
Lemma C6_counterexample :
  parse_csv_data (read_csv infer_column) ("a,a" ++ nl ++ "1,2") ","
  = Ret (VList [VDict [("a", VInt 1); ("a.1", VInt 2)]], VNone).
Proof. vm_compute. reflexivity. Qed.

(** The two detection scenarios of the specification, whatever the
    libraries do: the first line has commas, or tabs. *)
Example detect_csv :
  forall json_loads ET_fromstring yaml_safe_load,
    detect_format_from_content json_loads ET_fromstring yaml_safe_load
      ("a,b,c" ++ nl ++ "1,2,3") = Ret "CSV".
Proof. reflexivity. Qed.

Example detect_tsv :
  forall json_loads ET_fromstring yaml_safe_load,
    detect_format_from_content json_loads ET_fromstring yaml_safe_load
      (join (String TAB "") ["a"; "b"; "c"] ++ nl ++ join (String TAB "") ["1"; "2"; "3"])
    = Ret "TSV".
Proof. reflexivity. Qed.

(** ** The fallback over the parsers (converter.py) *)

Lemma try_parsers_first_success before : forall name parser after text d0 e0 log d e,
  Forall (no_data text) before ->
  parser text = Ret (d, e) -> d <> VNone ->
  try_parsers (before ++ (name, parser) :: after) text d0 e0 log
  = Ret (d, e, (log ++ [parsed_as name])%list).
Proof.
  induction before as [| [n p] before IH]; intros name parser after text d0 e0 log d e Hb Hp Hd.
  - simpl. rewrite Hp. simpl.
    apply is_None_false_iff in Hd. rewrite Hd. reflexivity.
  - inversion Hb as [| ? ? [e' He'] Hb']; subst. simpl in He'.
    simpl. rewrite He'. simpl. apply IH; assumption.
Qed.

Lemma try_parsers_all_fail ps : forall last text d0 e0 log e,
  Forall (no_data text) ps ->
  snd last text = Ret (VNone, e) ->
  try_parsers (ps ++ [last]) text d0 e0 log = Ret (VNone, e, log).
Proof.
  induction ps as [| [n p] ps IH]; intros [ln lp] text d0 e0 log e Hb Hl.
  - simpl in *. rewrite Hl. reflexivity.
  - inversion Hb as [| ? ? [e' He'] Hb']; subst. simpl in He'.
    simpl. rewrite He'. simpl. apply IH; assumption.
Qed.

(** C4, as the code has it. When the detector answers Unknown, the parsers
    are tried in the order JSON, CSV, TSV, XML, YAML and the first one that
    returns data ends the loop with its result. When all five return no
    data, the error that is reported is the YAML parser's alone: the loop
    assigns [error] at each turn, so the four earlier errors are lost. *)
Theorem C4_fallback_reports_last_error_only :
  forall json_loads read_csv ET_fromstring yaml_safe_load data_text,
    let ps := parsers json_loads read_csv ET_fromstring yaml_safe_load in
    let run := parse_pasted json_loads read_csv ET_fromstring yaml_safe_load in
    detect_format_from_content json_loads ET_fromstring yaml_safe_load data_text
    = Ret "Unknown" ->
    map fst ps = ["JSON"; "CSV"; "TSV"; "XML"; "YAML"]
    /\ (forall before name parser after d e,
           ps = (before ++ (name, parser) :: after)%list ->
           Forall (no_data data_text) before ->
           parser data_text = Ret (d, e) -> d <> VNone ->
           run data_text
           = Ret (d, e, [unable_to_detect; parsed_as name;
                         st_success "✅ Data parsed successfully!"]))
    /\ (forall ej ec et ex ey,
           parse_json_file json_loads data_text = Ret (VNone, ej) ->
           parse_csv_file read_csv data_text "," = Ret (VNone, ec) ->
           parse_tsv_file read_csv data_text = Ret (VNone, et) ->
           parse_xml_file ET_fromstring data_text = Ret (VNone, ex) ->
           parse_yaml_file yaml_safe_load data_text = Ret (VNone, ey) ->
           run data_text
           = Ret (VNone, ey, [unable_to_detect; st_error ("❌ " ++ str ey)])).
Proof.
  intros jl rc et yl text ps run Hdet. split; [reflexivity | split].
  - intros before name parser after d e Hps Hb Hp Hd.
    unfold run, parse_pasted. rewrite Hdet. cbn [bind]. simpl String.eqb. cbn [negb].
    fold ps. rewrite Hps.
    rewrite (try_parsers_first_success before name parser after text _ _ _ d e Hb Hp Hd).
    cbn [bind]. apply is_None_false_iff in Hd. rewrite Hd. reflexivity.
  - intros ej ec e3 ex ey Hj Hc Ht Hx Hy.
    unfold run, parse_pasted. rewrite Hdet. cbn [bind]. simpl String.eqb. cbn [negb].
    change (parsers jl rc et yl)
      with ([("JSON", parse_json_file jl);
             ("CSV", fun t => parse_csv_file rc t ",");
             ("TSV", parse_tsv_file rc);
             ("XML", parse_xml_file et)] ++ [("YAML", parse_yaml_file yl)])%list.
    rewrite (try_parsers_all_fail _ _ text _ _ _ ey).
    + reflexivity.
    + repeat constructor; eexists; simpl; eassumption.
    + exact Hy.
Qed.

Lemma C4_witness :
  let ps := parsers JsonDecode.loads Sample.read_csv Sample.ET_fromstring
              Sample.yaml_safe_load in
  let run := parse_pasted JsonDecode.loads Sample.read_csv Sample.ET_fromstring
               Sample.yaml_safe_load in
  map fst ps = ["JSON"; "CSV"; "TSV"; "XML"; "YAML"]
  /\ (forall before name parser after d e,
         ps = (before ++ (name, parser) :: after)%list ->
         Forall (no_data Sample.text) before ->
         parser Sample.text = Ret (d, e) -> d <> VNone ->
         run Sample.text
         = Ret (d, e, [unable_to_detect; parsed_as name;
                       st_success "✅ Data parsed successfully!"]))
  /\ (forall ej ec et ex ey,
         parse_json_file JsonDecode.loads Sample.text = Ret (VNone, ej) ->
         parse_csv_file Sample.read_csv Sample.text "," = Ret (VNone, ec) ->
         parse_tsv_file Sample.read_csv Sample.text = Ret (VNone, et) ->
         parse_xml_file Sample.ET_fromstring Sample.text = Ret (VNone, ex) ->
         parse_yaml_file Sample.yaml_safe_load Sample.text = Ret (VNone, ey) ->
         run Sample.text
         = Ret (VNone, ey, [unable_to_detect; st_error ("❌ " ++ str ey)])).
Proof.
  apply (C4_fallback_reports_last_error_only JsonDecode.loads Sample.read_csv
           Sample.ET_fromstring Sample.yaml_safe_load Sample.text).
  vm_compute. reflexivity.
Defined.

(** C4 as the specification words it fails on the sample text: the detector
    answers Unknown, each of the five parsers fails with an error of its own,
    and what is reported is the YAML error alone; nothing of the JSON, CSV,
    TSV or XML errors is in it. *)
Lemma C4_counterexample :
  detect_format_from_content JsonDecode.loads Sample.ET_fromstring
    Sample.yaml_safe_load Sample.text = Ret "Unknown"
  /\ parse_json_file JsonDecode.loads Sample.text
     = Ret (VNone, VStr "Invalid JSON format: Expecting value")
  /\ parse_csv_file Sample.read_csv Sample.text ","
     = Ret (VNone, VStr ("Error parsing CSV: Error tokenizing data. C error: Expected 1 fields in line 3, saw 2" ++ nl))
  /\ parse_tsv_file Sample.read_csv Sample.text
     = Ret (VNone, VStr ("Error parsing CSV: Error tokenizing data. C error: Expected 1 fields in line 3, saw 2" ++ nl))
  /\ parse_xml_file Sample.ET_fromstring Sample.text
     = Ret (VNone, VStr "Invalid XML format: syntax error: line 1, column 0")
  /\ parse_pasted JsonDecode.loads Sample.read_csv Sample.ET_fromstring
       Sample.yaml_safe_load Sample.text
     = Ret (VNone, VStr "Invalid YAML format: while scanning for the next token",
            [unable_to_detect; st_error Sample.shown_error])
  /\ contains "JSON" Sample.shown_error = false
  /\ contains "CSV" Sample.shown_error = false
  /\ contains "XML" Sample.shown_error = false.
Proof. vm_compute. repeat split; reflexivity. Qed.

(** ** The CSV generator *)

(** C2, as the code has it. The conversion succeeds, the header line is a,b
    and the missing field is written empty; but the column b, having a
    missing entry, is a float column of the frame, so its present value is
    written 2.0: the rows are 1,2.0 and 3, (the column a is unchanged). *)
Theorem C2_missing_field_makes_float_column :
  process_data Ref.pd_DataFrame two_records
  = Ret (Some (two_records, two_records_frame),
         [st_markdown ("<div class=" ++ quoted "success-box"
                         ++ ">✅ Data processed and ready for conversion!</div>")])
  /\ generate_csv_output Ref.to_csv two_records_frame
     = Ret ("a,b" ++ nl ++ "1,2.0" ++ nl ++ "3," ++ nl, "text/csv", ".csv").
Proof. split; vm_compute; reflexivity. Qed.

(** C2 as the specification words it fails: the text that is produced is not
    the header with the rows 1,2 and 3, ; its second line is 1,2.0. *)
Lemma C2_counterexample :
  exists text,
    generate_csv_output Ref.to_csv (PandasFrame.from_records
                                      [[("a", VInt 1); ("b", VInt 2)]; [("a", VInt 3)]])
    = Ret (text, "text/csv", ".csv")
    /\ split LF text = ["a,b"; "1,2.0"; "3,"; ""]
    /\ String.eqb text ("a,b" ++ nl ++ "1,2" ++ nl ++ "3," ++ nl) = false.
Proof. eexists. split; [vm_compute; reflexivity | split; vm_compute; reflexivity]. Qed.

(** ** The XML generator *)

Lemma sequence_record_elems records : forall i,
  sequence (map record_elem (enumerate_from i (map VDict records)))
  = Ret (map record_element (enumerate_from i records)).
Proof.
  induction records as [| r records IH]; intros i; simpl; [reflexivity |].
  rewrite IH. reflexivity.
Qed.

Lemma build_tree_records records :
  build_tree (VList (map VDict records))
  = Ret (Element "data" None (map record_element (enumerate_from 0 records))).
Proof. unfold build_tree. rewrite sequence_record_elems. reflexivity. Qed.

Lemma nth_error_enumerate_from {A} (l : list A) : forall i n x,
  nth_error l n = Some x ->
  nth_error (enumerate_from i l) n = Some (i + n, x).
Proof.
  induction l as [| a l IH]; intros i [| n] x H; simpl in *; try discriminate.
  - injection H as ->. rewrite Nat.add_0_r. reflexivity.
  - rewrite (IH (S i) n x H). f_equal. f_equal. lia.
Qed.

(** C7, as the code has it. The tree that is built has the root data, the
    record at index i (from 0) as the child record_(i+1), and one grandchild
    per field, named after the field with spaces turned into underscores,
    whose text is the empty string for None and str(value) otherwise. The
    tree is serialized outside the try: when the serializer raises, so does
    the generator. When it returns, the text that is returned is the
    two-space pretty-printing of the tree when the serialized tree parses;
    when the parse raises, the bare except returns the serialized tree as it
    is, with no indentation. *)
Theorem C7_xml_tree_and_pretty_printing_fallback :
  forall ET_tostring minidom_parseString toprettyxml records,
    let data := VList (map VDict records) in
    let root := Element "data" None (map record_element (enumerate_from 0 records)) in
    let run := generate_xml_output ET_tostring minidom_parseString toprettyxml in
    build_tree data = Ret root
    /\ (forall i record,
           nth_error records i = Some record ->
           nth_error (el_children root) i
           = Some (Element ("record_" ++ str_int (Z.of_nat (i + 1))) None
                           (map field_elem record)))
    /\ (forall key v,
           field_elem (key, v)
           = Element (replace_char " " "_" key)
                     (Some (match v with VNone => "" | _ => str v end)) [])
    /\ (forall rough_string dom pretty,
           ET_tostring root = Ret rough_string ->
           minidom_parseString rough_string = Ret dom ->
           toprettyxml dom "  " = Ret pretty ->
           run data = Ret (pretty, "application/xml", ".xml"))
    /\ (forall rough_string e,
           ET_tostring root = Ret rough_string ->
           minidom_parseString rough_string = Raise e ->
           run data = Ret (rough_string, "application/xml", ".xml"))
    /\ (forall e, ET_tostring root = Raise e -> run data = Raise e).
Proof.
  intros tostring parse pretty_of records data root run.
  split; [apply build_tree_records |].
  split.
  { intros i record H. subst root. cbn [el_children].
    rewrite nth_error_map.
    rewrite (nth_error_enumerate_from records 0 i record H). reflexivity. }
  split.
  { intros key v. destruct v; reflexivity. }
  split.
  { intros rough dom pretty Hs Hp Ht. unfold run, generate_xml_output.
    subst data. rewrite build_tree_records. cbn [bind]. fold root.
    rewrite Hs. cbn [bind]. rewrite Hp. cbn [bind]. rewrite Ht. reflexivity. }
  split.
  - intros rough e Hs Hp. unfold run, generate_xml_output.
    subst data. rewrite build_tree_records. cbn [bind]. fold root.
    rewrite Hs. cbn [bind]. rewrite Hp. reflexivity.
  - intros e Hs. unfold run, generate_xml_output.
    subst data. rewrite build_tree_records. cbn [bind]. fold root.
    rewrite Hs. reflexivity.
Qed.

(** the scenario of the examples: two fields, one name with a space *)
Example generate_xml_output_pretty :
  generate_xml_output Ref.ET_tostring Ref.minidom_parseString Ref.toprettyxml
    (VList [VDict [("first name", VStr "John"); ("age", VInt 30); ("city", VNone)]])
  = Ret (Xml.xml_declaration ++ nl
           ++ "<data>" ++ nl
           ++ "  <record_1>" ++ nl
           ++ "    <first_name>John</first_name>" ++ nl
           ++ "    <age>30</age>" ++ nl
           ++ "    <city/>" ++ nl
           ++ "  </record_1>" ++ nl
           ++ "</data>" ++ nl,
         "application/xml", ".xml").
Proof. vm_compute. reflexivity. Qed.

(** C7 as the specification words it fails on a field whose name is not an
    XML name: the serialized tree does not parse and is returned as it is,
    on one line. *)
Lemma C7_counterexample :
  generate_xml_output Ref.ET_tostring Ref.minidom_parseString Ref.toprettyxml
    (VList [VDict [("1a", VStr "x")]])
  = Ret ("<data><record_1><1a>x</1a></record_1></data>", "application/xml", ".xml")
  /\ contains nl "<data><record_1><1a>x</1a></record_1></data>" = false
  /\ contains "  " "<data><record_1><1a>x</1a></record_1></data>" = false.
Proof. vm_compute. repeat split; reflexivity. Qed.

(** a field name that opens a brace and does not close it: the serializer
    raises, and with it the generator *)
Example generate_xml_output_raises :
  generate_xml_output Ref.ET_tostring Ref.minidom_parseString Ref.toprettyxml
    (VList [VDict [("{abc", VStr "x")]])
  = Raise (Exn OtherError "not enough values to unpack (expected 2, got 1)").
Proof. vm_compute. reflexivity. Qed.

(** ** The YAML generator *)

(** *** The characters of a text *)















(** *** The scalars *)












(** *** The layout *)

















(** the scenario of the specification, with a value of two words and a
    value that is not ASCII: both are written plain *)
Example yaml_text_unicode :
  yaml_text [[("ville", VStr "Orléans"); ("age", VInt 30); ("city", VStr "New York")]]
  = "- age: 30" ++ nl ++ "  city: New York" ++ nl ++ "  ville: Orléans" ++ nl.
Proof. vm_compute. reflexivity. Qed.

(** What is not kept: a control character of the C1 block (here U+0080) is
    escaped, and so is a character beyond U+FFFF (here U+1F600) in a string
    that must be double-quoted (here for its tab). *)
Example yaml_text_escapes :
  yaml_text [[("k", VStr (String (chr 194) (String (chr 128) "")))]]
  = "- k: " ++ quoted (String BACKSLASH "x80") ++ nl
  /\ yaml_text [[("k", VStr ("😀" ++ String TAB ""))]]
     = "- k: " ++ quoted (String BACKSLASH "U0001F600" ++ String BACKSLASH "t") ++ nl.
Proof. vm_compute. split; reflexivity. Qed.



(** ** The JSON round trip *)

Lemma scanstring_escape_char c rest :
  scanstring (escape_char c ++ rest) = cons_char c (scanstring rest).
Proof.
  destruct c as [[] [] [] [] [] [] [] []]; reflexivity.
Qed.

Lemma scanstring_escape s : forall rest,
  scanstring (escape s ++ String DQUOTE rest) = Ret (s, rest).
Proof.
  induction s as [| c s IH]; intros rest.
  - reflexivity.
  - cbn [escape]. rewrite str_app_assoc, scanstring_escape_char, IH. reflexivity.
Qed.

(** *** Integers *)

Lemma scan_digits_string_of_uint d : forall rest,
  not_digit_start rest ->
  scan_digits (NilEmpty.string_of_uint d ++ rest) = (d, rest).
Proof.
  induction d; intros rest Hr; cbn [NilEmpty.string_of_uint append];
    try (cbn [scan_digits digit_of]; rewrite (IHd rest Hr); reflexivity).
  destruct rest as [| c r]; [reflexivity |].
  unfold not_digit_start, first_is, is_digit in Hr. cbn [scan_digits].
  destruct (digit_of c); [discriminate | reflexivity].
Qed.

Lemma nzhead_not_D0 d d' : Decimal.nzhead d <> Decimal.D0 d'.
Proof. induction d; simpl; try discriminate; assumption. Qed.

Lemma unorm_fixed_head d d' : Decimal.unorm d = d -> d = Decimal.D0 d' -> d' = Decimal.Nil.
Proof.
  intros Hu ->. unfold Decimal.unorm in Hu. simpl in Hu.
  destruct (Decimal.nzhead d') eqn:E; try (exfalso; eapply nzhead_not_D0; eassumption);
    try discriminate.
  injection Hu as <-. reflexivity.
Qed.

Lemma pos_to_uint_normal p : Decimal.unorm (Pos.to_uint p) = Pos.to_uint p.
Proof.
  rewrite <- (DecimalPos.Unsigned.to_of (Pos.to_uint p)).
  rewrite DecimalPos.Unsigned.of_to. reflexivity.
Qed.

(** the digits of a number: a single 0, or a non-zero digit first *)
Lemma match_uint_string_of_uint d rest :
  Decimal.unorm d = d ->
  not_digit_start rest ->
  match_uint (NilZero.string_of_uint d ++ rest) = Some (d, rest).
Proof.
  intros Hn Hr. destruct d;
    try (unfold NilZero.string_of_uint; cbn [NilEmpty.string_of_uint append match_uint digit_of];
         cbn [Ascii.eqb Bool.eqb]; rewrite (scan_digits_string_of_uint _ rest Hr);
         reflexivity).
  - discriminate.
  - rewrite (unorm_fixed_head _ d Hn eq_refl). reflexivity.
Qed.

Lemma match_integer_str_int z rest :
  not_digit_start rest ->
  match_integer (str_int z ++ rest) = Some (Z.to_int z, rest).
Proof.
  intros Hr. unfold str_int.
  destruct z as [| p | p]; cbn [Z.to_int NilZero.string_of_int].
  - reflexivity.
  - unfold match_integer.
    assert (Hs : starts "-" (NilZero.string_of_uint (Pos.to_uint p) ++ rest) = None).
    { destruct (Pos.to_uint p); reflexivity. }
    rewrite Hs, (match_uint_string_of_uint _ rest (pos_to_uint_normal p) Hr).
    reflexivity.
  - unfold match_integer. cbn [append starts]. cbn [Ascii.eqb Bool.eqb].
    rewrite (match_uint_string_of_uint _ rest (pos_to_uint_normal p) Hr).
    reflexivity.
Qed.

(** *** Scalars *)

Lemma delim_not_digit rest : delim_start rest -> not_digit_start rest.
Proof. intros [r [-> | ->]]; reflexivity. Qed.

Lemma delim_no_frac_exp rest :
  delim_start rest -> match_frac rest = None /\ match_exp rest = None.
Proof. intros [r [-> | ->]]; split; reflexivity. Qed.

Lemma scan_once_number f s i r1 :
  number_start s ->
  match_integer s = Some (i, r1) ->
  scan_once (S f) s = parse_number i r1.
Proof.
  intros [c [r [-> Hc]]] Hm. cbn [scan_once]. rewrite Hm.
  destruct c as [[] [] [] [] [] [] [] []];
    destruct Hc as [Hc | Hc]; try discriminate Hc; reflexivity.
Qed.

Lemma parse_number_integer i rest :
  delim_start rest -> parse_number i rest = Ret (VInt (Z.of_int i), rest).
Proof.
  intros Hr. destruct (delim_no_frac_exp rest Hr) as [Hf He].
  unfold parse_number. rewrite Hf, He. reflexivity.
Qed.

Lemma nb_digits_pos p : 1 <= Decimal.nb_digits (Pos.to_uint p).
Proof.
  pose proof (DecimalPos.Unsigned.to_uint_nonnil p) as H.
  destruct (Pos.to_uint p); simpl; try lia. congruence.
Qed.

(** the numeral of a whole float: its integer, a dot and a zero *)
Lemma parse_float_whole z :
  (Z.abs z <= 2 ^ 53)%Z ->
  parse_float (Z.to_int z) (Some (Decimal.D0 Decimal.Nil)) None = Ret (Fwhole z).
Proof.
  intros Hz. unfold parse_float. cbv zeta. rewrite DecimalZ.of_to.
  change (Z.of_nat (Decimal.nb_digits (Decimal.D0 Decimal.Nil))) with 1%Z.
  change (Z.of_uint (Decimal.D0 Decimal.Nil)) with 0%Z.
  change (0 - 1)%Z with (-1)%Z. change (- -1)%Z with 1%Z.
  change (10 ^ 1)%Z with 10%Z. rewrite Z.add_0_r.
  change (Z.leb 0 (-1)) with false. cbv iota.
  destruct (Z.eqb_spec (Z.abs z * 10) 0) as [E | E].
  - assert (z = 0%Z) by lia. subst z. reflexivity.
  - assert (Hd : Z.ltb (Z.of_nat (Decimal.nb_digits
                                    (N.to_uint (Z.to_N (Z.abs z * 10))))) 1
                 = false).
    { apply Z.ltb_ge. destruct (Z.abs z * 10)%Z as [| p | p] eqn:Em; try lia.
      cbn [Z.to_N N.to_uint]. pose proof (nb_digits_pos p). lia. }
    rewrite Hd, Z.mod_mul by lia. rewrite Z.eqb_refl, Z.div_mul by lia.
    assert (E0 : Z.eqb (Z.abs z) 0 = false) by (apply Z.eqb_neq; lia).
    rewrite E0. cbn [andb].
    assert (El : Z.leb (Z.abs z) (2 ^ 53) = true) by (apply Z.leb_le; exact Hz).
    rewrite El. f_equal. f_equal.
    destruct z as [| q | q]; reflexivity.
Qed.

Lemma parse_number_whole_float z rest :
  (Z.abs z <= 2 ^ 53)%Z ->
  delim_start rest ->
  parse_number (Z.to_int z) (".0" ++ rest) = Ret (VFloat (Fwhole z), rest).
Proof.
  intros Hz Hr. destruct (delim_no_frac_exp rest Hr) as [_ He].
  unfold parse_number.
  assert (Hf : match_frac (".0" ++ rest) = Some (Decimal.D0 Decimal.Nil, rest)).
  { destruct Hr as [r [-> | ->]]; reflexivity. }
  rewrite Hf. cbn [snd fst option_map]. rewrite He.
  cbn [option_map]. rewrite (parse_float_whole z Hz). reflexivity.
Qed.

Lemma repr_float_whole z :
  (Z.abs z <= 2 ^ 53)%Z -> repr_float (Fwhole z) = str_int z ++ ".0".
Proof.
  intros Hz. unfold repr_float.
  assert (E : Z.ltb (Z.abs z) (10 ^ 16) = true).
  { apply Z.ltb_lt. change (2 ^ 53)%Z with 9007199254740992%Z in Hz.
    change (10 ^ 16)%Z with 10000000000000000%Z. lia. }
  rewrite E. reflexivity.
Qed.

Lemma str_int_number_start z rest : number_start (str_int z ++ rest).
Proof.
  unfold str_int, number_start.
  destruct z as [| p | p]; cbn [Z.to_int NilZero.string_of_int].
  - exists "0"%char, rest. split; [reflexivity | right; reflexivity].
  - destruct (Pos.to_uint p); cbn; eexists _, _; (split; [reflexivity | right; reflexivity]).
  - eexists _, _. split; [reflexivity | left; reflexivity].
Qed.

Lemma scan_once_scalar v : forall level fuel rest,
  json_scalar v = true ->
  delim_start rest ->
  0 < fuel ->
  scan_once fuel (iterencode level v ++ rest) = Ret (v, rest).
Proof.
  intros level fuel rest Hv Hr Hfuel. destruct fuel as [| f]; [lia |].
  destruct v as [| [] | z | [| z] | s | |]; try discriminate.
  - reflexivity.
  - reflexivity.
  - reflexivity.
  - cbn [iterencode].
    rewrite (scan_once_number f _ (Z.to_int z) rest
               (str_int_number_start z rest)
               (match_integer_str_int z rest (delim_not_digit _ Hr))).
    rewrite (parse_number_integer _ _ Hr), DecimalZ.of_to. reflexivity.
  - reflexivity.
  - cbn [json_scalar] in Hv. apply Z.leb_le in Hv.
    cbn [iterencode floatstr]. rewrite (repr_float_whole z Hv), str_app_assoc.
    rewrite (scan_once_number f _ (Z.to_int z) (".0" ++ rest)
               (str_int_number_start z _)
               (match_integer_str_int z (".0" ++ rest) eq_refl)).
    apply parse_number_whole_float; [exact Hv | exact Hr].
  - cbn [iterencode]. unfold encode_basestring. cbn [append scan_once].
    rewrite str_app_assoc. cbn [append].
    change (Ascii.eqb DQUOTE DQUOTE) with true. cbv iota.
    rewrite scanstring_escape. reflexivity.
Qed.

(** *** Whitespace *)

Lemma skip_ws_nonws s : starts_nonws s -> skip_ws s = s.
Proof. destruct s as [| c r]; simpl; intros H; [reflexivity | rewrite H; reflexivity]. Qed.

Lemma skip_ws_indent k s : starts_nonws s -> skip_ws (str_repeat "  " k ++ s) = s.
Proof.
  intros H. induction k as [| k IH]; simpl; [apply skip_ws_nonws; exact H | exact IH].
Qed.

Lemma skip_ws_newline_indent k s :
  starts_nonws s -> skip_ws (newline_indent k ++ s) = s.
Proof.
  intros H. unfold newline_indent, nl. rewrite str_app_assoc. cbn [append skip_ws].
  change (is_ws LF) with true. cbv iota. apply skip_ws_indent. exact H.
Qed.

Lemma newline_indent_delim k s : delim_start (newline_indent k ++ s).
Proof. eexists. right. unfold newline_indent, nl. rewrite str_app_assoc. reflexivity. Qed.

Lemma scalar_starts_nonws v level rest :
  json_scalar v = true -> starts_nonws (iterencode level v ++ rest).
Proof.
  intros Hv. destruct v as [| [] | z | [| z] | s | |]; try discriminate;
    try reflexivity.
  - cbn [iterencode].
    destruct (str_int_number_start z rest) as [c [r [-> Hc]]]. simpl.
    destruct c as [[] [] [] [] [] [] [] []];
      destruct Hc as [Hc | Hc]; try discriminate Hc; reflexivity.
  - cbn [json_scalar] in Hv. apply Z.leb_le in Hv.
    cbn [iterencode floatstr]. rewrite (repr_float_whole z Hv), str_app_assoc.
    destruct (str_int_number_start z (".0" ++ rest)) as [c [r [-> Hc]]]. simpl.
    destruct c as [[] [] [] [] [] [] [] []];
      destruct Hc as [Hc | Hc]; try discriminate Hc; reflexivity.
Qed.

(** *** Objects *)

(** appends to the right, literal prefixes unfolded *)
Ltac norm_app := repeat progress (rewrite ?str_app_assoc; cbn [append]).

Lemma join_cons sep x y (l : list string) :
  join sep (x :: y :: l) = x ++ sep ++ join sep (y :: l).
Proof. reflexivity. Qed.

Lemma join_members level kv more tail :
  join ("," ++ newline_indent (S level)) (map (enc_field level) (kv :: more)) ++ tail
  = String DQUOTE (members_text level (kv :: more) tail).
Proof.
  revert kv. induction more as [| kv' more IH]; intros kv.
  - cbn [map join members_text]. unfold enc_field, encode_basestring.
    norm_app. reflexivity.
  - cbn [map]. rewrite join_cons, !str_app_assoc.
    change (enc_field level kv' :: map (enc_field level) more)
      with (map (enc_field level) (kv' :: more)).
    rewrite (IH kv'). cbn [members_text]. unfold enc_field at 1, encode_basestring.
    norm_app. reflexivity.
Qed.

Lemma members_text_cons level kv more tail :
  members_text level (kv :: more) tail
  = escape (fst kv)
      ++ String DQUOTE
           (": " ++ iterencode (S level) (snd kv)
              ++ match more with
                 | [] => tail
                 | _ => "," ++ newline_indent (S level)
                            ++ String DQUOTE (members_text level more tail)
                 end).
Proof. reflexivity. Qed.

Lemma object_members_text level fields : forall fuel rest,
  fields <> [] ->
  scalar_fields fields ->
  length fields < fuel ->
  object_members fuel
    (members_text level fields (newline_indent level ++ String "}" rest))
  = Ret (fields, rest).
Proof.
  induction fields as [| [k v] more IH]; intros fuel rest Hne Hs Hf; [congruence |].
  inversion Hs as [| ? ? Hv Hmore]; subst. simpl in Hv.
  destruct fuel as [| f]; simpl in Hf; [lia |].
  rewrite members_text_cons. cbn [fst snd object_members].
  rewrite scanstring_escape. cbn [bind fst snd append skip_ws].
  change (is_ws ":") with false. cbv iota. cbn [starts].
  change (Ascii.eqb ":" ":") with true. cbv iota. cbn [skip_ws].
  change (is_ws " ") with true. cbv iota.
  destruct more as [| kv' more'].
  - rewrite (skip_ws_nonws _ (scalar_starts_nonws v (S level) _ Hv)).
    rewrite (scan_once_scalar v (S level) f _ Hv (newline_indent_delim level _));
      [| lia].
    cbn [bind fst snd]. rewrite (skip_ws_newline_indent level (String "}" rest) eq_refl).
    reflexivity.
  - rewrite (skip_ws_nonws _ (scalar_starts_nonws v (S level) _ Hv)).
    rewrite (scan_once_scalar v (S level) f _ Hv); [| | cbn [length] in Hf; lia].
    2:{ eexists. left. cbn [append]. reflexivity. }
    cbn [bind fst snd append skip_ws].
    change (is_ws ",") with false. cbv iota.
    change (Ascii.eqb "," "}") with false. change (Ascii.eqb "," ",") with true.
    cbv iota.
    rewrite (skip_ws_newline_indent (S level) (String DQUOTE _) eq_refl).
    cbn [starts]. change (Ascii.eqb DQUOTE DQUOTE) with true. cbv iota.
    rewrite (IH f rest); [reflexivity | congruence | exact Hmore |].
    cbn [length] in *. lia.
Qed.

Lemma scan_once_record r : forall level fuel rest,
  json_flat_record r ->
  S (length r) < fuel ->
  scan_once fuel (iterencode level (VDict r) ++ rest) = Ret (VDict r, rest).
Proof.
  intros level fuel rest [Hs Hn] Hf.
  destruct fuel as [| f]; [lia |].
  destruct r as [| kv more]; [reflexivity |].
  cbn [iterencode].
  change (map (fun kv0 => encode_basestring (fst kv0) ++ ": " ++ iterencode (S level) (snd kv0)))
    with (map (enc_field level)).
  rewrite !str_app_assoc, join_members. cbn [append scan_once].
  change (Ascii.eqb "{" DQUOTE) with false. change (Ascii.eqb "{" "{") with true.
  cbv iota.
  rewrite (skip_ws_newline_indent (S level) (String DQUOTE _) eq_refl).
  change (Ascii.eqb DQUOTE "}") with false. change (Ascii.eqb DQUOTE DQUOTE) with true.
  cbv iota.
  rewrite (object_members_text level (kv :: more) f rest); [| congruence | exact Hs | lia].
  cbn [bind fst snd]. rewrite (dict_of_pairs_nodup _ Hn). reflexivity.
Qed.

(** *** Arrays of records *)

Lemma enc_record_starts_nonws level r rest : starts_nonws (enc_record level r ++ rest).
Proof. destruct r; reflexivity. Qed.

Lemma items_text_starts_nonws level r more rest :
  starts_nonws (items_text level (r :: more) ++ rest).
Proof.
  unfold items_text. destruct more as [| r' more].
  - apply enc_record_starts_nonws.
  - cbn [map]. rewrite join_cons, str_app_assoc. apply enc_record_starts_nonws.
Qed.

Lemma array_items_records level records : forall fuel rest,
  records <> [] ->
  Forall json_flat_record records ->
  weight records < fuel ->
  array_items fuel (items_text level records ++ newline_indent level ++ String "]" rest)
  = Ret (map VDict records, rest).
Proof.
  induction records as [| r more IH]; intros fuel rest Hne Hall Hf; [congruence |].
  inversion Hall as [| ? ? Hr Hmore]; subst.
  unfold weight in Hf. cbn [map list_sum fold_right] in Hf.
  destruct fuel as [| f]; [lia |].
  destruct more as [| r' more'].
  - unfold items_text. cbn [map join array_items]. unfold enc_record.
    rewrite (scan_once_record r (S level) f _ Hr); [| cbn [map list_sum fold_right] in Hf; lia].
    cbn [bind fst snd].
    rewrite (skip_ws_newline_indent level (String "]" rest) eq_refl).
    reflexivity.
  - unfold items_text. cbn [map]. rewrite join_cons, !str_app_assoc.
    cbn [array_items]. unfold enc_record at 1.
    rewrite (scan_once_record r (S level) f _ Hr);
      [| cbn [map list_sum fold_right] in Hf; lia].
    cbn [bind fst snd append skip_ws].
    change (is_ws ",") with false. cbv iota.
    change (Ascii.eqb "," "]") with false. change (Ascii.eqb "," ",") with true.
    cbv iota.
    change (enc_record level r' :: map (enc_record level) more')
      with (map (enc_record level) (r' :: more')).
    fold (items_text level (r' :: more')).
    rewrite (skip_ws_newline_indent (S level) _
               (items_text_starts_nonws level r' more' _)).
    rewrite (IH f rest); [reflexivity | congruence | exact Hmore |].
    unfold weight. cbn [map list_sum fold_right] in *. lia.
Qed.

Lemma scan_once_records records : forall fuel rest,
  Forall json_flat_record records ->
  S (weight records) < fuel ->
  scan_once fuel (iterencode 0 (VList (map VDict records)) ++ rest)
  = Ret (VList (map VDict records), rest).
Proof.
  intros fuel rest Hall Hf. destruct fuel as [| f]; [lia |].
  destruct records as [| r more]; [reflexivity |].
  cbn [map iterencode].
  change (iterencode 1 (VDict r) :: map (iterencode 1) (map VDict more))
    with (map (iterencode 1) (map VDict (r :: more))).
  rewrite map_map.
  change (map (fun x => iterencode 1 (VDict x)) (r :: more))
    with (map (enc_record 0) (r :: more)).
  fold (items_text 0 (r :: more)).
  rewrite !str_app_assoc. cbn [append scan_once].
  change (Ascii.eqb "[" DQUOTE) with false. change (Ascii.eqb "[" "{") with false.
  change (Ascii.eqb "[" "[") with true. cbv iota.
  rewrite (skip_ws_newline_indent 1 _ (items_text_starts_nonws 0 r more _)).
  assert (Hst : starts "]" (items_text 0 (r :: more) ++ newline_indent 0 ++ String "]" rest)
                = None).
  { pose proof (items_text_starts_nonws 0 r more (newline_indent 0 ++ String "]" rest)) as H.
    unfold items_text in *. destruct more as [| r' more']; destruct r; reflexivity. }
  rewrite Hst.
  rewrite (array_items_records 0 (r :: more) f rest); [reflexivity | congruence | exact Hall | lia].
Qed.

(** *** The fuel of [loads] is enough *)

Lemma list_sum_cons a l : list_sum (a :: l) = a + list_sum l.
Proof. reflexivity. Qed.

Lemma join_length sep (l : list string) :
  list_sum (map String.length l) <= String.length (join sep l).
Proof.
  induction l as [| x l IH]; [simpl; lia |].
  destruct l as [| y l'].
  - simpl. lia.
  - rewrite join_cons, !str_length_app.
    cbn [map] in *. rewrite list_sum_cons. lia.
Qed.

Lemma list_sum_le {A} (f g : A -> nat) (l : list A) :
  (forall x, f x <= g x) -> list_sum (map f l) <= list_sum (map g l).
Proof.
  intros H. induction l as [| x l IH]; [simpl; lia |].
  cbn [map]. rewrite !list_sum_cons. specialize (H x). lia.
Qed.

Lemma list_sum_ones {A} (l : list A) : list_sum (map (fun _ => 1) l) = length l.
Proof.
  induction l as [| x l IH]; [reflexivity |].
  cbn [map length]. rewrite list_sum_cons, IH. reflexivity.
Qed.

Lemma enc_record_length level r : S (length r) <= String.length (enc_record level r).
Proof.
  unfold enc_record. destruct r as [| kv more]; [simpl; lia |].
  cbn [iterencode]. rewrite !str_length_app.
  pose proof (join_length ("," ++ newline_indent (S (S level)))
                (map (fun kv0 => encode_basestring (fst kv0) ++ ": "
                                   ++ iterencode (S (S level)) (snd kv0))
                     (kv :: more))) as Hj.
  rewrite map_map in Hj.
  pose proof (list_sum_le (fun _ : string * value => 1)
                (fun kv0 => String.length
                              (encode_basestring (fst kv0) ++ ": "
                                 ++ iterencode (S (S level)) (snd kv0)))
                (kv :: more)) as Hl.
  rewrite list_sum_ones in Hl. cbn [String.length] in *.
  assert (length (kv :: more)
          <= list_sum (map (fun kv0 => String.length
                                         (encode_basestring (fst kv0) ++ ": "
                                            ++ iterencode (S (S level)) (snd kv0)))
                           (kv :: more))).
  { apply Hl. intros x. unfold encode_basestring. cbn [append String.length]. lia. }
  lia.
Qed.

Lemma iterencode_list level v l :
  iterencode level (VList (v :: l))
  = "[" ++ newline_indent (S level)
        ++ join ("," ++ newline_indent (S level)) (map (iterencode (S level)) (v :: l))
        ++ newline_indent level ++ "]".
Proof. reflexivity. Qed.

Lemma dumps_length records :
  list_sum (map (fun r => S (length r)) records)
  <= String.length (dumps (VList (map VDict records))).
Proof.
  unfold dumps. destruct records as [| r more]; [simpl; lia |].
  change (map VDict (r :: more)) with (VDict r :: map VDict more).
  rewrite iterencode_list.
  change (VDict r :: map VDict more) with (map VDict (r :: more)).
  rewrite map_map, !str_length_app.
  pose proof (join_length ("," ++ newline_indent 1)
                (map (fun x => iterencode 1 (VDict x)) (r :: more))) as Hj.
  rewrite map_map in Hj.
  pose proof (list_sum_le (fun r0 : list (string * value) => S (length r0))
                (fun x => String.length (iterencode 1 (VDict x))) (r :: more)
                (enc_record_length 0)) as Hl.
  lia.
Qed.

Lemma dumps_length_brackets records :
  2 <= String.length (dumps (VList (map VDict records))).
Proof.
  unfold dumps. destruct records as [| r more]; [simpl; lia |].
  change (map VDict (r :: more)) with (VDict r :: map VDict more).
  rewrite iterencode_list, !str_length_app. simpl String.length. lia.
Qed.

Lemma loads_dumps_records records :
  Forall json_flat_record records ->
  loads (dumps (VList (map VDict records))) = Ret (VList (map VDict records)).
Proof.
  intros Hall. unfold loads, decode.
  pose proof (dumps_length records) as Hlen.
  pose proof (dumps_length_brackets records) as Hlen2.
  set (text := dumps (VList (map VDict records))) in *.
  assert (Hskip : skip_ws text = text).
  { apply skip_ws_nonws. subst text. unfold dumps.
    destruct records as [| r more]; reflexivity. }
  rewrite Hskip. rewrite <- (str_app_nil_r text) at 2. subst text. unfold dumps in *.
  rewrite (scan_once_records records _ "" Hall).
  - reflexivity.
  - unfold weight. lia.
Qed.

(** *** Equality of the fields *)









(** the text of the float records *)
Example float_records_text :
  generate_json_output Ref.json_dumps (VList (map VDict float_records))
  = Ret ("[" ++ nl ++ "  {" ++ nl
           ++ "    " ++ quoted "a" ++ ": 1," ++ nl
           ++ "    " ++ quoted "b" ++ ": 2.0" ++ nl
           ++ "  }," ++ nl ++ "  {" ++ nl
           ++ "    " ++ quoted "a" ++ ": 3," ++ nl
           ++ "    " ++ quoted "b" ++ ": NaN" ++ nl
           ++ "  }" ++ nl ++ "]",
         "application/json", ".json").
Proof. vm_compute. reflexivity. Qed.


(** * Further properties of the scripts *)

(** ** What the parsers return *)

Lemma to_dict_records_objects df : is_array_of_objects (to_dict_records df) = true.
Proof.
  unfold to_dict_records. simpl. induction (df_rows df) as [| row rows IH]; simpl; auto.
Qed.

(** X1. The CSV and TSV parsers never raise, whatever [read_csv] does: they
    return the records of the frame (a list of dicts) and no error, or no
    data and the message of the exception after the words Error parsing CSV,
    for a TSV text too. *)
Theorem csv_parsers_never_raise :
  forall read_csv content d,
    (forall df, read_csv content d = Ret df ->
       parse_csv_data read_csv content d = Ret (to_dict_records df, VNone)
       /\ parse_csv_file read_csv content d = Ret (to_dict_records df, VNone)
       /\ is_array_of_objects (to_dict_records df) = true)
    /\ (forall e, read_csv content d = Raise e ->
          parse_csv_data read_csv content d
          = Ret (VNone, VStr ("Error parsing CSV: " ++ exn_msg e))
          /\ parse_csv_file read_csv content d
             = Ret (VNone, VStr ("Error parsing CSV: " ++ exn_msg e)))
    /\ (forall e, read_csv content TAB = Raise e ->
          parse_tsv_data read_csv content
          = Ret (VNone, VStr ("Error parsing CSV: " ++ exn_msg e))
          /\ parse_tsv_file read_csv content
             = Ret (VNone, VStr ("Error parsing CSV: " ++ exn_msg e)))
    /\ (exists r, parse_csv_data read_csv content d = Ret r /\ one_of_data_error r).
Proof.
  intros rc content d. split; [| split; [| split]].
  - intros df H. unfold parse_csv_data, parse_csv_file. rewrite H.
    repeat split; try reflexivity. apply to_dict_records_objects.
  - intros e H. unfold parse_csv_data, parse_csv_file. rewrite H. split; reflexivity.
  - intros e H. unfold parse_tsv_data, parse_tsv_file, parse_csv_data, parse_csv_file.
    rewrite H. split; reflexivity.
  - unfold parse_csv_data. destruct (rc content d) as [df | e]; simpl.
    + eexists. split; [reflexivity |]. left. split; reflexivity.
    + eexists. split; [reflexivity |]. right. split; [reflexivity | eexists; reflexivity].
Qed.

(** X2. Whatever [yaml.safe_load] returns, a result of the YAML parser has
    exactly one of data and error, and its data is always a list: a list is
    passed on as it is (its elements are not looked at), a mapping is
    wrapped into a one-element list, anything else is an error. *)
Theorem yaml_parser_returns_list_or_error :
  forall yaml_safe_load content r,
    parse_yaml_data yaml_safe_load content = Ret r ->
    one_of_data_error r
    /\ (forall l, yaml_safe_load content = Ret (VList l) -> r = (VList l, VNone))
    /\ (forall m, yaml_safe_load content = Ret (VDict m) -> r = (VList [VDict m], VNone))
    /\ (forall v, yaml_safe_load content = Ret v -> is_list v = false ->
                  is_dict v = false ->
                  r = (VNone, VStr "YAML must contain a list of objects or a single object")).
Proof.
  intros yl content r H. unfold parse_yaml_data in H.
  destruct (yl content) as [v | [cls msg]] eqn:E; simpl in H.
  - destruct v; simpl in H; injection H as <-;
      (split; [first [left; split; reflexivity
                     | right; split; [reflexivity | eexists; reflexivity]] |]);
      repeat split; intros;
      repeat match goal with
             | Hv : Ret _ = Ret _ |- _ => injection Hv as Hv; subst
             end;
      simpl in *; try discriminate; reflexivity.
  - destruct cls; simpl in H; try discriminate. injection H as <-.
    split; [right; split; [reflexivity | eexists; reflexivity] |].
    repeat split; intros; discriminate.
Qed.

(** on a sequence of mappings, on a mapping and on a scalar *)
Lemma yaml_parser_returns_list_or_error_witness :
  (exists r,
      parse_yaml_data yaml_answers ("- a: 1" ++ nl ++ "- a: 2") = Ret r
      /\ one_of_data_error r
      /\ r = (VList [VDict [("a", VInt 1)]; VDict [("a", VInt 2)]], VNone))
  /\ (exists r,
        parse_yaml_data yaml_answers "a: 1" = Ret r
        /\ one_of_data_error r
        /\ r = (VList [VDict [("a", VInt 1)]], VNone))
  /\ (exists r,
        parse_yaml_data yaml_answers "hello" = Ret r
        /\ one_of_data_error r
        /\ r = (VNone, VStr "YAML must contain a list of objects or a single object"))
  /\ (exists r,
        parse_yaml_data yaml_answers "a: b: c" = Ret r
        /\ one_of_data_error r).
Proof.
  split; [| split; [| split]].
  - exists (VList [VDict [("a", VInt 1)]; VDict [("a", VInt 2)]], VNone).
    split; [reflexivity |].
    pose proof (yaml_parser_returns_list_or_error yaml_answers
                  ("- a: 1" ++ nl ++ "- a: 2") _ eq_refl) as [H1 [H2 _]].
    split; [exact H1 | exact (H2 _ eq_refl)].
  - exists (VList [VDict [("a", VInt 1)]], VNone).
    split; [reflexivity |].
    pose proof (yaml_parser_returns_list_or_error yaml_answers "a: 1" _ eq_refl)
      as [H1 [_ [H2 _]]].
    split; [exact H1 | exact (H2 _ eq_refl)].
  - exists (VNone, VStr "YAML must contain a list of objects or a single object").
    split; [reflexivity |].
    pose proof (yaml_parser_returns_list_or_error yaml_answers "hello" _ eq_refl)
      as [H1 [_ [_ H2]]].
    split; [exact H1 | exact (H2 _ eq_refl eq_refl eq_refl)].
  - exists (VNone, VStr "Invalid YAML format: mapping values are not allowed here").
    split; [reflexivity |].
    exact (proj1 (yaml_parser_returns_list_or_error yaml_answers "a: b: c" _ eq_refl)).
Defined.

Lemma xml_records_shape root :
  exists l,
    xml_records root = VList l
    /\ length l = Nat.max 1 (length (el_children root))
    /\ forallb is_dict l = true.
Proof.
  unfold xml_records. destruct (el_children root) as [| c cs] eqn:E.
  - eexists. repeat split.
  - eexists. split; [reflexivity |]. split.
    + rewrite length_map. simpl. reflexivity.
    + rewrite forallb_forall. intros x Hx. apply in_map_iff in Hx.
      destruct Hx as [child [<- _]]. destruct (el_children child); reflexivity.
Qed.

(** X3. The XML parser of converter.py never raises, and whenever the
    document parses its data passes the validation: it is a non-empty list
    of dicts, one per child of the root, and exactly one (empty) record when
    the root has no child. *)
Theorem xml_parser_data_always_valid :
  forall ET_fromstring content,
    (forall root, ET_fromstring content = Ret root ->
       parse_xml_file ET_fromstring content = Ret (xml_records root, VNone)
       /\ validate_data (xml_records root) = (true, "Data is valid")
       /\ is_record_list (xml_records root) = true
       /\ exists l, xml_records root = VList l
                    /\ length l = Nat.max 1 (length (el_children root))
                    /\ forallb is_dict l = true)
    /\ (forall e, ET_fromstring content = Raise e ->
          exists msg, parse_xml_file ET_fromstring content = Ret (VNone, VStr msg)).
Proof.
  intros et content. split.
  - intros root H. unfold parse_xml_file. rewrite H. split; [reflexivity |].
    destruct (xml_records_shape root) as [l [Hl [Hlen Hd]]].
    assert (Hv : exists d rest, l = VDict d :: rest).
    { destruct l as [| v rest]; [cbn [length] in Hlen; lia |].
      simpl in Hd. destruct v; try discriminate. eexists _, _. reflexivity. }
    destruct Hv as [d [rest ->]]. rewrite Hl.
    repeat split. exists (VDict d :: rest). repeat split; assumption.
  - intros [cls msg] H. unfold parse_xml_file. rewrite H.
    destruct cls; simpl; eexists; reflexivity.
Qed.

Lemma dict_get_dict_set d k v k' :
  PandasFrame.dict_get (dict_set d k v) k'
  = if String.eqb k k' then Some v else PandasFrame.dict_get d k'.
Proof.
  unfold PandasFrame.dict_get.
  induction d as [| [k0 v0] d IH]; simpl.
  - destruct (String.eqb k k'); reflexivity.
  - destruct (String.eqb_spec k0 k) as [-> | Hne]; simpl.
    + destruct (String.eqb k k'); reflexivity.
    + destruct (String.eqb_spec k0 k') as [-> | Hne'].
      * destruct (String.eqb_spec k k') as [-> | _]; [congruence | reflexivity].
      * exact IH.
Qed.

Lemma find_app_one {A} (f : A -> bool) l x :
  find f (l ++ [x])
  = match find f l with
    | Some y => Some y
    | None => if f x then Some x else None
    end.
Proof. induction l as [| a l IH]; simpl; [reflexivity |]. destruct (f a); auto. Qed.

Lemma fold_children_lookup children : forall acc t,
  PandasFrame.dict_get
    (fold_left (fun record sub => dict_set record (el_tag sub) (text_or_empty sub))
               children acc) t
  = match find (fun c => String.eqb (el_tag c) t) (rev children) with
    | Some c => Some (text_or_empty c)
    | None => PandasFrame.dict_get acc t
    end.
Proof.
  induction children as [| c cs IH]; intros acc t; simpl; [reflexivity |].
  rewrite IH, find_app_one, dict_get_dict_set.
  destruct (find (fun c0 => String.eqb (el_tag c0) t) (rev cs)); [reflexivity |].
  destruct (String.eqb (el_tag c) t); reflexivity.
Qed.

(** X4. In a record read from XML, the value of a field is the text of the
    last child element with that tag: an earlier child with the same tag is
    overwritten. Every value is a string, the empty string for an element
    without text. *)
Theorem xml_record_keeps_last_of_repeated_tag :
  forall children t,
    PandasFrame.dict_get (record_of_children children) t = last_text_of children t
    /\ (forall v, PandasFrame.dict_get (record_of_children children) t = Some v ->
                  exists s, v = VStr s).
Proof.
  intros children t.
  assert (H : PandasFrame.dict_get (record_of_children children) t
              = last_text_of children t).
  { unfold record_of_children, last_text_of. rewrite fold_children_lookup.
    destruct (find _ (rev children)); reflexivity. }
  split; [exact H |].
  intros v Hv. rewrite H in Hv. unfold last_text_of in Hv.
  destruct (find _ (rev children)) as [c |]; [| discriminate].
  injection Hv as <-. unfold text_or_empty. destruct (el_text c); eexists; reflexivity.
Qed.

(** ** The detector *)

Lemma rstrip_idem s : rstrip (rstrip s) = rstrip s.
Proof.
  induction s as [| c s IH]; [reflexivity |].
  cbn [rstrip]. destruct (rstrip s) as [| a r] eqn:E.
  - destruct (isspace c) eqn:Ec; [reflexivity |]. cbn [rstrip]. rewrite Ec. reflexivity.
  - remember (String a r) as t. cbn [rstrip]. rewrite IH. subst t. reflexivity.
Qed.

Lemma lstrip_no_leading_space s : no_leading_space (lstrip s).
Proof.
  induction s as [| c s IH]; simpl; [exact I |].
  destruct (isspace c) eqn:E; [exact IH | exact E].
Qed.

Lemma lstrip_fixed s : no_leading_space s -> lstrip s = s.
Proof. destruct s as [| c r]; simpl; intros H; [reflexivity | rewrite H; reflexivity]. Qed.

Lemma rstrip_no_leading_space s : no_leading_space s -> no_leading_space (rstrip s).
Proof.
  destruct s as [| c r]; [intros _; exact I |].
  simpl. intros H. destruct (rstrip r); [rewrite H |]; exact H.
Qed.

Lemma strip_idem s : strip (strip s) = strip s.
Proof.
  unfold strip.
  rewrite (lstrip_fixed (rstrip (lstrip s))).
  - apply rstrip_idem.
  - apply rstrip_no_leading_space, lstrip_no_leading_space.
Qed.

(** X5. The detector looks at the stripped text only: white space around
    the text does not change its answer, whatever the libraries do. *)
Theorem detector_ignores_surrounding_whitespace :
  forall json_loads ET_fromstring yaml_safe_load content,
    detect_format_from_content json_loads ET_fromstring yaml_safe_load content
    = detect_format_from_content json_loads ET_fromstring yaml_safe_load (strip content).
Proof.
  intros jl et yl content. unfold detect_format_from_content.
  rewrite strip_idem. reflexivity.
Qed.

Lemma length_split c s : length (split c s) = S (count_char c s).
Proof.
  induction s as [| a s IH]; [reflexivity |].
  cbn [split count_char]. destruct (Ascii.eqb a c).
  - cbn [length]. rewrite IH. reflexivity.
  - destruct (split c s) as [| h t]; [discriminate IH |]. exact IH.
Qed.

Lemma detect_unfold jl et yl content :
  detect_format_from_content jl et yl content
  = let c := strip content in
    let csv_tsv :=
      if Nat.ltb 1 (length (split LF c)) then
        if Nat.ltb (count_char "," (first_line_of c)) (count_char TAB (first_line_of c))
           && Nat.ltb 0 (count_char TAB (first_line_of c))
        then Ret "TSV"
        else if Nat.ltb 0 (count_char "," (first_line_of c)) then Ret "CSV"
        else Ret "Unknown"
      else Ret "Unknown" in
    let yaml := if yaml_hint c then try_return (yl c) "YAML" csv_tsv else csv_tsv in
    let xml := if xml_brackets c then try_return (et c) "XML" yaml else yaml in
    if json_brackets c then try_return (jl c) "JSON" xml else xml.
Proof. reflexivity. Qed.

(** taking the detector's answer apart, test by test *)
Ltac detect_cases H :=
  rewrite detect_unfold in H; cbv zeta in H; unfold try_return in H;
  repeat match type of H with
         | context [if ?b then _ else _] => destruct b eqn:?
         | context [try_except_all (bind ?call _) _] =>
             destruct call eqn:?; cbn [bind try_except_all] in H
         end.

(** X6. An answer CSV or TSV is read off the first line of a text of
    several lines: TSV means more tabs than commas there, CSV means at least
    one comma and no more tabs than commas. A text of one line is never
    answered CSV or TSV. *)
Theorem detector_delimiter_answers :
  forall json_loads ET_fromstring yaml_safe_load content tag,
    detect_format_from_content json_loads ET_fromstring yaml_safe_load content = Ret tag ->
    (tag = "TSV" ->
       0 < count_char LF (strip content)
       /\ count_char "," (first_line_of (strip content))
          < count_char TAB (first_line_of (strip content)))
    /\ (tag = "CSV" ->
          0 < count_char LF (strip content)
          /\ 0 < count_char "," (first_line_of (strip content))
          /\ count_char TAB (first_line_of (strip content))
             <= count_char "," (first_line_of (strip content))).
Proof.
  intros jl et yl content tag H.
  detect_cases H; injection H as <-; split; intros Ht; try discriminate Ht;
    repeat match goal with
           | E : Nat.ltb _ _ = true |- _ => apply Nat.ltb_lt in E
           | E : Nat.ltb _ _ = false |- _ => apply Nat.ltb_ge in E
           | E : andb _ _ = true |- _ => apply andb_true_iff in E; destruct E
           | E : andb _ _ = false |- _ => apply andb_false_iff in E
           | E : context [length (split _ _)] |- _ => rewrite length_split in E
           end;
    repeat split; try lia;
    repeat match goal with
           | E : _ \/ _ |- _ => destruct E
           | E : Nat.ltb _ _ = false |- _ => apply Nat.ltb_ge in E
           end; lia.
Qed.

Lemma detector_delimiter_answers_witness :
  ("CSV" = "TSV" ->
     0 < count_char LF (strip ("a,b,c" ++ nl ++ "1,2,3"))
     /\ count_char "," (first_line_of (strip ("a,b,c" ++ nl ++ "1,2,3")))
        < count_char TAB (first_line_of (strip ("a,b,c" ++ nl ++ "1,2,3"))))
  /\ ("CSV" = "CSV" ->
        0 < count_char LF (strip ("a,b,c" ++ nl ++ "1,2,3"))
        /\ 0 < count_char "," (first_line_of (strip ("a,b,c" ++ nl ++ "1,2,3")))
        /\ count_char TAB (first_line_of (strip ("a,b,c" ++ nl ++ "1,2,3")))
           <= count_char "," (first_line_of (strip ("a,b,c" ++ nl ++ "1,2,3")))).
Proof.
  apply (detector_delimiter_answers Ref.json_loads Sample.ET_fromstring
           Sample.yaml_safe_load ("a,b,c" ++ nl ++ "1,2,3") "CSV").
  reflexivity.
Defined.

(** X7. An answer JSON, XML or YAML means that the library accepted the
    whole stripped text: the detector never gives one of these tags on the
    surface syntax alone. *)
Theorem detector_structured_answers_are_parsed :
  forall json_loads ET_fromstring yaml_safe_load content tag,
    detect_format_from_content json_loads ET_fromstring yaml_safe_load content = Ret tag ->
    (tag = "JSON" ->
       json_brackets (strip content) = true
       /\ exists v, json_loads (strip content) = Ret v)
    /\ (tag = "XML" ->
          xml_brackets (strip content) = true
          /\ exists root, ET_fromstring (strip content) = Ret root)
    /\ (tag = "YAML" ->
          yaml_hint (strip content) = true
          /\ exists v, yaml_safe_load (strip content) = Ret v).
Proof.
  intros jl et yl content tag H.
  detect_cases H; injection H as <-;
    (split; [| split]); intros Ht; try discriminate Ht;
    (split; [reflexivity | eexists; reflexivity]).
Qed.

Lemma detector_structured_answers_are_parsed_witness :
  ("JSON" = "JSON" ->
     json_brackets (strip " [1, 2] ") = true
     /\ exists v, Ref.json_loads (strip " [1, 2] ") = Ret v)
  /\ ("JSON" = "XML" ->
        xml_brackets (strip " [1, 2] ") = true
        /\ exists root, Sample.ET_fromstring (strip " [1, 2] ") = Ret root)
  /\ ("JSON" = "YAML" ->
        yaml_hint (strip " [1, 2] ") = true
        /\ exists v, Sample.yaml_safe_load (strip " [1, 2] ") = Ret v).
Proof.
  apply (detector_structured_answers_are_parsed Ref.json_loads Sample.ET_fromstring
           Sample.yaml_safe_load " [1, 2] " "JSON").
  reflexivity.
Defined.

(** ** Pasted data in converter.py *)

(** X8. Once the detector has answered one of the five formats, only the
    parser of that format is run: when it returns no data its error is
    shown and no other parser is tried (the fallback loop is reached for the
    answer Unknown only); when it returns data, that data is kept. *)
Theorem detected_format_has_no_fallback :
  forall json_loads read_csv ET_fromstring yaml_safe_load data_text format_name parser r,
    In (format_name, parser) (parsers json_loads read_csv ET_fromstring yaml_safe_load) ->
    detect_format_from_content json_loads ET_fromstring yaml_safe_load data_text
    = Ret format_name ->
    parser data_text = Ret r ->
    parse_pasted json_loads read_csv ET_fromstring yaml_safe_load data_text
    = Ret (fst r, snd r,
           [detected format_name;
            if is_None (fst r) then st_error ("❌ " ++ str (snd r))
            else st_success "✅ Data parsed successfully!"]).
Proof.
  intros jl rc et yl text fmt parser [d e] Hin Hdet Hp.
  unfold parse_pasted. rewrite Hdet. cbn [bind fst snd].
  simpl in Hin.
  destruct Hin as [H | [H | [H | [H | [H | []]]]]]; injection H as <- <-;
    simpl String.eqb; cbn [negb]; cbv beta in Hp; rewrite Hp; cbn [bind];
    destruct d; reflexivity.
Qed.

Lemma detected_format_has_no_fallback_witness :
  parse_pasted Ref.json_loads Sample.read_csv Sample.ET_fromstring
    Sample.yaml_safe_load ragged_text
  = Ret (fst (VNone, VStr ("Error parsing CSV: Error tokenizing data. C error: Expected 2 fields in line 3, saw 3" ++ nl)),
         snd (VNone, VStr ("Error parsing CSV: Error tokenizing data. C error: Expected 2 fields in line 3, saw 3" ++ nl)),
         [detected "CSV";
          if is_None (fst (VNone, VStr ("Error parsing CSV: Error tokenizing data. C error: Expected 2 fields in line 3, saw 3" ++ nl)))
          then st_error ("❌ " ++ str (snd (VNone, VStr ("Error parsing CSV: Error tokenizing data. C error: Expected 2 fields in line 3, saw 3" ++ nl))))
          else st_success "✅ Data parsed successfully!"]).
Proof.
  apply (detected_format_has_no_fallback Ref.json_loads Sample.read_csv
           Sample.ET_fromstring Sample.yaml_safe_load ragged_text "CSV"
           (fun t => parse_csv_file Sample.read_csv t ",")).
  - simpl. right. left. reflexivity.
  - reflexivity.
  - vm_compute. reflexivity.
Defined.

(** ** Validation and the XML generator *)

Lemma sequence_raises {A} (ms : list (outcome A)) e :
  In (Raise e) ms -> exists e', sequence ms = Raise e'.
Proof.
  induction ms as [| m ms IH]; intros H; [destruct H |].
  simpl. destruct m as [a | e0]; [| eexists; reflexivity].
  destruct H as [H | H]; [discriminate |].
  destruct (IH H) as [e' ->]. eexists. reflexivity.
Qed.

Lemma record_elem_not_dict i v :
  is_dict v = false ->
  record_elem (i, v) = Raise (Exn OtherError "object has no attribute 'items'").
Proof. destruct v; simpl; intros H; try reflexivity; discriminate. Qed.

Lemma in_enumerate_from {A} (l : list A) x : forall i,
  In x l -> exists j, In (j, x) (enumerate_from i l).
Proof.
  induction l as [| a l IH]; intros i H; [destruct H |].
  destruct H as [-> | H].
  - exists i. left. reflexivity.
  - destruct (IH (S i) H) as [j Hj]. exists j. right. exact Hj.
Qed.

(** X9. The validation looks at the first element only. A list that starts
    with a dict passes it, in both scripts, even when a later element is not
    a dict; on such a list the XML generator raises, before any text is
    produced. *)
Theorem validation_checks_first_element_only :
  forall ET_tostring minidom_parseString toprettyxml d rest v,
    In v rest ->
    is_dict v = false ->
    validate_data (VList (VDict d :: rest)) = (true, "Data is valid")
    /\ is_record_list (VList (VDict d :: rest)) = true
    /\ exists e,
         generate_xml_output ET_tostring minidom_parseString toprettyxml
           (VList (VDict d :: rest)) = Raise e.
Proof.
  intros ts ps pp d rest v Hin Hv. split; [reflexivity | split; [reflexivity |]].
  unfold generate_xml_output, build_tree.
  destruct (in_enumerate_from (VDict d :: rest) v 0 (or_intror Hin)) as [j Hj].
  destruct (sequence_raises (map record_elem (enumerate_from 0 (VDict d :: rest)))
              (Exn OtherError "object has no attribute 'items'")) as [e' He'].
  - apply in_map_iff. exists (j, v). split; [apply record_elem_not_dict; exact Hv | exact Hj].
  - rewrite He'. eexists. reflexivity.
Qed.

Lemma validation_checks_first_element_only_witness :
  validate_data (VList [VDict [("a", VInt 1)]; VInt 5]) = (true, "Data is valid")
  /\ is_record_list (VList [VDict [("a", VInt 1)]; VInt 5]) = true
  /\ exists e,
       generate_xml_output Ref.ET_tostring Ref.minidom_parseString Ref.toprettyxml
         (VList [VDict [("a", VInt 1)]; VInt 5]) = Raise e.
Proof.
  apply (validation_checks_first_element_only Ref.ET_tostring Ref.minidom_parseString
           Ref.toprettyxml [("a", VInt 1)] [VInt 5] (VInt 5)).
  - left. reflexivity.
  - reflexivity.
Defined.

(** ** From the JSON generator to the paste box of converter.py *)

Lemma last_char_app_one s c : last_char (s ++ String c "") = Some c.
Proof.
  induction s as [| a s IH]; [reflexivity |].
  cbn [append last_char]. destruct (s ++ String c "") eqn:E; [| exact IH].
  destruct s; discriminate E.
Qed.

Lemma rstrip_app_nonspace s c :
  isspace c = false -> rstrip (s ++ String c "") = s ++ String c "".
Proof.
  intros Hc. induction s as [| a s IH].
  - simpl. rewrite Hc. reflexivity.
  - cbn [append rstrip]. rewrite IH.
    destruct (s ++ String c "") eqn:E; [destruct s; discriminate E | reflexivity].
Qed.

Lemma dumps_in_brackets records :
  exists body, dumps (VList (map VDict records)) = String "[" body ++ "]".
Proof.
  unfold dumps. destruct records as [| r more].
  - exists "". reflexivity.
  - change (map VDict (r :: more)) with (VDict r :: map VDict more).
    rewrite iterencode_list. eexists.
    cbn [append]. rewrite <- !str_app_assoc. reflexivity.
Qed.

Lemma strip_dumps records :
  strip (dumps (VList (map VDict records))) = dumps (VList (map VDict records)).
Proof.
  destruct (dumps_in_brackets records) as [body ->].
  unfold strip. rewrite (lstrip_fixed (String "[" body ++ "]") eq_refl).
  apply rstrip_app_nonspace. reflexivity.
Qed.

Lemma json_brackets_dumps records :
  json_brackets (dumps (VList (map VDict records))) = true.
Proof.
  destruct (dumps_in_brackets records) as [body ->].
  unfold json_brackets, endswith_char. rewrite last_char_app_one.
  unfold startswith. cbn [append]. simpl. destruct (body ++ "]"); reflexivity.
Qed.

(** X10. The text of the JSON generator, pasted into converter.py, is
    detected as JSON and parsed back to the record set it was made from: for
    flat records with distinct keys and null, boolean, integer and string
    values, whatever the other libraries do. *)
Theorem generated_json_is_detected_and_parsed_back :
  forall read_csv ET_fromstring yaml_safe_load records,
    Forall json_flat_record records ->
    generate_json_output Ref.json_dumps (VList (map VDict records))
    = Ret (dumps (VList (map VDict records)), "application/json", ".json")
    /\ detect_format_from_content Ref.json_loads ET_fromstring yaml_safe_load
         (dumps (VList (map VDict records))) = Ret "JSON"
    /\ parse_pasted Ref.json_loads read_csv ET_fromstring yaml_safe_load
         (dumps (VList (map VDict records)))
       = Ret (VList (map VDict records), VNone,
              [detected "JSON"; st_success "✅ Data parsed successfully!"]).
Proof.
  intros rc et yl records Hall.
  pose proof (loads_dumps_records records Hall) as Hl.
  assert (Hdet : detect_format_from_content Ref.json_loads et yl
                   (dumps (VList (map VDict records))) = Ret "JSON").
  { rewrite detect_unfold. cbv zeta. rewrite strip_dumps, json_brackets_dumps.
    unfold try_return, Ref.json_loads. rewrite Hl. reflexivity. }
  split; [reflexivity | split; [exact Hdet |]].
  unfold parse_pasted. rewrite Hdet. cbn [bind]. simpl String.eqb. cbn [negb].
  unfold parse_json_file, Ref.json_loads. rewrite Hl. reflexivity.
Qed.

Lemma generated_json_is_detected_and_parsed_back_witness :
  generate_json_output Ref.json_dumps (VList (map VDict sample_records))
  = Ret (dumps (VList (map VDict sample_records)), "application/json", ".json")
  /\ detect_format_from_content Ref.json_loads Sample.ET_fromstring Sample.yaml_safe_load
       (dumps (VList (map VDict sample_records))) = Ret "JSON"
  /\ parse_pasted Ref.json_loads Sample.read_csv Sample.ET_fromstring
       Sample.yaml_safe_load (dumps (VList (map VDict sample_records)))
     = Ret (VList (map VDict sample_records), VNone,
            [detected "JSON"; st_success "✅ Data parsed successfully!"]).
Proof.
  apply (generated_json_is_detected_and_parsed_back Sample.read_csv
           Sample.ET_fromstring Sample.yaml_safe_load sample_records).
  repeat constructor; simpl; intros H;
    repeat (destruct H as [H | H]; try discriminate H); exact H.
Defined.

(** ** The XML generator read back by the XML parser *)

Lemma record_of_children_fields fields :
  record_of_children (map field_elem fields) = dict_of_pairs (map read_back_field fields).
Proof.
  unfold record_of_children, dict_of_pairs. generalize (@nil (string * value)).
  induction fields as [| kv fields IH]; intros acc; [reflexivity |].
  cbn [map fold_left]. rewrite IH. reflexivity.
Qed.

Lemma read_back_record_element ir :
  match el_children (record_element ir) with
  | [] => VDict (dict_set [] (el_tag (record_element ir))
                          (text_or_empty (record_element ir)))
  | subs => VDict (record_of_children subs)
  end = read_back_record ir.
Proof.
  destruct ir as [i fields]. unfold record_element, read_back_record.
  cbn [fst snd el_children]. destruct fields as [| kv fields]; [reflexivity |].
  rewrite <- record_of_children_fields. reflexivity.
Qed.

(** X11. Reading back, with the record builder of the XML parsers, the tree
    that the XML generator builds: every value comes back as a string (None
    as the empty string), every field name with its spaces as underscores
    (two names that become equal are one field, with the later value); a
    record without fields comes back as one field named after its element,
    and an empty record set comes back as one empty record. *)
Theorem xml_tree_read_back :
  forall records,
    build_tree (VList (map VDict records))
    = Ret (Element "data" None (map record_element (enumerate_from 0 records)))
    /\ xml_records (Element "data" None (map record_element (enumerate_from 0 records)))
       = match records with
         | [] => VList [VDict []]
         | _ => VList (map read_back_record (enumerate_from 0 records))
         end.
Proof.
  intros records. split; [apply build_tree_records |].
  unfold xml_records. cbn [el_children].
  destruct records as [| r more]; [reflexivity |].
  cbn [enumerate_from map]. f_equal. f_equal.
  - apply read_back_record_element.
  - rewrite map_map. apply map_ext. intros ir. apply read_back_record_element.
Qed.

(** ** Uploaded files *)

Lemma ltb_lines c s : Nat.ltb 1 (length (split c s)) = Nat.ltb 0 (count_char c s).
Proof. rewrite length_split. reflexivity. Qed.

(** X12. In a text file whose stripped content is of several lines and is
    not taken as JSON, a tab in the first line is enough for the TSV parser
    to be used on the stripped content, however many commas the line has
    (the detector of pasted data compares the two counts instead). *)
Theorem text_file_tab_selects_tsv :
  forall json_loads read_csv content,
    startswith "[" (strip content) || startswith "{" (strip content) = false ->
    0 < count_char LF (strip content) ->
    contains (String TAB "") (first_line_of (strip content)) = true ->
    parse_text_file json_loads read_csv content
    = parse_tsv_file read_csv (strip content).
Proof.
  intros jl rc content Hj Hl Ht. unfold parse_text_file. cbv zeta.
  rewrite Hj, ltb_lines. apply Nat.ltb_lt in Hl. rewrite Hl.
  unfold first_line_of in Ht. rewrite Ht. reflexivity.
Qed.

Lemma text_file_tab_selects_tsv_witness :
  parse_text_file Ref.json_loads Ref.read_csv
    ("a,b,c" ++ String TAB "d" ++ nl ++ "1,2,3" ++ String TAB "4")
  = parse_tsv_file Ref.read_csv
      (strip ("a,b,c" ++ String TAB "d" ++ nl ++ "1,2,3" ++ String TAB "4")).
Proof.
  apply (text_file_tab_selects_tsv Ref.json_loads Ref.read_csv
           ("a,b,c" ++ String TAB "d" ++ nl ++ "1,2,3" ++ String TAB "4"));
    [reflexivity | vm_compute; lia | reflexivity].
Defined.

(** X13. A text file of a single line that is not JSON gets the message
    Unable to detect format, and so does a single line that starts like JSON
    but does not decode: the JSON error is not reported. *)
Theorem text_file_single_line_is_not_detected :
  forall json_loads read_csv content,
    count_char LF (strip content) = 0 ->
    (startswith "[" (strip content) || startswith "{" (strip content) = false
     \/ exists msg, json_loads (strip content) = Raise (Exn JSONDecodeError msg)) ->
    parse_text_file json_loads read_csv content
    = Ret (VNone, VStr "Unable to detect format. Please specify the file type.").
Proof.
  intros jl rc content Hl Hj. unfold parse_text_file. cbv zeta.
  rewrite ltb_lines, Hl. cbn [Nat.ltb Nat.leb].
  destruct Hj as [Hj | [msg Hj]].
  - rewrite Hj. reflexivity.
  - destruct (startswith "[" (strip content) || startswith "{" (strip content));
      [| reflexivity].
    unfold parse_json_file. rewrite Hj. reflexivity.
Qed.

Lemma text_file_single_line_is_not_detected_witness :
  parse_text_file Ref.json_loads Ref.read_csv "{name: John, age: 30"
  = Ret (VNone, VStr "Unable to detect format. Please specify the file type.").
Proof.
  apply (text_file_single_line_is_not_detected Ref.json_loads Ref.read_csv
           "{name: John, age: 30").
  - reflexivity.
  - right. eexists. vm_compute. reflexivity.
Defined.

Lemma parse_csv_file_returns rc content d : exists r, parse_csv_file rc content d = Ret r.
Proof. unfold parse_csv_file. destruct (rc content d); eexists; reflexivity. Qed.

(** X14. Processing an uploaded file never raises, whatever the libraries
    do and whatever the name and the content of the file are: an exception
    of a parser becomes an error message. *)
Theorem process_uploaded_file_never_raises :
  forall json_loads read_csv ET_fromstring yaml_safe_load f,
    exists r,
      process_uploaded_file json_loads read_csv ET_fromstring yaml_safe_load f = Ret r.
Proof.
  intros jl rc et yl f. unfold process_uploaded_file. cbv zeta.
  destruct (str_in _ _); [| eexists; reflexivity].
  destruct (up_read f) as [text |]; [| eexists; reflexivity].
  match goal with |- context [try_except_all ?body _] => destruct body end;
    eexists; reflexivity.
Qed.

Lemma count_char_app c a b : count_char c (a ++ b) = count_char c a + count_char c b.
Proof. induction a as [| x a IH]; simpl; [reflexivity | rewrite IH; lia]. Qed.

Lemma split_no_sep c s : count_char c s = 0 -> split c s = [s].
Proof.
  induction s as [| a s IH]; [reflexivity |].
  cbn [count_char split]. destruct (Ascii.eqb a c); [discriminate |].
  intros H. rewrite (IH H). reflexivity.
Qed.

Lemma last_cons_nonempty {A} (x : A) l d : l <> [] -> last (x :: l) d = last l d.
Proof. destruct l; [congruence | reflexivity]. Qed.

Lemma split_two_parts c a b : 2 <= length (split c (a ++ String c b)).
Proof.
  rewrite length_split, count_char_app. cbn [count_char].
  rewrite Ascii.eqb_refl. lia.
Qed.

Lemma last_split_app c a b :
  last (split c (a ++ String c b)) "" = last (split c b) "".
Proof.
  induction a as [| x a IH].
  - cbn [append split]. rewrite Ascii.eqb_refl. apply last_cons_nonempty.
    pose proof (length_split c b) as H. destruct (split c b); [discriminate | congruence].
  - cbn [append split]. pose proof (split_two_parts c a b) as H2.
    destruct (Ascii.eqb x c).
    + rewrite last_cons_nonempty; [exact IH |].
      destruct (split c (a ++ String c b)); [simpl in H2; lia | congruence].
    + destruct (split c (a ++ String c b)) as [| h [| h2 t]] eqn:E;
        try (simpl in H2; lia).
      exact IH.
Qed.

Lemma file_extension_of_suffix stem e :
  count_char "." e = 0 -> file_extension_of (stem ++ String "." e) = lower e.
Proof.
  intros H. unfold file_extension_of. rewrite last_split_app, (split_no_sep _ _ H).
  reflexivity.
Qed.

(** X15. The parser of an uploaded file is chosen by what follows the last
    dot of its name, letter case ignored: a name that ends in a dot and the
    letters csv, in any case, is parsed with the CSV parser, and the result
    is exactly that parser's. *)
Theorem upload_extension_is_case_insensitive :
  forall json_loads read_csv ET_fromstring yaml_safe_load stem e content,
    count_char "." e = 0 ->
    lower e = "csv" ->
    process_uploaded_file json_loads read_csv ET_fromstring yaml_safe_load
      (Upload (stem ++ String "." e) (Utf8 content))
    = parse_csv_file read_csv content ",".
Proof.
  intros jl rc et yl stem e content Hdot Hlow.
  unfold process_uploaded_file. cbv zeta. cbn [up_name up_read].
  rewrite (file_extension_of_suffix stem e Hdot), Hlow.
  change (str_in "csv" ["json"; "csv"; "tsv"; "txt"; "xml"; "yaml"; "yml"]) with true.
  cbv iota. change (String.eqb "csv" "json") with false.
  change (String.eqb "csv" "csv") with true. cbv iota.
  destruct (parse_csv_file_returns rc content ",") as [r ->]. reflexivity.
Qed.

Lemma upload_extension_is_case_insensitive_witness :
  process_uploaded_file Ref.json_loads Ref.read_csv Sample.ET_fromstring
    Sample.yaml_safe_load
    (Upload ("Sales.2024" ++ String "." "CsV") (Utf8 ("a,b" ++ nl ++ "1,2")))
  = parse_csv_file Ref.read_csv ("a,b" ++ nl ++ "1,2") ",".
Proof.
  apply (upload_extension_is_case_insensitive Ref.json_loads Ref.read_csv
           Sample.ET_fromstring Sample.yaml_safe_load "Sales.2024" "CsV");
    reflexivity.
Defined.

(** ** More on the XML generator *)

(** X16. On a list of dicts the XML generator returns a text with the XML
    mime type and extension as soon as the tree is serialized: whatever the
    DOM parser and the pretty-printer do, raising included, the bare except
    turns a failure into the serialized text. *)
Theorem xml_generator_always_returns_text :
  forall ET_tostring minidom_parseString toprettyxml records rough_string,
    ET_tostring (Element "data" None (map record_element (enumerate_from 0 records)))
    = Ret rough_string ->
    exists text,
      generate_xml_output ET_tostring minidom_parseString toprettyxml
        (VList (map VDict records))
      = Ret (text, "application/xml", ".xml")
      /\ (text = rough_string
          \/ exists dom, minidom_parseString rough_string = Ret dom
                         /\ toprettyxml dom "  " = Ret text).
Proof.
  intros ts ps pp records rough Hs. unfold generate_xml_output.
  rewrite build_tree_records. cbn [bind]. rewrite Hs. cbn [bind].
  destruct (ps rough) as [dom | e] eqn:Ep; cbn [bind try_except_all].
  - destruct (pp dom "  ") as [pretty | e] eqn:Et; cbn [bind try_except_all].
    + exists pretty. split; [reflexivity |]. right. exists dom. split; [reflexivity | exact Et].
    + exists rough. split; [reflexivity | left; reflexivity].
  - exists rough. split; [reflexivity | left; reflexivity].
Qed.

Lemma xml_generator_always_returns_text_witness :
  exists text,
    generate_xml_output Ref.ET_tostring Ref.minidom_parseString Ref.toprettyxml
      (VList (map VDict [[("1a", VStr "x")]]))
    = Ret (text, "application/xml", ".xml")
    /\ (text = "<data><record_1><1a>x</1a></record_1></data>"
        \/ exists dom,
             Ref.minidom_parseString "<data><record_1><1a>x</1a></record_1></data>"
             = Ret dom
             /\ Ref.toprettyxml dom "  " = Ret text).
Proof.
  apply (xml_generator_always_returns_text Ref.ET_tostring Ref.minidom_parseString
           Ref.toprettyxml [[("1a", VStr "x")]]).
  reflexivity.
Defined.

Lemma replace_char_count a b s :
  a <> b -> count_char a (replace_char a b s) = 0.
Proof.
  intros Hab. induction s as [| c s IH]; [reflexivity |].
  cbn [replace_char count_char]. rewrite IH.
  destruct (Ascii.eqb_spec c a) as [-> | Hca].
  - destruct (Ascii.eqb_spec b a); [congruence | reflexivity].
  - destruct (Ascii.eqb_spec c a); [congruence | reflexivity].
Qed.

Lemma replace_char_length a b s : String.length (replace_char a b s) = String.length s.
Proof. induction s as [| c s IH]; simpl; [reflexivity | rewrite IH; reflexivity]. Qed.

Lemma replace_char_absent a b s : count_char a s = 0 -> replace_char a b s = s.
Proof.
  induction s as [| c s IH]; [reflexivity |].
  cbn [replace_char count_char]. destruct (Ascii.eqb c a); [discriminate |].
  intros H. rewrite (IH H). reflexivity.
Qed.

(** X17. The element name of a field never has a space and has the length
    of the field name; a field name without a space is used as it is: the
    generator changes no other character, so a name that is not an XML name
    for another reason stays one. *)
Theorem xml_field_tag_has_no_space :
  forall key v,
    count_char " " (el_tag (field_elem (key, v))) = 0
    /\ String.length (el_tag (field_elem (key, v))) = String.length key
    /\ (count_char " " key = 0 -> el_tag (field_elem (key, v)) = key).
Proof.
  intros key v. cbn [field_elem el_tag fst]. split; [| split].
  - apply replace_char_count. discriminate.
  - apply replace_char_length.
  - apply replace_char_absent.
Qed.

(** ** A CSV text that is a header only *)

(** X18. A CSV text of one line is parsed as a header without rows: the
    parser succeeds with an empty list, which the validation of converter.py
    then refuses as an empty array and the test of new_converter.py as not a
    list of objects. *)
Theorem csv_header_only_is_empty_data :
  forall convert content d file_line header,
    tokenize d content = ([(file_line, header)], None) ->
    parse_csv_data (read_csv convert) content d = Ret (VList [], VNone)
    /\ succeeded (parse_csv_data (read_csv convert) content d) = true
    /\ validate_data (VList []) = (false, "Data array is empty")
    /\ is_record_list (VList []) = false.
Proof.
  intros convert content d fl header Htok.
  assert (H : parse_csv_data (read_csv convert) content d = Ret (VList [], VNone)).
  { unfold parse_csv_data, read_csv. rewrite Htok. reflexivity. }
  split; [exact H |]. rewrite H. repeat split.
Qed.

Lemma csv_header_only_is_empty_data_witness :
  parse_csv_data (read_csv infer_column) "name,age,city" "," = Ret (VList [], VNone)
  /\ succeeded (parse_csv_data (read_csv infer_column) "name,age,city" ",") = true
  /\ validate_data (VList []) = (false, "Data array is empty")
  /\ is_record_list (VList []) = false.
Proof.
  apply (csv_header_only_is_empty_data infer_column "name,age,city" ","
           1 ["name"; "age"; "city"]).
  reflexivity.
Defined.
